(** * Rigid-body offset reprojection: a shallow embedding and its properties

    The development follows the Python sources of the tracker:

    - [position_calculations.py]: [quaternion_to_rotation_matrix],
      [calculate_updated_stylus_position], [calculate_position_error],
      [convert_to_millimeters], [convert_to_meters];
    - [visualize_points.py]: [load_csv_data], [calculate_point_position],
      and the two loops of [visualize_points] that collect the points and
      join them;
    - [realtime_visualization.py]: [load_reference_data],
      [update_tracker_data], [calculate_planes], [create_plane_polygon];
    - [simple_realtime_viz.py]: [load_reference_data] (the same code) and
      [calculate_updated_positions];
    - [rigid_body_tracker.py]: [calculate_mapped_point],
      [on_rigid_body_received], [store_positions], [capture_reference],
      [calculate_updated_position], as the keys of [keyboard_input_handler]
      call them.

    Plotting, threads, the connection to the pose server, the clock and
    what is printed or written to files are not modelled.

    The numeric code is written once, over an interface [Scalar] of the
    arithmetic the sources use.  Two instances are given: IEEE binary64
    (what Python and numpy compute with), on which the definitions run, and
    the real numbers, the exact arithmetic in which the algebraic properties
    are stated and proved.  Rounding, overflow and NaN are visible only in
    the binary64 instance. *)

From Stdlib Require Import ZArith List Ascii String.
From Stdlib Require Import PrimFloat Uint63.
From Stdlib Require Import Reals Lra RNsatz.
From stdpp Require Import gmap strings pretty.

(** ** Scalars *)

Class Scalar (T : Type) := {
  lit : Z -> T;             (* a Python numeric literal: 0, 1, 2, 1000 *)
  add : T -> T -> T;
  sub : T -> T -> T;
  mul : T -> T -> T;
  div : T -> T -> T;
  np_sqrt : T -> T;         (* np.sqrt *)
  is_zero : T -> bool       (* the test [v == 0] *)
}.

Declare Scope scalar_scope.
Delimit Scope scalar_scope with sc.
Infix "+" := add : scalar_scope.
Infix "-" := sub : scalar_scope.
Infix "*" := mul : scalar_scope.
Infix "/" := div : scalar_scope.

(** Exact arithmetic. *)
#[export] Instance R_scalar : Scalar R := {|
  lit := IZR;
  add := Rplus;
  sub := Rminus;
  mul := Rmult;
  div := Rdiv;
  np_sqrt := R_sqrt.sqrt;
  is_zero := fun r => if Req_dec_T r 0%R then true else false
|}.

(** IEEE 754 binary64, the [float] of Python and the [float64] of numpy. *)
Definition float_of_Z (z : Z) : float :=
  match z with
  | Zneg p => PrimFloat.opp (PrimFloat.of_uint63 (Uint63.of_Z (Zpos p)))
  | _ => PrimFloat.of_uint63 (Uint63.of_Z z)
  end.

#[export] Instance float_scalar : Scalar float := {|
  lit := float_of_Z;
  add := PrimFloat.add;
  sub := PrimFloat.sub;
  mul := PrimFloat.mul;
  div := PrimFloat.div;
  np_sqrt := PrimFloat.sqrt;
  is_zero := fun v => PrimFloat.eqb v 0%float
|}.

(** ** Exceptions *)

Inductive exn :=
  | FileNotFoundError
  | OSError
  | KeyError
  | ValueError
  | TypeError
  | IndexError.

Inductive result (A : Type) :=
  | Ok (a : A)
  | Raise (e : exn).
Arguments Ok {A} a.
Arguments Raise {A} e.

Definition bind {A B} (m : result A) (k : A -> result B) : result B :=
  match m with
  | Ok a => k a
  | Raise e => Raise e
  end.

Notation "'let!' x ':=' m 'in' k" := (bind m (fun x => k))
  (at level 10, x name, m at level 100, k at level 200).

(** [try: body except Exception: handler]. *)
Definition try_except {A} (body : result A) (handler : exn -> result A) : result A :=
  match body with
  | Ok a => Ok a
  | Raise e => handler e
  end.

Definition raises {A} (m : result A) : Prop := exists e, m = Raise e.

(** ** position_calculations.py *)

Section PositionCalculator.
Context {T : Type} `{Scalar T}.
Local Open Scope scalar_scope.

(** One-dimensional numpy arrays are lists, two-dimensional ones lists of
    rows. *)

(** [np.eye(n)] *)
Definition np_eye (n : nat) : list (list T) :=
  map (fun i => map (fun j => if Nat.eqb i j then lit 1 else lit 0) (seq 0 n)) (seq 0 n).

(** Elementwise arithmetic on two one-dimensional arrays: equal lengths,
    or one of them of length one (broadcast); anything else is a
    [ValueError]. *)
Definition np_elementwise (f : T -> T -> T) (a b : list T) : result (list T) :=
  if Nat.eqb (length a) (length b) then Ok (zip_with f a b)
  else match a, b with
       | [x], _ => Ok (map (f x) b)
       | _, [y] => Ok (map (fun x => f x y) a)
       | _, _ => Raise ValueError
       end.

(** [np.sum] of a one-dimensional array. *)
Definition np_sum (a : list T) : T := fold_left add a (lit 0).

(** One entry of [M @ v]; numpy does not fix the order of the additions,
    here they go from left to right. *)
Definition dot (a b : list T) : T := np_sum (zip_with mul a b).

(** [M.T] *)
Fixpoint transpose (M : list (list T)) : list (list T) :=
  match M with
  | [] => []
  | [r] => map (fun x => [x]) r
  | r :: M' => zip_with cons r (transpose M')
  end.

(** [M @ v] for a two-dimensional [M] and a one-dimensional [v]. *)
Definition matvec (M : list (list T)) (v : list T) : result (list T) :=
  if forallb (fun r => Nat.eqb (length r) (length v)) M
  then Ok (map (fun r => dot r v) M)
  else Raise ValueError.

Definition quaternion_to_rotation_matrix (q : list T) : result (list (list T)) :=
  match q with
  | [x; y; z; w] =>
      let norm := np_sqrt (x*x + y*y + z*z + w*w) in
      if is_zero norm then Ok (np_eye 3)
      else
        let x := x / norm in
        let y := y / norm in
        let z := z / norm in
        let w := w / norm in
        Ok [ [lit 1 - lit 2 * (y*y + z*z); lit 2 * (x*y - w*z); lit 2 * (x*z + w*y)];
             [lit 2 * (x*y + w*z); lit 1 - lit 2 * (x*x + z*z); lit 2 * (y*z - w*x)];
             [lit 2 * (x*z - w*y); lit 2 * (y*z + w*x); lit 1 - lit 2 * (x*x + y*y)] ]
  | _ => Raise ValueError
  end.

Definition calculate_updated_stylus_position
    (reference_position reference_rotation reference_stylus_pos
     new_position new_rotation : list T) : result (list T) :=
  let ref_pos := reference_position in
  let ref_rot := reference_rotation in
  let ref_stylus := reference_stylus_pos in
  let new_pos := new_position in
  let new_rot := new_rotation in
  let! R_ref := quaternion_to_rotation_matrix ref_rot in
  let! R_new := quaternion_to_rotation_matrix new_rot in
  let! offset_in_ref_frame := np_elementwise sub ref_stylus ref_pos in
  let! offset_local := matvec (transpose R_ref) offset_in_ref_frame in
  let! offset_in_new_frame := matvec R_new offset_local in
  let! new_stylus_pos := np_elementwise add new_pos offset_in_new_frame in
  Ok new_stylus_pos.

Record position_error := {
  x_error : T;
  y_error : T;
  z_error : T;
  magnitude : T
}.

(** [a[i]] *)
Definition getitem (a : list T) (i : nat) : result T :=
  match nth_error a i with
  | Some v => Ok v
  | None => Raise IndexError
  end.

Definition calculate_position_error
    (calculated_position actual_position : list T) : result position_error :=
  let calc_pos := calculated_position in
  let actual_pos := actual_position in
  let! error := np_elementwise sub actual_pos calc_pos in
  let error_magnitude := np_sqrt (np_sum (map (fun e => e * e) error)) in
  let! e0 := getitem error 0 in
  let! e1 := getitem error 1 in
  let! e2 := getitem error 2 in
  Ok {| x_error := e0; y_error := e1; z_error := e2; magnitude := error_magnitude |}.

Definition convert_to_millimeters (position_meters : list T) : list T :=
  map (fun pos => pos * lit 1000) position_meters.

Definition convert_to_meters (position_millimeters : list T) : list T :=
  map (fun pos => pos / lit 1000) position_millimeters.

End PositionCalculator.

Arguments position_error : clear implicits.

(** ** The reference catalog

    A row of [csv.DictReader] is a dictionary from the column names of the
    header to the cells of the row.  A cell is the text of the cell, or
    [None] where the row is shorter than the header: the reader fills the
    columns that the row does not reach with [None].  A column that the
    header does not have is not a key of the row.  [source] is what
    [open(csv_filename, 'r')] finds under the file name.  Of the text
    printed to the terminal, only what can raise is modelled. *)

Abbreviation cell := (option string).

Abbreviation row := (gmap string cell).

Inductive source :=
  | Absent                       (* no such file: FileNotFoundError *)
  | Unreadable                   (* any other failure of open: OSError *)
  | Csv (rows : list row).

Definition open_csv (csvfile : source) : result (list row) :=
  match csvfile with
  | Absent => Raise FileNotFoundError
  | Unreadable => Raise OSError
  | Csv rows => Ok rows
  end.

(** [for row in reader: body], threading the variables the body updates. *)
Fixpoint for_rows {S : Type} (body : S -> row -> result S) (rows : list row) (st : S)
  : result S :=
  match rows with
  | [] => Ok st
  | r :: rows' => let! st' := body st r in for_rows body rows' st'
  end.

Section RowAccess.
Context {T : Type} (py_float : string -> option T).

(** [row[key]]: [KeyError] for a column that the header does not have. *)
Definition row_get (r : row) (key : string) : result cell :=
  match r !! key with
  | Some c => Ok c
  | None => Raise KeyError
  end.

(** [float(row[key])]; [py_float] is Python's [float], the conversion of
    text to a number, undefined on text that is not a numeral; on [None],
    [float] raises [TypeError]. *)
Definition row_float (r : row) (key : string) : result T :=
  let! c := row_get r key in
  match c with
  | None => Raise TypeError
  | Some s =>
      match py_float s with
      | Some v => Ok v
      | None => Raise ValueError
      end
  end.

(** [row[key] == label] *)
Definition cell_eqb (c : cell) (label : string) : bool :=
  match c with
  | Some s => String.eqb s label
  | None => false
  end.
End RowAccess.

(** [', '.join(sorted(points.keys()))], the text of the message for a label
    that is not there: with [None] among the keys, [sorted] cannot compare
    it with a label, and [join] does not take it: [TypeError].  The text is
    only printed. *)
Definition join_sorted_keys {V : Type} (points : gmap cell V) : result unit :=
  match points !! None with
  | Some _ => Raise TypeError
  | None => Ok tt
  end.

Module visualize_points.
Section Defs.
Context {T : Type} `{Scalar T} (py_float : string -> option T).

Record point_entry := {
  femur : list T;
  stylus : list T
}.

Definition load_csv_row (points : gmap cell point_entry) (r : row)
  : result (gmap cell point_entry) :=
  let! point_number := row_get r "Point_Number" in
  let! fx := row_float py_float r "Femur_Pos_X_mm" in
  let! fy := row_float py_float r "Femur_Pos_Y_mm" in
  let! fz := row_float py_float r "Femur_Pos_Z_mm" in
  let femur_pos := [fx; fy; fz] in
  let! sx := row_float py_float r "Stylus_Pos_X_mm" in
  let! sy := row_float py_float r "Stylus_Pos_Y_mm" in
  let! sz := row_float py_float r "Stylus_Pos_Z_mm" in
  let stylus_pos := [sx; sy; sz] in
  Ok (<[point_number := {| femur := femur_pos; stylus := stylus_pos |}]> points).

Definition load_csv_data (filename : source) : result (gmap cell point_entry) :=
  let points := ∅ in
  let! rows := open_csv filename in
  for_rows load_csv_row rows points.

(** The second pass over the file: the rotation of the first row whose
    label is [point_label], [None] when the loop ends without one. *)
Fixpoint find_femur_rotation (rows : list row) (point_label : string)
  : result (option (list T)) :=
  match rows with
  | [] => Ok None
  | r :: rows' =>
      let! point_number := row_get r "Point_Number" in
      if cell_eqb point_number point_label then
        let! qw := row_float py_float r "Femur_Rot_W" in
        let! qx := row_float py_float r "Femur_Rot_X" in
        let! qy := row_float py_float r "Femur_Rot_Y" in
        let! qz := row_float py_float r "Femur_Rot_Z" in
        Ok (Some [qw; qx; qy; qz])
      else find_femur_rotation rows' point_label
  end.

Record point_position := {
  point_label : string;
  calculated_position_mm : list T;
  current_femur_pos_mm : list T;
  reference_femur_pos_mm : list T;
  reference_stylus_pos_mm : list T;
  reference_femur_rotation : list T
}.

Definition calculate_point_position (point_label : string)
    (current_femur_pos_meters current_femur_rot_quat : list T)
    (csv_filename : source) : result (option point_position) :=
  let! points := load_csv_data csv_filename in
  match points !! Some point_label with
  | None =>
      let! available_points := join_sorted_keys points in
      Ok None
  | Some entry =>
      let ref_femur_pos_mm := femur entry in
      let ref_stylus_pos_mm := stylus entry in
      let! rows := open_csv csv_filename in
      let! femur_rotation := find_femur_rotation rows point_label in
      match femur_rotation with
      | None => Ok None
      | Some femur_rotation =>
          let ref_femur_pos_meters := convert_to_meters ref_femur_pos_mm in
          let ref_stylus_pos_meters := convert_to_meters ref_stylus_pos_mm in
          let current_femur_pos_mm := convert_to_millimeters current_femur_pos_meters in
          let! calculated_position_mm :=
            calculate_updated_stylus_position
              ref_femur_pos_mm femur_rotation ref_stylus_pos_mm
              current_femur_pos_mm current_femur_rot_quat in
          Ok (Some {| point_label := point_label;
                      calculated_position_mm := calculated_position_mm;
                      current_femur_pos_mm := current_femur_pos_mm;
                      reference_femur_pos_mm := ref_femur_pos_mm;
                      reference_stylus_pos_mm := ref_stylus_pos_mm;
                      reference_femur_rotation := femur_rotation |})
      end
  end.

End Defs.
End visualize_points.

Module realtime_visualization.
Section Defs.
Context {T : Type} `{Scalar T} (py_float : string -> option T).

Record reference_entry := {
  femur_pos : list T;
  femur_rot : list T;
  stylus_pos : list T
}.

Definition load_reference_row (reference_data : gmap cell reference_entry) (r : row)
  : result (gmap cell reference_entry) :=
  let! point_number := row_get r "Point_Number" in
  let! fx := row_float py_float r "Femur_Pos_X_mm" in
  let! fy := row_float py_float r "Femur_Pos_Y_mm" in
  let! fz := row_float py_float r "Femur_Pos_Z_mm" in
  let femur_pos := [fx; fy; fz] in
  let! qw := row_float py_float r "Femur_Rot_W" in
  let! qx := row_float py_float r "Femur_Rot_X" in
  let! qy := row_float py_float r "Femur_Rot_Y" in
  let! qz := row_float py_float r "Femur_Rot_Z" in
  let femur_rot := [qw; qx; qy; qz] in
  let! sx := row_float py_float r "Stylus_Pos_X_mm" in
  let! sy := row_float py_float r "Stylus_Pos_Y_mm" in
  let! sz := row_float py_float r "Stylus_Pos_Z_mm" in
  let stylus_pos := [sx; sy; sz] in
  Ok (<[point_number := {| femur_pos := femur_pos; femur_rot := femur_rot;
                           stylus_pos := stylus_pos |}]> reference_data).

(** The value is [self.reference_data] when the method returns. *)
Definition load_reference_data (csv_filename : source)
  : result (gmap cell reference_entry) :=
  let reference_data := ∅ in
  try_except
    (let! rows := open_csv csv_filename in
     for_rows load_reference_row rows reference_data)
    (fun e =>
       match e with
       | FileNotFoundError => Ok ∅
       | _ => Ok ∅
       end).

End Defs.
End realtime_visualization.

Module rigid_body_tracker.
Section Defs.
Context {T : Type} `{Scalar T} (py_float : string -> option T).

(** The fields of [RigidBodyTracker] that [calculate_mapped_point] reads. *)
Record tracker := {
  femur_data_received : bool;
  femur_position : option (list T);
  femur_rotation : option (list T)
}.

Record mapped_point := {
  point_label : string;
  calculated_position_mm : list T;
  transformation_matrix : list (list T);
  current_femur_pos_mm : list T;
  reference_femur_pos_mm : list T;
  reference_stylus_pos_mm : list T;
  reference_femur_rotation : list T
}.

(** A quaternion argument that may be [None]: numpy cannot unpack it. *)
Definition array_of (v : option (list T)) : result (list T) :=
  match v with
  | Some l => Ok l
  | None => Raise TypeError
  end.

(** [v[0]], [v[1]] and [v[2]], as the lines that print a position read
    them. *)
Definition display3 (v : list T) : result unit :=
  let! v0 := getitem v 0 in
  let! v1 := getitem v 1 in
  let! v2 := getitem v 2 in
  Ok tt.

Definition calculate_mapped_point (self : tracker) (point_label : string)
    (csv_filename : source) : result (option mapped_point) :=
  let self_femur_rotation := femur_rotation self in
  match femur_data_received self, femur_position self with
  | true, Some self_femur_position =>
      match visualize_points.load_csv_data py_float csv_filename with
      | Raise FileNotFoundError => Ok None
      | Raise _ => Ok None
      | Ok points =>
          match points !! Some point_label with
          | None =>
              let! available_points := join_sorted_keys points in
              Ok None
          | Some entry =>
              let ref_femur_pos_mm := visualize_points.femur entry in
              let ref_stylus_pos_mm := visualize_points.stylus entry in
              let! rows := open_csv csv_filename in
              let! femur_rotation :=
                visualize_points.find_femur_rotation py_float rows point_label in
              match femur_rotation with
              | None => Ok None
              | Some femur_rotation =>
                  let current_femur_pos_mm := convert_to_millimeters self_femur_position in
                  let! self_femur_rotation := array_of self_femur_rotation in
                  let! calculated_position_mm :=
                    calculate_updated_stylus_position
                      ref_femur_pos_mm femur_rotation ref_stylus_pos_mm
                      current_femur_pos_mm self_femur_rotation in
                  let! current_rotation_matrix :=
                    quaternion_to_rotation_matrix self_femur_rotation in
                  let transformation_matrix :=
                    zip_with (fun r t => r ++ [t]) current_rotation_matrix calculated_position_mm
                    ++ [[lit 0; lit 0; lit 0; lit 1]] in
                  let! shown := display3 current_femur_pos_mm in
                  let! shown := display3 calculated_position_mm in
                  let! shown := display3 ref_femur_pos_mm in
                  let! shown := display3 ref_stylus_pos_mm in
                  Ok (Some {| point_label := point_label;
                              calculated_position_mm := calculated_position_mm;
                              transformation_matrix := transformation_matrix;
                              current_femur_pos_mm := current_femur_pos_mm;
                              reference_femur_pos_mm := ref_femur_pos_mm;
                              reference_stylus_pos_mm := ref_stylus_pos_mm;
                              reference_femur_rotation := femur_rotation |})
              end
          end
      end
  | _, _ => Ok None
  end.

End Defs.
End rigid_body_tracker.

(** A conversion of text to numbers for running the catalog code on concrete
    tables: Python's [float] on integer numerals with an optional sign. *)
Definition digit_of (c : Ascii.ascii) : option Z :=
  let n := Ascii.nat_of_ascii c in
  if Nat.leb 48 n && Nat.leb n 57 then Some (Z.of_nat (n - 48)) else None.

Fixpoint digits_value (s : string) (acc : Z) : option Z :=
  match s with
  | EmptyString => Some acc
  | String c s' =>
      match digit_of c with
      | Some d => digits_value s' (10 * acc + d)%Z
      | None => None
      end
  end.

Definition float_of_numeral {T : Type} `{Scalar T} (s : string) : option T :=
  match s with
  | EmptyString => None
  | String "-"%char (String c s') =>
      option_map (fun n => lit (- n)) (digits_value (String c s') 0)
  | _ => option_map lit (digits_value s 0)
  end.

(** A row of the catalog from the text of its cells, and a catalog of one
    point: tracker at the origin with the identity rotation (W = 1), stylus
    at [0, 10, 0] mm. *)
Definition catalog_row (label : string) (fx fy fz qw qx qy qz sx sy sz : string) : row :=
  list_to_map
    [ ("Point_Number", Some label);
      ("Femur_Pos_X_mm", Some fx); ("Femur_Pos_Y_mm", Some fy); ("Femur_Pos_Z_mm", Some fz);
      ("Femur_Rot_W", Some qw); ("Femur_Rot_X", Some qx); ("Femur_Rot_Y", Some qy);
      ("Femur_Rot_Z", Some qz);
      ("Stylus_Pos_X_mm", Some sx); ("Stylus_Pos_Y_mm", Some sy);
      ("Stylus_Pos_Z_mm", Some sz) ]%string.

Definition identity_catalog : source :=
  Csv [ catalog_row "L1" "0" "0" "0"  "1" "0" "0" "0"  "0" "10" "0" ].

(** A tracker that has received the pose of the reference: position
    [0,0,0] m, rotation the identity in the order [x, y, z, w]. *)
Definition tracker_at_reference : rigid_body_tracker.tracker (T:=float) :=
  {| rigid_body_tracker.femur_data_received := true;
     rigid_body_tracker.femur_position := Some [0; 0; 0]%float;
     rigid_body_tracker.femur_rotation := Some [0; 0; 0; 1]%float |}.

(** Agreement of two binary64 vectors within [1e-9]. *)
Definition tolerance : float := (1 / 1000000000)%float.

Definition within_tolerance (u v : list float) : bool :=
  Nat.eqb (length u) (length v)
  && forallb (fun d => PrimFloat.ltb (PrimFloat.abs d) tolerance)
             (zip_with PrimFloat.sub u v).

(** ** Vocabulary of the specification, in exact arithmetic *)

Section SpecVocabulary.
Local Open Scope R_scope.



(** Magnitude of a quaternion, and the quaternion scaled to magnitude one. *)
Definition quat_norm (q : list R) : R :=
  sqrt (fold_right Rplus 0 (map (fun c => c * c) q)).


Definition quat_scale (c : R) (q : list R) : list R := map (Rmult c) q.




(** The matrix of the source, on components already normalised. *)
Definition rot (a b c d : R) : list (list R) :=
  [ [1 - 2 * (b*b + c*c); 2 * (a*b - d*c); 2 * (a*c + d*b)];
    [2 * (a*b + d*c); 1 - 2 * (a*a + c*c); 2 * (b*c - d*a)];
    [2 * (a*c - d*b); 2 * (b*c + d*a); 1 - 2 * (a*a + b*b)] ].

End SpecVocabulary.

(** ** Vocabulary of the specification, on any scalars *)

Section MatrixVocabulary.
Context {T : Type} `{Scalar T}.
Local Open Scope scalar_scope.



End MatrixVocabulary.

(** ** Vocabulary of the specification, for the catalog *)

Section CatalogVocabulary.
Context {T : Type} (py_float : string -> option T).

(** A cell that [float] accepts. *)
Definition numeric_cell (r : row) (key : string) : Prop :=
  exists s v, r !! key = Some (Some s) /\ py_float s = Some v.

Definition position_columns : list string :=
  [ "Femur_Pos_X_mm"; "Femur_Pos_Y_mm"; "Femur_Pos_Z_mm";
    "Stylus_Pos_X_mm"; "Stylus_Pos_Y_mm"; "Stylus_Pos_Z_mm" ]%string.

Definition rotation_columns : list string :=
  [ "Femur_Rot_W"; "Femur_Rot_X"; "Femur_Rot_Y"; "Femur_Rot_Z" ]%string.

(** A row with the label column and all ten numbers; the cell of the label
    may be [None]. *)
Definition well_formed_row (r : row) : Prop :=
  is_Some (r !! "Point_Number"%string) /\
  Forall (numeric_cell r) (position_columns ++ rotation_columns).

End CatalogVocabulary.

(** ** The loops over the ten landmark pairs

    [for_each] is a [for] loop whose body may raise; [for_each_keep] is the
    same loop seen from outside when the variables it updates outlive the
    exception: it returns their values and the exception, if any. *)

Fixpoint for_each {A S : Type} (body : S -> A -> result S) (items : list A) (st : S)
  : result S :=
  match items with
  | [] => Ok st
  | x :: items' => let! st' := body st x in for_each body items' st'
  end.

Fixpoint for_each_keep {A S : Type} (body : S -> A -> result S) (items : list A) (st : S)
  : S * option exn :=
  match items with
  | [] => (st, None)
  | x :: items' =>
      match body st x with
      | Ok st' => for_each_keep body items' st'
      | Raise e => (st, Some e)
      end
  end.

(** [f'L{i}'], [f'M{i}'] and [f'L{i}-M{i}'] *)
Definition l_label_of (i : nat) : string := "L" +:+ pretty i.
Definition m_label_of (i : nat) : string := "M" +:+ pretty i.
Definition pair_label_of (i : nat) : string := "L" +:+ pretty i +:+ "-M" +:+ pretty i.

(** [range(1, 11)] *)
Definition pair_indices : list nat := seq 1 10.

(** The truth value of a list, or of [None], in a condition. *)
Definition py_truth {A : Type} (v : option (list A)) : bool :=
  match v with
  | Some (_ :: _) => true
  | _ => false
  end.

(** ** simple_realtime_viz.py *)

Module simple_realtime_viz.
Section Defs.
Context {T : Type} `{Scalar T}.

(** One turn of the loop of [calculate_updated_positions]. *)
Definition calculate_updated_positions_step
    (reference_data : gmap cell (realtime_visualization.reference_entry (T:=T)))
    (current_femur_pos_mm current_femur_rot_quat : list T)
    (positions : list (list T) * list (list T)) (i : nat)
  : result (list (list T) * list (list T)) :=
  let l_label := l_label_of i in
  let m_label := m_label_of i in
  match reference_data !! Some l_label, reference_data !! Some m_label with
  | Some l_ref, Some m_ref =>
      let! l_pos :=
        calculate_updated_stylus_position
          (realtime_visualization.femur_pos l_ref) (realtime_visualization.femur_rot l_ref)
          (realtime_visualization.stylus_pos l_ref)
          current_femur_pos_mm current_femur_rot_quat in
      let! m_pos :=
        calculate_updated_stylus_position
          (realtime_visualization.femur_pos m_ref) (realtime_visualization.femur_rot m_ref)
          (realtime_visualization.stylus_pos m_ref)
          current_femur_pos_mm current_femur_rot_quat in
      Ok (fst positions ++ [l_pos], snd positions ++ [m_pos])
  | _, _ => Ok positions
  end.

(** [None] stands for the pair [(None, None)]. *)
Definition calculate_updated_positions
    (reference_data : gmap cell (realtime_visualization.reference_entry (T:=T)))
    (current_femur_pos_meters current_femur_rot_quat : option (list T))
  : result (option (list (list T) * list (list T))) :=
  if negb (py_truth current_femur_pos_meters) || negb (py_truth current_femur_rot_quat)
  then Ok None
  else
    match current_femur_pos_meters, current_femur_rot_quat with
    | Some current_femur_pos_meters, Some current_femur_rot_quat =>
        let current_femur_pos_mm := convert_to_millimeters current_femur_pos_meters in
        let l_positions := [] in
        let m_positions := [] in
        let! positions :=
          for_each
            (calculate_updated_positions_step
               reference_data current_femur_pos_mm current_femur_rot_quat)
            pair_indices (l_positions, m_positions) in
        Ok (Some positions)
    | _, _ => Ok None
    end.

End Defs.
End simple_realtime_viz.

(** ** realtime_visualization.py: the class [RealtimeVisualizer] *)

Module RealtimeVisualizer.
Section Defs.
Context {T : Type} `{Scalar T}.

Record plane := {
  l_pos : list T;
  m_pos : list T;
  label : string
}.

(** The fields that [update_tracker_data] and [calculate_planes] use. *)
Record visualizer := {
  current_femur_pos : option (list T);
  current_femur_rot : option (list T);
  calculated_planes : option (list plane);
  reference_data : gmap cell (realtime_visualization.reference_entry (T:=T))
}.

Definition calculate_planes_step
    (reference_data : gmap cell (realtime_visualization.reference_entry (T:=T)))
    (current_femur_pos_mm current_femur_rot : list T)
    (calculated_planes : list plane) (i : nat) : result (list plane) :=
  let l_label := l_label_of i in
  let m_label := m_label_of i in
  match reference_data !! Some l_label, reference_data !! Some m_label with
  | Some l_ref, Some m_ref =>
      let! l_pos :=
        calculate_updated_stylus_position
          (realtime_visualization.femur_pos l_ref) (realtime_visualization.femur_rot l_ref)
          (realtime_visualization.stylus_pos l_ref)
          current_femur_pos_mm current_femur_rot in
      let! m_pos :=
        calculate_updated_stylus_position
          (realtime_visualization.femur_pos m_ref) (realtime_visualization.femur_rot m_ref)
          (realtime_visualization.stylus_pos m_ref)
          current_femur_pos_mm current_femur_rot in
      Ok (calculated_planes
            ++ [{| l_pos := l_pos; m_pos := m_pos; label := pair_label_of i |}])
  | _, _ => Ok calculated_planes
  end.

(** The visualizer when the method returns or raises, and the exception. *)
Definition calculate_planes (self : visualizer) : visualizer * option exn :=
  if negb (py_truth (current_femur_pos self)) || negb (py_truth (current_femur_rot self))
  then (self, None)
  else
    match current_femur_pos self, current_femur_rot self with
    | Some self_current_femur_pos, Some self_current_femur_rot =>
        let current_femur_pos_mm := convert_to_millimeters self_current_femur_pos in
        let (planes, raised) :=
          for_each_keep
            (calculate_planes_step
               (reference_data self) current_femur_pos_mm self_current_femur_rot)
            pair_indices [] in
        ({| current_femur_pos := current_femur_pos self;
            current_femur_rot := current_femur_rot self;
            calculated_planes := Some planes;
            reference_data := reference_data self |}, raised)
    | _, _ => (self, None)
    end.

Definition update_tracker_data (self : visualizer)
    (femur_pos_meters femur_rot_quat : option (list T)) : visualizer * option exn :=
  calculate_planes
    {| current_femur_pos := femur_pos_meters;
       current_femur_rot := femur_rot_quat;
       calculated_planes := calculated_planes self;
       reference_data := reference_data self |}.

End Defs.
End RealtimeVisualizer.

(** ** realtime_visualization.py: the polygon of a plane *)

(** What [create_plane_polygon] uses beyond [Scalar]: [np.abs] and [>]. *)
Class Ordered (T : Type) := {
  np_abs : T -> T;
  gt : T -> T -> bool
}.

#[export] Instance R_ordered : Ordered R := {|
  np_abs := Rabs;
  gt := fun a b => if Rlt_dec b a then true else false
|}.

#[export] Instance float_ordered : Ordered float := {|
  np_abs := PrimFloat.abs;
  gt := fun a b => PrimFloat.ltb b a
|}.

Module RealtimeVisualizerPolygon.
Section Defs.
Context {T : Type} `{Scalar T} `{Ordered T}.
Local Open Scope scalar_scope.

(** [np.linalg.norm] of a one-dimensional array. *)
Definition np_linalg_norm (v : list T) : T := np_sqrt (dot v v).

(** [np.dot] of two one-dimensional arrays. *)
Definition np_dot (a b : list T) : result T :=
  if Nat.eqb (length a) (length b) then Ok (dot a b) else Raise ValueError.

(** [np.cross] of two arrays of three components; [create_plane_polygon]
    reaches it with three components only, [np.dot] raises before on any
    other number. *)
Definition np_cross (a b : list T) : result (list T) :=
  match a, b with
  | [a0; a1; a2], [b0; b1; b2] =>
      Ok [a1 * b2 - a2 * b1; a2 * b0 - a0 * b2; a0 * b1 - a1 * b0]
  | _, _ => Raise ValueError
  end.

(** [v / s] and [v * s] for an array and a number *)
Definition np_div_scalar (v : list T) (s : T) : list T := map (fun c => c / s) v.
Definition np_mul_scalar (v : list T) (s : T) : list T := map (fun c => c * s) v.

(** [None] stands for the [None] that is returned when L and M coincide. *)
Definition create_plane_polygon (l_pos m_pos center_pos : list T) (size : T)
  : result (option (list (list T))) :=
  let! lm_vector := np_elementwise sub m_pos l_pos in
  let lm_length := np_linalg_norm lm_vector in
  if is_zero lm_length then Ok None
  else
    let lm_unit := np_div_scalar lm_vector lm_length in
    let up_vector := [lit 0; lit 1; lit 0] in
    let! along_up := np_dot lm_unit up_vector in
    let up_vector :=
      if gt (np_abs along_up) (lit 9 / lit 10) then [lit 1; lit 0; lit 0] else up_vector in
    let! perp_vector := np_cross lm_unit up_vector in
    let perp_vector := np_div_scalar perp_vector (np_linalg_norm perp_vector) in
    let! normal_vector := np_cross lm_unit perp_vector in
    let half_size := size / lit 2 in
    let! center := np_elementwise add l_pos m_pos in
    let center := np_div_scalar center (lit 2) in
    let! plus_perp := np_elementwise add center (np_mul_scalar perp_vector half_size) in
    let! minus_perp := np_elementwise sub center (np_mul_scalar perp_vector half_size) in
    let! corner0 := np_elementwise add plus_perp (np_mul_scalar lm_unit half_size) in
    let! corner1 := np_elementwise sub plus_perp (np_mul_scalar lm_unit half_size) in
    let! corner2 := np_elementwise sub minus_perp (np_mul_scalar lm_unit half_size) in
    let! corner3 := np_elementwise add minus_perp (np_mul_scalar lm_unit half_size) in
    let corners := [corner0; corner1; corner2; corner3] in
    Ok (Some corners).

End Defs.
End RealtimeVisualizerPolygon.

(** ** visualize_points.py: what [visualize_points] collects and joins *)

Module visualize_points_plot.
Section Defs.
Context {T : Type} `{Scalar T}.

(** The loop that fills [l_points] and [m_points]. *)
Definition collect_step (points : gmap cell (visualize_points.point_entry (T:=T)))
    (collected : list (list T) * list (list T)) (i : nat)
  : list (list T) * list (list T) :=
  let l_label := l_label_of i in
  let m_label := m_label_of i in
  let l_points :=
    match points !! Some l_label with
    | Some entry => fst collected ++ [visualize_points.femur entry]
    | None => fst collected
    end in
  let m_points :=
    match points !! Some m_label with
    | Some entry => snd collected ++ [visualize_points.femur entry]
    | None => snd collected
    end in
  (l_points, m_points).

Definition collect_points (points : gmap cell (visualize_points.point_entry (T:=T)))
  : list (list T) * list (list T) :=
  fold_left (collect_step points) pair_indices ([], []).

(** A line of the plot with the two texts written at its ends. *)
Record connecting_line := {
  l_end : list T;
  m_end : list T;
  l_text : string;
  m_text : string
}.

(** [points[i]] on a list of points *)
Definition point_at (points : list (list T)) (i : nat) : result (list T) :=
  match nth_error points i with
  | Some p => Ok p
  | None => Raise IndexError
  end.

(** The loop that draws the connecting lines: the lines drawn, and the
    exception that ended the loop, if any. *)
Definition connect_step (l_points m_points : list (list T))
    (drawn : list connecting_line) (i : nat) : result (list connecting_line) :=
  let! l := point_at l_points i in
  let! m := point_at m_points i in
  Ok (drawn ++ [{| l_end := l; m_end := m;
                   l_text := l_label_of (i + 1); m_text := m_label_of (i + 1) |}]).

Definition connecting_lines (l_points m_points : list (list T))
  : list connecting_line * option exn :=
  for_each_keep (connect_step l_points m_points) (seq 0 (length l_points)) [].

(** [None] stands for the branch that plots nothing and prints an error. *)
Definition visualize_points_lines (points : gmap cell (visualize_points.point_entry (T:=T)))
  : option (list connecting_line * option exn) :=
  let (l_points, m_points) := collect_points points in
  if Nat.ltb 0 (length l_points) && Nat.ltb 0 (length m_points)
  then Some (connecting_lines l_points m_points)
  else None.

End Defs.
End visualize_points_plot.

(** ** rigid_body_tracker.py: the class [RigidBodyTracker]

    The poses, the captured points and the reference of a tracker, and the
    methods that read and write them.  A method returns the tracker as the
    method leaves it and the exception it raised, if any: the loop of
    [keyboard_input_handler] catches the exception and goes on with that
    tracker.  Time stamps are arguments. *)

Module RigidBodyTracker.

(** What a method raises: an exception of the calculator, or the
    [AttributeError] of [copy] called on [None]. *)
Inductive exception :=
  | AttributeError
  | Builtin (e : exn).

Module data_point.
Section Defs.
Context {T : Type}.

Record t := {
  point_number : nat;
  timestamp : string;
  femur_position : list T;
  femur_rotation : list T;
  stylus_position : list T;
  stylus_rotation : list T
}.

End Defs.
Arguments t : clear implicits.
End data_point.

Section Defs.
Context {T : Type} `{Scalar T}.

Record tracker := {
  femur_id : Z;
  stylus_id : Z;
  femur_position : option (list T);
  femur_rotation : option (list T);
  stylus_position : option (list T);
  stylus_rotation : option (list T);
  femur_data_received : bool;
  stylus_data_received : bool;
  captured_points : list (data_point.t T);
  reference_femur_position : option (list T);
  reference_femur_rotation : option (list T);
  reference_stylus_position : option (list T);
  reference_stylus_rotation : option (list T);
  reference_captured : bool;
  last_data_received : T
}.

(** [__init__] *)
Definition init (femur_id stylus_id : Z) : tracker :=
  {| femur_id := femur_id;
     stylus_id := stylus_id;
     femur_position := None;
     femur_rotation := None;
     stylus_position := None;
     stylus_rotation := None;
     femur_data_received := false;
     stylus_data_received := false;
     captured_points := [];
     reference_femur_position := None;
     reference_femur_rotation := None;
     reference_stylus_position := None;
     reference_stylus_rotation := None;
     reference_captured := false;
     last_data_received := lit 0 |}.

Definition on_rigid_body_received (self : tracker) (now : T) (rigid_body_id : Z)
    (position rotation : list T) : tracker :=
  if Z.eqb rigid_body_id (femur_id self) then
    {| femur_id := femur_id self;
       stylus_id := stylus_id self;
       femur_position := Some position;
       femur_rotation := Some rotation;
       stylus_position := stylus_position self;
       stylus_rotation := stylus_rotation self;
       femur_data_received := true;
       stylus_data_received := stylus_data_received self;
       captured_points := captured_points self;
       reference_femur_position := reference_femur_position self;
       reference_femur_rotation := reference_femur_rotation self;
       reference_stylus_position := reference_stylus_position self;
       reference_stylus_rotation := reference_stylus_rotation self;
       reference_captured := reference_captured self;
       last_data_received := now |}
  else if Z.eqb rigid_body_id (stylus_id self) then
    {| femur_id := femur_id self;
       stylus_id := stylus_id self;
       femur_position := femur_position self;
       femur_rotation := femur_rotation self;
       stylus_position := Some position;
       stylus_rotation := Some rotation;
       femur_data_received := femur_data_received self;
       stylus_data_received := true;
       captured_points := captured_points self;
       reference_femur_position := reference_femur_position self;
       reference_femur_rotation := reference_femur_rotation self;
       reference_stylus_position := reference_stylus_position self;
       reference_stylus_rotation := reference_stylus_rotation self;
       reference_captured := reference_captured self;
       last_data_received := now |}
  else
    {| femur_id := femur_id self;
       stylus_id := stylus_id self;
       femur_position := femur_position self;
       femur_rotation := femur_rotation self;
       stylus_position := stylus_position self;
       stylus_rotation := stylus_rotation self;
       femur_data_received := femur_data_received self;
       stylus_data_received := stylus_data_received self;
       captured_points := captured_points self;
       reference_femur_position := reference_femur_position self;
       reference_femur_rotation := reference_femur_rotation self;
       reference_stylus_position := reference_stylus_position self;
       reference_stylus_rotation := reference_stylus_rotation self;
       reference_captured := reference_captured self;
       last_data_received := now |}.

(** The messages index a position up to [2] and a rotation up to [3]. *)
Definition printable (position rotation : list T) : bool :=
  Nat.leb 3 (length position) && Nat.leb 4 (length rotation).

Definition with_captured_points (self : tracker) (points : list (data_point.t T))
  : tracker :=
  {| femur_id := femur_id self;
     stylus_id := stylus_id self;
     femur_position := femur_position self;
     femur_rotation := femur_rotation self;
     stylus_position := stylus_position self;
     stylus_rotation := stylus_rotation self;
     femur_data_received := femur_data_received self;
     stylus_data_received := stylus_data_received self;
     captured_points := points;
     reference_femur_position := reference_femur_position self;
     reference_femur_rotation := reference_femur_rotation self;
     reference_stylus_position := reference_stylus_position self;
     reference_stylus_rotation := reference_stylus_rotation self;
     reference_captured := reference_captured self;
     last_data_received := last_data_received self |}.

Definition store_positions (self : tracker) (timestamp : string)
  : tracker * option exception :=
  match femur_data_received self, femur_position self with
  | true, Some self_femur_position =>
      match stylus_data_received self, stylus_position self with
      | true, Some self_stylus_position =>
          let femur_pos_mm := convert_to_millimeters self_femur_position in
          let stylus_pos_mm := convert_to_millimeters self_stylus_position in
          match femur_rotation self with
          | None => (self, Some AttributeError)
          | Some self_femur_rotation =>
              match stylus_rotation self with
              | None => (self, Some AttributeError)
              | Some self_stylus_rotation =>
                  let data_point :=
                    {| data_point.point_number := length (captured_points self) + 1;
                       data_point.timestamp := timestamp;
                       data_point.femur_position := femur_pos_mm;
                       data_point.femur_rotation := self_femur_rotation;
                       data_point.stylus_position := stylus_pos_mm;
                       data_point.stylus_rotation := self_stylus_rotation |} in
                  (with_captured_points self (captured_points self ++ [data_point]),
                   if printable femur_pos_mm self_femur_rotation
                      && printable stylus_pos_mm self_stylus_rotation
                   then None else Some (Builtin IndexError))
              end
          end
      | _, _ => (self, None)
      end
  | _, _ => (self, None)
  end.

Definition with_reference (self : tracker)
    (position rotation stylus_position' stylus_rotation' : option (list T))
    (captured : bool) : tracker :=
  {| femur_id := femur_id self;
     stylus_id := stylus_id self;
     femur_position := femur_position self;
     femur_rotation := femur_rotation self;
     stylus_position := stylus_position self;
     stylus_rotation := stylus_rotation self;
     femur_data_received := femur_data_received self;
     stylus_data_received := stylus_data_received self;
     captured_points := captured_points self;
     reference_femur_position := position;
     reference_femur_rotation := rotation;
     reference_stylus_position := stylus_position';
     reference_stylus_rotation := stylus_rotation';
     reference_captured := captured;
     last_data_received := last_data_received self |}.

(** The four fields of the reference are assigned one after the other, so
    an [AttributeError] leaves the ones assigned before it. *)
Definition capture_reference (self : tracker) : tracker * option exception :=
  match femur_data_received self, femur_position self with
  | true, Some self_femur_position =>
      match stylus_data_received self, stylus_position self with
      | true, Some self_stylus_position =>
          let position := Some (convert_to_millimeters self_femur_position) in
          match femur_rotation self with
          | None =>
              (with_reference self position (reference_femur_rotation self)
                 (reference_stylus_position self) (reference_stylus_rotation self)
                 (reference_captured self),
               Some AttributeError)
          | Some self_femur_rotation =>
              let stylus := Some (convert_to_millimeters self_stylus_position) in
              match stylus_rotation self with
              | None =>
                  (with_reference self position (Some self_femur_rotation) stylus
                     (reference_stylus_rotation self) (reference_captured self),
                   Some AttributeError)
              | Some self_stylus_rotation =>
                  (with_reference self position (Some self_femur_rotation) stylus
                     (Some self_stylus_rotation) true,
                   if printable (convert_to_millimeters self_femur_position)
                                self_femur_rotation
                      && printable (convert_to_millimeters self_stylus_position)
                                   self_stylus_rotation
                   then None else Some (Builtin IndexError))
              end
          end
      | _, _ => (self, None)
      end
  | _, _ => (self, None)
  end.

(** [calculate_updated_stylus_position] on fields that may be [None]:
    numpy fails on a [None] when it unpacks it or computes with it. *)
Definition calculate_updated_stylus_position
    (reference_position reference_rotation reference_stylus_pos : option (list T))
    (new_position : list T) (new_rotation : option (list T)) : result (list T) :=
  let! ref_rot := rigid_body_tracker.array_of reference_rotation in
  let! R_ref := quaternion_to_rotation_matrix ref_rot in
  let! new_rot := rigid_body_tracker.array_of new_rotation in
  let! R_new := quaternion_to_rotation_matrix new_rot in
  let! ref_stylus := rigid_body_tracker.array_of reference_stylus_pos in
  let! ref_pos := rigid_body_tracker.array_of reference_position in
  calculate_updated_stylus_position ref_pos ref_rot ref_stylus new_position new_rot.

(** What [calculate_updated_position] prints: the updated stylus position,
    and the error against the tracked stylus when there is one. *)
Record updated_position := {
  updated_stylus_pos : list T;
  error_data : option (position_error T)
}.

Definition calculate_updated_position (self : tracker)
  : option updated_position * option exception :=
  if negb (reference_captured self) then (None, None)
  else
    match femur_data_received self, femur_position self with
    | true, Some self_femur_position =>
        let current_femur_pos_mm := convert_to_millimeters self_femur_position in
        match calculate_updated_stylus_position
                (reference_femur_position self) (reference_femur_rotation self)
                (reference_stylus_position self)
                current_femur_pos_mm (femur_rotation self) with
        | Raise e => (None, Some (Builtin e))
        | Ok updated_stylus_pos =>
            if negb (printable current_femur_pos_mm
                       (match femur_rotation self with Some q => q | None => [] end))
            then (None, Some (Builtin IndexError))
            else
              match stylus_data_received self, stylus_position self with
              | true, Some self_stylus_position =>
                  let actual_stylus_pos_mm := convert_to_millimeters self_stylus_position in
                  match calculate_position_error updated_stylus_pos actual_stylus_pos_mm with
                  | Raise e => (None, Some (Builtin e))
                  | Ok error_data =>
                      if Nat.leb 3 (length actual_stylus_pos_mm)
                      then (Some {| updated_stylus_pos := updated_stylus_pos;
                                    error_data := Some error_data |}, None)
                      else (None, Some (Builtin IndexError))
                  end
              | _, _ =>
                  (Some {| updated_stylus_pos := updated_stylus_pos;
                           error_data := None |}, None)
              end
        end
    | _, _ => (None, None)
    end.

(** What reaches the tracker: a sample of the pose source, or a key. *)
Inductive event :=
  | Sample (now : T) (rigid_body_id : Z) (position rotation : list T)
  | Key_s (timestamp : string)
  | Key_r
  | Key_u.

Definition handle (self : tracker) (ev : event) : tracker * option exception :=
  match ev with
  | Sample now rigid_body_id position rotation =>
      (on_rigid_body_received self now rigid_body_id position rotation, None)
  | Key_s timestamp => store_positions self timestamp
  | Key_r => capture_reference self
  | Key_u => (self, snd (calculate_updated_position self))
  end.

(** The tracker after a sequence of events; an exception of a key is
    caught and the next event finds the tracker as the method left it. *)
Definition session (self : tracker) (events : list event) : tracker :=
  fold_left (fun s ev => fst (handle s ev)) events self.

End Defs.
End RigidBodyTracker.

(** ** Vocabulary of the specification, for the landmark pairs *)

Definition has_label {V : Type} (m : gmap cell V) (l : string) : bool :=
  bool_decide (is_Some (m !! Some l)).

(** The indices [i] of 1..10 with both [Li] and [Mi] in the dictionary, the
    ones with [Li], and the ones with [Mi]. *)
Definition complete_pairs {V : Type} (m : gmap cell V) : list nat :=
  List.filter (fun i => has_label m (l_label_of i) && has_label m (m_label_of i))
              pair_indices.

Definition present_l {V : Type} (m : gmap cell V) : list nat :=
  List.filter (fun i => has_label m (l_label_of i)) pair_indices.

Definition present_m {V : Type} (m : gmap cell V) : list nat :=
  List.filter (fun i => has_label m (m_label_of i)) pair_indices.

(** The entry of [load_csv_data] that an entry of [load_reference_data]
    corresponds to. *)
Definition without_rotation {T : Type}
    (e : realtime_visualization.reference_entry (T:=T))
  : visualize_points.point_entry (T:=T) :=
  {| visualize_points.femur := realtime_visualization.femur_pos e;
     visualize_points.stylus := realtime_visualization.stylus_pos e |}.

(** An entry with three, four and three components. *)
Definition entry_shape {T : Type} (e : realtime_visualization.reference_entry (T:=T))
  : Prop :=
  length (realtime_visualization.femur_pos e) = 3 /\
  length (realtime_visualization.femur_rot e) = 4 /\
  length (realtime_visualization.stylus_pos e) = 3.

(** The tracker position stored under a label, and the line that joins the
    points number [i] of two lists, with the texts of [visualize_points]. *)
Definition femur_of_label {T : Type}
    (points : gmap cell (visualize_points.point_entry (T:=T))) (l : string) : list T :=
  match points !! Some l with
  | Some entry => visualize_points.femur entry
  | None => []
  end.

Definition line_at {T : Type} (l_points m_points : list (list T)) (i : nat)
  : visualize_points_plot.connecting_line (T:=T) :=
  {| visualize_points_plot.l_end := nth i l_points [];
     visualize_points_plot.m_end := nth i m_points [];
     visualize_points_plot.l_text := l_label_of (i + 1);
     visualize_points_plot.m_text := m_label_of (i + 1) |}.

(** ** Vocabulary of the specification, for the tracker *)

(** A sample as the pose source delivers it: three position and four
    rotation components. *)
Definition well_shaped {T : Type} (ev : RigidBodyTracker.event (T:=T)) : Prop :=
  match ev with
  | RigidBodyTracker.Sample _ _ position rotation =>
      length position = 3 /\ length rotation = 4
  | _ => True
  end.

(** A pose that is there, with three and four components. *)
Definition pose_shape {T : Type} (position rotation : option (list T)) : Prop :=
  exists p q, position = Some p /\ rotation = Some q /\ length p = 3 /\ length q = 4.

(** What holds of a tracker that has seen well-shaped samples only. *)
Definition shaped_tracker {T : Type} (s : RigidBodyTracker.tracker (T:=T)) : Prop :=
  (RigidBodyTracker.femur_data_received s = true ->
   pose_shape (RigidBodyTracker.femur_position s) (RigidBodyTracker.femur_rotation s)) /\
  (RigidBodyTracker.stylus_data_received s = true ->
   pose_shape (RigidBodyTracker.stylus_position s) (RigidBodyTracker.stylus_rotation s)) /\
  (RigidBodyTracker.reference_captured s = true ->
   pose_shape (RigidBodyTracker.reference_femur_position s)
              (RigidBodyTracker.reference_femur_rotation s) /\
   pose_shape (RigidBodyTracker.reference_stylus_position s)
              (RigidBodyTracker.reference_stylus_rotation s)).

(** The numbers of the captured points are 1, 2, ..., in this order. *)
Definition numbered {T : Type} (points : list (RigidBodyTracker.data_point.t T)) : Prop :=
  map RigidBodyTracker.data_point.point_number points = seq 1 (length points).

(** The point of [calculate_point_position] and the point of
    [calculate_mapped_point] carry the same values. *)
Definition same_point {T : Type} (p : visualize_points.point_position (T:=T))
    (mapped : rigid_body_tracker.mapped_point (T:=T)) : Prop :=
  rigid_body_tracker.point_label mapped = visualize_points.point_label p /\
  rigid_body_tracker.calculated_position_mm mapped
  = visualize_points.calculated_position_mm p /\
  rigid_body_tracker.current_femur_pos_mm mapped
  = visualize_points.current_femur_pos_mm p /\
  rigid_body_tracker.reference_femur_pos_mm mapped
  = visualize_points.reference_femur_pos_mm p /\
  rigid_body_tracker.reference_stylus_pos_mm mapped
  = visualize_points.reference_stylus_pos_mm p /\
  rigid_body_tracker.reference_femur_rotation mapped
  = visualize_points.reference_femur_rotation p.

(** ** Tables for running the loops *)

(** A catalog with L1, M1 and L2, and with M3 where M2 would be. *)
Definition pair_catalog : source :=
  Csv [ catalog_row "L1" "0" "0" "0"  "0" "0" "0" "1"  "10" "0" "0";
        catalog_row "M1" "0" "0" "0"  "0" "0" "0" "1"  "0" "10" "0";
        catalog_row "L2" "1" "2" "3"  "0" "0" "0" "1"  "4" "5" "6";
        catalog_row "M3" "7" "8" "9"  "0" "0" "0" "1"  "1" "1" "1" ].

(** What the two loaders make of it on binary64. *)
Definition pair_dictionary
  : gmap cell (realtime_visualization.reference_entry (T:=float)) :=
  list_to_map
    [ (Some "L1"%string,
       {| realtime_visualization.femur_pos := [0; 0; 0]%float;
          realtime_visualization.femur_rot := [0; 0; 0; 1]%float;
          realtime_visualization.stylus_pos := [10; 0; 0]%float |});
      (Some "M1"%string,
       {| realtime_visualization.femur_pos := [0; 0; 0]%float;
          realtime_visualization.femur_rot := [0; 0; 0; 1]%float;
          realtime_visualization.stylus_pos := [0; 10; 0]%float |});
      (Some "L2"%string,
       {| realtime_visualization.femur_pos := [1; 2; 3]%float;
          realtime_visualization.femur_rot := [0; 0; 0; 1]%float;
          realtime_visualization.stylus_pos := [4; 5; 6]%float |});
      (Some "M3"%string,
       {| realtime_visualization.femur_pos := [7; 8; 9]%float;
          realtime_visualization.femur_rot := [0; 0; 0; 1]%float;
          realtime_visualization.stylus_pos := [1; 1; 1]%float |}) ].

Definition pair_points : gmap cell (visualize_points.point_entry (T:=float)) :=
  without_rotation <$> pair_dictionary.

(** A row that ends before its label, in a file whose header has
    [Point_Number] as its last column: the reader gives the label cell
    [None]. *)
Definition unlabelled_row : row :=
  <["Point_Number"%string := None]>
    (catalog_row "" "0" "0" "0"  "0" "0" "0" "1"  "0" "10" "0").

(** A row of L1 whose first rotation cell is not a numeral. *)
Definition bad_rotation_row : row :=
  catalog_row "L1" "0" "0" "0"  "one" "0" "0" "0"  "0" "10" "0".

(** Two rows for the label L1. *)
Definition first_l1_row : row :=
  catalog_row "L1" "0" "0" "0"  "1" "0" "0" "0"  "0" "10" "0".

Definition second_l1_row : row :=
  catalog_row "L1" "1" "2" "3"  "0" "0" "0" "1"  "4" "5" "6".

(** ** The sources on binary64 *)

Example f64_eye :
  np_eye (T:=float) 3 = [[1; 0; 0]; [0; 1; 0]; [0; 0; 1]]%float.
Proof. vm_compute. reflexivity. Qed.

(** Tracker at the origin, target at [10,0,0], tracker moved to [0,0,100]:
    the target moves to [10,0,100]. *)
Example f64_pure_translation :
  calculate_updated_stylus_position
    [0; 0; 0]%float [0; 0; 0; 1]%float [10; 0; 0]%float
    [0; 0; 100]%float [0; 0; 0; 1]%float
  = Ok [10; 0; 100]%float.
Proof. vm_compute. reflexivity. Qed.

(** Same reference, tracker turned by a quarter turn about Z (the quaternion
    [0,0,1,1] before normalisation): the target moves to [0,10,0], up to
    rounding. *)
Example f64_quarter_turn :
  match calculate_updated_stylus_position
          [0; 0; 0]%float [0; 0; 0; 1]%float [10; 0; 0]%float
          [0; 0; 0]%float [0; 0; 1; 1]%float with
  | Ok target => within_tolerance target [0; 10; 0]%float
  | Raise _ => false
  end = true.
Proof. vm_compute. reflexivity. Qed.

(** A pose of the catalog scale reprojected onto itself. *)
Example f64_identity_reprojection :
  match calculate_updated_stylus_position
          [120; -45; 860]%float [1; 2; 2; 4]%float [131; -40; 872]%float
          [120; -45; 860]%float [1; 2; 2; 4]%float with
  | Ok target => within_tolerance target [131; -40; 872]%float
  | Raise _ => false
  end = true.
Proof. vm_compute. reflexivity. Qed.

Example f64_unit_round_trip :
  within_tolerance
    (convert_to_meters (convert_to_millimeters [3; -7; 11]%float)) [3; -7; 11]%float
  = true.
Proof. vm_compute. reflexivity. Qed.

(** A wrong number of components is an error of the caller. *)
Example f64_wrong_shape :
  quaternion_to_rotation_matrix (T:=float) [0; 0; 1]%float = Raise ValueError
  /\ calculate_position_error (T:=float) [0; 0]%float [1; 1]%float = Raise IndexError.
Proof. split; vm_compute; reflexivity. Qed.

(** ** The orientation module in exact arithmetic *)

(** Equality of results, lists and matrices, component by component. *)
Ltac componentwise :=
  repeat match goal with
         | |- Ok _ = Ok _ => apply f_equal
         | |- Some _ = Some _ => apply f_equal
         | |- _ :: _ = _ :: _ => apply f_equal2
         | |- @nil _ = @nil _ => reflexivity
         end.

Section Orientation.
Local Open Scope R_scope.

Lemma is_zero_true (r : R) : is_zero r = true <-> r = 0.
Proof. cbn. destruct (Req_dec_T r 0); split; congruence. Qed.

Lemma sum_squares_nonneg (x y z w : R) : 0 <= x*x + y*y + z*z + w*w.
Proof. nra. Qed.

Lemma quat_norm_eq (x y z w : R) :
  quat_norm [x; y; z; w] = sqrt (x*x + y*y + z*z + w*w).
Proof. unfold quat_norm. f_equal. cbn. ring. Qed.

Lemma quat_norm_square (x y z w : R) :
  quat_norm [x; y; z; w] * quat_norm [x; y; z; w] = x*x + y*y + z*z + w*w.
Proof. rewrite quat_norm_eq. apply sqrt_sqrt, sum_squares_nonneg. Qed.

(** Normalised components have unit magnitude. *)
Lemma normalized_unit (x y z w n : R) :
  n <> 0 -> n * n = x*x + y*y + z*z + w*w ->
  (x/n)*(x/n) + (y/n)*(y/n) + (z/n)*(z/n) + (w/n)*(w/n) = 1.
Proof.
  intros Hn Hnn.
  replace ((x/n)*(x/n) + (y/n)*(y/n) + (z/n)*(z/n) + (w/n)*(w/n))
    with ((x*x + y*y + z*z + w*w) / (n * n)) by (field; assumption).
  rewrite <- Hnn. field. assumption.
Qed.

Lemma eye_is_rot : np_eye 3 = rot 0 0 0 1.
Proof. cbn. unfold rot. componentwise; ring. Qed.

(** What the source computes on four components. *)
Lemma quaternion_to_rotation_matrix_zero (x y z w : R) :
  quat_norm [x; y; z; w] = 0 ->
  quaternion_to_rotation_matrix [x; y; z; w] = Ok (np_eye 3).
Proof.
  rewrite quat_norm_eq. intros Hn. cbn. rewrite Hn.
  destruct (Req_dec_T 0 0); [reflexivity | contradiction].
Qed.

Lemma quaternion_to_rotation_matrix_nonzero (x y z w : R) :
  let n := quat_norm [x; y; z; w] in
  n <> 0 ->
  quaternion_to_rotation_matrix [x; y; z; w] = Ok (rot (x/n) (y/n) (z/n) (w/n)).
Proof.
  intros n Hn. subst n. rewrite quat_norm_eq in *. cbn.
  destruct (Req_dec_T _ 0); [contradiction | reflexivity].
Qed.

(** In every case the result is the matrix of a unit quaternion. *)
Lemma quaternion_to_rotation_matrix_unit (x y z w : R) :
  exists a b c d,
    a*a + b*b + c*c + d*d = 1 /\
    quaternion_to_rotation_matrix [x; y; z; w] = Ok (rot a b c d).
Proof.
  destruct (Req_dec_T (quat_norm [x; y; z; w]) 0) as [Hz | Hnz].
  - exists 0, 0, 0, 1. split; [ring |].
    rewrite quaternion_to_rotation_matrix_zero by assumption.
    now rewrite eye_is_rot.
  - eexists _, _, _, _. split;
      [| apply quaternion_to_rotation_matrix_nonzero; assumption].
    apply normalized_unit; [assumption | apply quat_norm_square].
Qed.




(** Scaling a quaternion by [k <> 0] scales its magnitude by [|k|]. *)
Lemma quat_norm_scale (k x y z w : R) :
  quat_norm [k*x; k*y; k*z; k*w] = Rabs k * quat_norm [x; y; z; w].
Proof.
  rewrite !quat_norm_eq.
  replace (k*x*(k*x) + k*y*(k*y) + k*z*(k*z) + k*w*(k*w))
    with (Rsqr k * (x*x + y*y + z*z + w*w)) by (unfold Rsqr; ring).
  rewrite sqrt_mult by (try apply Rle_0_sqr; apply sum_squares_nonneg).
  now rewrite sqrt_Rsqr_abs.
Qed.

Lemma scaled_product (k n u v : R) :
  k <> 0 -> n <> 0 ->
  (k*u / (Rabs k * n)) * (k*v / (Rabs k * n)) = (u/n) * (v/n).
Proof.
  intros Hk Hn.
  assert (Ha : Rabs k <> 0) by (apply Rabs_no_R0; assumption).
  assert (Hkk : Rabs k * Rabs k = k * k).
  { rewrite <- Rabs_mult. apply Rabs_pos_eq. nra. }
  replace ((k*u / (Rabs k * n)) * (k*v / (Rabs k * n)))
    with ((k * k) * (u * v) / ((Rabs k * Rabs k) * (n * n))) by (field; split; assumption).
  rewrite Hkk. field. split; assumption.
Qed.

Lemma quaternion_to_rotation_matrix_scale (k x y z w : R) :
  k <> 0 ->
  quaternion_to_rotation_matrix [k*x; k*y; k*z; k*w]
  = quaternion_to_rotation_matrix [x; y; z; w].
Proof.
  intros Hk.
  destruct (Req_dec_T (quat_norm [x; y; z; w]) 0) as [Hz | Hnz].
  - rewrite !quaternion_to_rotation_matrix_zero; try assumption; [reflexivity |].
    rewrite quat_norm_scale, Hz. ring.
  - assert (Hs : quat_norm [k*x; k*y; k*z; k*w] <> 0).
    { rewrite quat_norm_scale. apply Rmult_integral_contrapositive_currified;
        [apply Rabs_no_R0 |]; assumption. }
    rewrite !quaternion_to_rotation_matrix_nonzero by assumption.
    rewrite quat_norm_scale. unfold rot.
    rewrite !scaled_product by assumption. reflexivity.
Qed.

End Orientation.

Section OrientationProperties.
Local Open Scope R_scope.



(** C4. Zero-quaternion fallback: on [[0,0,0,0]] the function returns the
    3x3 identity matrix exactly and raises nothing, in exact arithmetic
    and on binary64. *)
Theorem zero_quaternion_fallback :
  quaternion_to_rotation_matrix (T:=R) [0; 0; 0; 0]
  = Ok [[1; 0; 0]; [0; 1; 0]; [0; 0; 1]]
  /\ quaternion_to_rotation_matrix (T:=float) [0; 0; 0; 0]%float
     = Ok [[1; 0; 0]; [0; 1; 0]; [0; 0; 1]]%float.
Proof.
  split.
  - rewrite quaternion_to_rotation_matrix_zero; [reflexivity |].
    rewrite quat_norm_eq.
    replace (0*0 + 0*0 + 0*0 + 0*0) with 0 by ring.
    apply sqrt_0.
  - vm_compute. reflexivity.
Qed.



End OrientationProperties.

(** ** Reprojection, unit conversion and deviation in exact arithmetic *)

Section Reprojection.
Local Open Scope R_scope.

(** With one orientation for both poses the offset is carried over
    unchanged. *)
Lemma reprojection_same_orientation (p1 p2 p3 x y z w t1 t2 t3 n1 n2 n3 : R) :
  calculate_updated_stylus_position
    [p1; p2; p3] [x; y; z; w] [t1; t2; t3] [n1; n2; n3] [x; y; z; w]
  = Ok [n1 + (t1 - p1); n2 + (t2 - p2); n3 + (t3 - p3)].
Proof.
  unfold calculate_updated_stylus_position.
  destruct (quaternion_to_rotation_matrix_unit x y z w) as (a & b & c & d & Hu & ->).
  cbn. componentwise; nsatz.
Qed.

Lemma reprojection_scaled_orientation (p r t n : list R) (x y z w k : R) :
  k <> 0 ->
  calculate_updated_stylus_position p r t n (quat_scale k [x; y; z; w])
  = calculate_updated_stylus_position p r t n [x; y; z; w].
Proof.
  intros Hk. unfold calculate_updated_stylus_position. cbn [quat_scale map].
  rewrite quaternion_to_rotation_matrix_scale by assumption. reflexivity.
Qed.







End Reprojection.

(** ** Shapes: what the position calculator accepts and returns *)

Section Shapes.
Context {T : Type} `{Scalar T}.

(** A rotation matrix that is returned has three rows of three entries. *)
Lemma quaternion_to_rotation_matrix_3x3 (q : list T) (M : list (list T)) :
  quaternion_to_rotation_matrix q = Ok M ->
  exists m11 m12 m13 m21 m22 m23 m31 m32 m33,
    M = [[m11; m12; m13]; [m21; m22; m23]; [m31; m32; m33]].
Proof.
  destruct q as [| x [| y [| z [| w [| v q]]]]]; try discriminate.
  unfold quaternion_to_rotation_matrix.
  destruct (is_zero _); intros HM; injection HM as <-;
    do 9 eexists; reflexivity.
Qed.

Lemma reprojection_returns
    (reference_position reference_rotation reference_stylus_pos
     new_position new_rotation : list T) :
  length reference_position = 3 -> length reference_rotation = 4 ->
  length reference_stylus_pos = 3 -> length new_position = 3 ->
  length new_rotation = 4 ->
  exists r1 r2 r3,
    calculate_updated_stylus_position
      reference_position reference_rotation reference_stylus_pos
      new_position new_rotation = Ok [r1; r2; r3].
Proof.
  intros Hp Hq Ht Hn Hq'.
  destruct reference_position as [| p1 [| p2 [| p3 [| ? ?]]]]; try discriminate Hp.
  destruct reference_stylus_pos as [| t1 [| t2 [| t3 [| ? ?]]]]; try discriminate Ht.
  destruct new_position as [| n1 [| n2 [| n3 [| ? ?]]]]; try discriminate Hn.
  destruct reference_rotation as [| x [| y [| z [| w [| ? ?]]]]]; try discriminate Hq.
  destruct new_rotation as [| x' [| y' [| z' [| w' [| ? ?]]]]]; try discriminate Hq'.
  unfold calculate_updated_stylus_position, quaternion_to_rotation_matrix.
  destruct (is_zero _); destruct (is_zero _); cbn; eexists _, _, _; reflexivity.
Qed.

Lemma reprojection_result_length
    (reference_position reference_rotation reference_stylus_pos
     new_position new_rotation target : list T) :
  calculate_updated_stylus_position
    reference_position reference_rotation reference_stylus_pos
    new_position new_rotation = Ok target ->
  length target = 3.
Proof.
  unfold calculate_updated_stylus_position.
  destruct (quaternion_to_rotation_matrix reference_rotation) as [R_ref |] eqn:Href;
    [| discriminate].
  destruct (quaternion_to_rotation_matrix new_rotation) as [R_new |] eqn:Hnew;
    [| discriminate].
  apply quaternion_to_rotation_matrix_3x3 in Href, Hnew.
  destruct Href as (a11 & a12 & a13 & a21 & a22 & a23 & a31 & a32 & a33 & ->).
  destruct Hnew as (b11 & b12 & b13 & b21 & b22 & b23 & b31 & b32 & b33 & ->).
  cbn [bind].
  destruct (np_elementwise sub reference_stylus_pos reference_position) as [offset |];
    [| discriminate].
  cbn [bind]. unfold matvec at 1.
  destruct (forallb _ _); [| discriminate]. cbn [bind transpose zip_with map].
  unfold matvec. cbn [forallb length map]. cbn [Nat.eqb andb bind].
  unfold np_elementwise. cbn [length map].
  destruct new_position as [| n1 [| n2 [| n3 [| n4 ns]]]]; cbn;
    intros Ht; try discriminate Ht; injection Ht as <-; reflexivity.
Qed.

(** X2. On three position components and four quaternion components the
    reprojection returns three components, whatever the numbers are; and
    on any lists, what it returns has three components. *)
Theorem reprojection_shape
    (reference_position reference_rotation reference_stylus_pos
     new_position new_rotation : list T) :
  (length reference_position = 3 -> length reference_rotation = 4 ->
   length reference_stylus_pos = 3 -> length new_position = 3 ->
   length new_rotation = 4 ->
   exists target,
     calculate_updated_stylus_position
       reference_position reference_rotation reference_stylus_pos
       new_position new_rotation = Ok target)
  /\ (forall target,
        calculate_updated_stylus_position
          reference_position reference_rotation reference_stylus_pos
          new_position new_rotation = Ok target ->
        length target = 3).
Proof.
  split.
  - intros Hp Hq Ht Hn Hq'.
    destruct (reprojection_returns _ _ _ _ _ Hp Hq Ht Hn Hq') as (r1 & r2 & r3 & Hr).
    eexists. exact Hr.
  - intros target. apply reprojection_result_length.
Qed.

End Shapes.

Lemma reprojection_shape_witness :
  length [1; 2; 3]%float = 3 /\ length [0; 0; 0; 1]%float = 4 /\
  length [4; 5; 6]%float = 3 /\ length [7; 8; 9]%float = 3 /\
  length [1; 2; 2; 4]%float = 4 /\
  exists target,
    calculate_updated_stylus_position
      [1; 2; 3]%float [0; 0; 0; 1]%float [4; 5; 6]%float
      [7; 8; 9]%float [1; 2; 2; 4]%float = Ok target.
Proof.
  repeat (split; [reflexivity |]).
  exact (proj1 (reprojection_shape [1; 2; 3]%float [0; 0; 0; 1]%float [4; 5; 6]%float
                  [7; 8; 9]%float [1; 2; 2; 4]%float)
           eq_refl eq_refl eq_refl eq_refl eq_refl).
Defined.

Section ReprojectionSteps.
Context {T : Type} `{Scalar T}.

Lemma reprojection_rotations
    (reference_position reference_rotation reference_stylus_pos
     new_position new_rotation r : list T) :
  calculate_updated_stylus_position reference_position reference_rotation
    reference_stylus_pos new_position new_rotation = Ok r ->
  exists R_ref R_new,
    quaternion_to_rotation_matrix reference_rotation = Ok R_ref /\
    quaternion_to_rotation_matrix new_rotation = Ok R_new.
Proof.
  unfold calculate_updated_stylus_position. cbn zeta.
  destruct (quaternion_to_rotation_matrix reference_rotation) as [R_ref |];
    [| discriminate].
  destruct (quaternion_to_rotation_matrix new_rotation) as [R_new |];
    [| discriminate].
  intros _. now exists R_ref, R_new.
Qed.

End ReprojectionSteps.

(** ** The reference catalog *)

Section CatalogTheory.
Context {T : Type} `{Scalar T} (py_float : string -> option T).

Import visualize_points.

Lemma row_float_ok (r : row) (key : string) (v : T) :
  row_float py_float r key = Ok v -> numeric_cell py_float r key.
Proof.
  intros Hf. unfold row_float, row_get, bind in Hf.
  destruct (r !! key) as [[s |] |] eqn:Hs; try discriminate.
  destruct (py_float s) as [v' |] eqn:Hv; [| discriminate].
  exists s, v'. split; assumption.
Qed.

Lemma row_float_numeric (r : row) (key : string) :
  numeric_cell py_float r key -> exists v, row_float py_float r key = Ok v.
Proof.
  intros (s & v & Hs & Hv). exists v. unfold row_float, row_get. rewrite Hs. cbn.
  rewrite Hv. reflexivity.
Qed.

Lemma load_reference_row_ok (d d' : gmap cell (realtime_visualization.reference_entry (T:=T)))
    (r : row) :
  realtime_visualization.load_reference_row py_float d r = Ok d' -> well_formed_row py_float r.
Proof.
  intros Hl. unfold realtime_visualization.load_reference_row in Hl.
  unfold bind at 1 in Hl. unfold row_get at 1 in Hl.
  destruct (r !! "Point_Number"%string) as [l |] eqn:Hlabel; [| discriminate].
  split; [exists l; exact Hlabel |].
  repeat match type of Hl with
         | bind (row_float py_float r ?k) _ = Ok _ =>
             let E := fresh "E" in
             destruct (row_float py_float r k) eqn:E; [| discriminate Hl];
             apply row_float_ok in E; cbn [bind] in Hl
         end.
  repeat constructor; assumption.
Qed.

Lemma for_rows_raises {S : Type} (body : S -> row -> result S) (rows : list row) :
  Exists (fun r => forall st, raises (body st r)) rows ->
  forall st, raises (for_rows body rows st).
Proof.
  induction 1 as [r rows Hr | r rows _ IH]; intros st; cbn.
  - destruct (Hr st) as [e ->]. exists e. reflexivity.
  - destruct (body st r) as [st' | e]; cbn; [apply IH | exists e; reflexivity].
Qed.

(** [load_reference_data] always returns a dictionary, and the empty one
    whenever the file cannot be opened or some row is not well formed. *)
Lemma load_reference_data_returns (csv_filename : source) :
  exists d, realtime_visualization.load_reference_data py_float csv_filename = Ok d.
Proof.
  unfold realtime_visualization.load_reference_data, try_except.
  destruct (bind _ _) as [d | e]; [exists d; reflexivity |].
  exists ∅. destruct e; reflexivity.
Qed.

Lemma load_reference_data_fail_soft (csv_filename : source) :
  csv_filename = Absent \/ csv_filename = Unreadable \/
  (exists rows, csv_filename = Csv rows /\ Exists (fun r => ~ well_formed_row py_float r) rows) ->
  realtime_visualization.load_reference_data py_float csv_filename = Ok ∅.
Proof.
  intros [-> | [-> | (rows & -> & Hbad)]]; try reflexivity.
  unfold realtime_visualization.load_reference_data. cbn [open_csv bind].
  assert (Hr : raises (for_rows (realtime_visualization.load_reference_row py_float) rows ∅)).
  { apply for_rows_raises. eapply Exists_impl; [exact Hbad |].
    intros r Hnot st. cbn beta.
    destruct (realtime_visualization.load_reference_row py_float st r) as [d' | e] eqn:E.
    - exfalso. apply Hnot. eapply load_reference_row_ok. exact E.
    - exists e. reflexivity. }
  destruct Hr as [e ->]. destruct e; reflexivity.
Qed.

(** [load_csv_data] raises what [open] raises, and what a row raises. *)
Lemma load_csv_data_raises (csv_filename : source) :
  csv_filename = Absent \/ csv_filename = Unreadable \/
  (exists rows, csv_filename = Csv rows /\
                Exists (fun r => forall points, raises (load_csv_row py_float points r)) rows) ->
  raises (load_csv_data py_float csv_filename).
Proof.
  intros [-> | [-> | (rows & -> & Hbad)]].
  - exists FileNotFoundError. reflexivity.
  - exists OSError. reflexivity.
  - cbn. apply for_rows_raises. exact Hbad.
Qed.

(** The tracker catches the failure of its own load and answers [None]. *)
Lemma calculate_mapped_point_load_failure (self : rigid_body_tracker.tracker)
    (label : string) (csv_filename : source) :
  raises (load_csv_data py_float csv_filename) ->
  rigid_body_tracker.calculate_mapped_point py_float self label csv_filename = Ok None.
Proof.
  intros [e He]. unfold rigid_body_tracker.calculate_mapped_point. cbn zeta.
  destruct (rigid_body_tracker.femur_data_received self); [| reflexivity].
  destruct (rigid_body_tracker.femur_position self); [| reflexivity].
  rewrite He. destruct e; reflexivity.
Qed.

(** C8. Fail-soft loading holds for [load_reference_data] only:
    [load_csv_data] lets the failure of [open] and of a malformed row
    reach its caller. *)
Theorem load_csv_data_propagates_failures :
  load_csv_data py_float Absent = Raise FileNotFoundError /\
  load_csv_data py_float Unreadable = Raise OSError /\
  load_csv_data py_float (Csv [∅]) = Raise KeyError /\
  realtime_visualization.load_reference_data py_float Absent = Ok ∅ /\
  realtime_visualization.load_reference_data py_float Unreadable = Ok ∅ /\
  realtime_visualization.load_reference_data py_float (Csv [∅]) = Ok ∅.
Proof. repeat split. Qed.

(** *** Lookup *)

Lemma load_csv_row_inv (points points' : gmap cell point_entry) (r : row) :
  load_csv_row py_float points r = Ok points' ->
  exists label entry,
    r !! "Point_Number"%string = Some label /\ points' = <[label := entry]> points /\
    length (femur entry) = 3 /\ length (stylus entry) = 3.
Proof.
  intros Hl. unfold load_csv_row in Hl.
  unfold bind at 1 in Hl. unfold row_get at 1 in Hl.
  destruct (r !! "Point_Number"%string) as [l |] eqn:Hlabel; [| discriminate].
  repeat match type of Hl with
         | bind (row_float py_float r ?k) _ = Ok _ =>
             destruct (row_float py_float r k); [| discriminate Hl]; cbn [bind] in Hl
         end.
  injection Hl as <-. eexists _, _. repeat split; reflexivity.
Qed.

(** A key of the loaded dictionary was there before or is the label cell of
    a row. *)
Lemma for_rows_load_labels (rows : list row) :
  forall (points0 points : gmap cell point_entry) (label : cell),
    for_rows (load_csv_row py_float) rows points0 = Ok points ->
    is_Some (points !! label) ->
    is_Some (points0 !! label) \/
    Exists (fun r => r !! "Point_Number"%string = Some label) rows.
Proof.
  induction rows as [| r rows IH]; intros points0 points label Hload Hin; cbn in Hload.
  - injection Hload as <-. left. assumption.
  - destruct (load_csv_row py_float points0 r) as [points1 |] eqn:Hrow; [| discriminate].
    cbn [bind] in Hload.
    destruct (IH _ _ _ Hload Hin) as [Hone | Hlater].
    + apply load_csv_row_inv in Hrow. destruct Hrow as (l & entry & Hl & -> & _).
      destruct (decide (l = label)) as [-> | Hne].
      * right. left. assumption.
      * left. rewrite lookup_insert_ne in Hone; assumption.
    + right. right. assumption.
Qed.

(** Every row of a file that loads has the label column, and every entry of
    the dictionary has three and three components. *)
Lemma for_rows_load_columns (rows : list row) :
  forall (points0 points : gmap cell point_entry),
    for_rows (load_csv_row py_float) rows points0 = Ok points ->
    Forall (fun r => is_Some (r !! "Point_Number"%string)) rows.
Proof.
  induction rows as [| r rows IH]; intros points0 points Hload; cbn in Hload;
    [constructor |].
  destruct (load_csv_row py_float points0 r) as [points1 |] eqn:Hrow; [| discriminate].
  cbn [bind] in Hload. constructor; [| exact (IH _ _ Hload)].
  apply load_csv_row_inv in Hrow. destruct Hrow as (l & entry & Hl & _).
  exists l. exact Hl.
Qed.

Lemma for_rows_load_shapes (rows : list row) :
  forall (points0 points : gmap cell point_entry),
    for_rows (load_csv_row py_float) rows points0 = Ok points ->
    map_Forall (fun _ e => length (femur e) = 3 /\ length (stylus e) = 3) points0 ->
    map_Forall (fun _ e => length (femur e) = 3 /\ length (stylus e) = 3) points.
Proof.
  induction rows as [| r rows IH]; intros points0 points Hload Hshape; cbn in Hload.
  - injection Hload as <-. exact Hshape.
  - destruct (load_csv_row py_float points0 r) as [points1 |] eqn:Hrow; [| discriminate].
    cbn [bind] in Hload. apply (IH _ _ Hload).
    apply load_csv_row_inv in Hrow. destruct Hrow as (l & entry & _ & -> & Hf & Hs).
    apply map_Forall_insert_2; [split; assumption | exact Hshape].
Qed.

Lemma load_csv_data_shapes (csv_filename : source) (points : gmap cell point_entry)
    (label : cell) (entry : point_entry) :
  load_csv_data py_float csv_filename = Ok points ->
  points !! label = Some entry ->
  length (femur entry) = 3 /\ length (stylus entry) = 3.
Proof.
  intros Hload Hin. destruct csv_filename as [| | rows]; try discriminate Hload.
  cbn in Hload.
  exact (for_rows_load_shapes rows ∅ points Hload (map_Forall_empty _) label entry Hin).
Qed.

(** The search for the rotation ends without a result only when no row
    carries the label. *)
Lemma find_femur_rotation_none (rows : list row) (label : string) :
  find_femur_rotation py_float rows label = Ok None ->
  Forall (fun r => r !! "Point_Number"%string <> Some (Some label)) rows.
Proof.
  induction rows as [| r rows IH]; intros Hf; [constructor |].
  cbn in Hf. unfold bind at 1 in Hf. unfold row_get at 1 in Hf.
  destruct (r !! "Point_Number"%string) as [c |] eqn:Hlabel; [| discriminate].
  destruct (cell_eqb c label) eqn:Heq.
  - exfalso.
    repeat match type of Hf with
           | bind (row_float py_float r ?k) _ = Ok _ =>
               destruct (row_float py_float r k); [| discriminate Hf]; cbn [bind] in Hf
           end.
    discriminate Hf.
  - constructor; [| apply IH; assumption].
    intros Hc. assert (Hcell : c = Some label) by congruence. subst c.
    cbn in Heq. rewrite String.eqb_refl in Heq. discriminate.
Qed.

Lemma present_label_has_rotation (rows : list row) (points : gmap cell point_entry)
    (label : string) :
  load_csv_data py_float (Csv rows) = Ok points ->
  is_Some (points !! Some label) ->
  find_femur_rotation py_float rows label <> Ok None.
Proof.
  intros Hload Hin Hnone. cbn in Hload.
  destruct (for_rows_load_labels _ _ _ _ Hload Hin) as [Hempty | Hrow].
  - rewrite lookup_empty in Hempty. destruct Hempty as [? ?]. discriminate.
  - apply find_femur_rotation_none in Hnone.
    apply Exists_exists in Hrow. destruct Hrow as (r & Hr & Hl).
    rewrite Forall_forall in Hnone. exact (Hnone r Hr Hl).
Qed.

(** The search returns the four numbers of the first row that carries the
    label, when the rows have the label column and the rows with the label
    have numeric rotation cells. *)
Lemma find_femur_rotation_present (rows : list row) (label : string) :
  Forall (fun r => is_Some (r !! "Point_Number"%string)) rows ->
  Forall (fun r => r !! "Point_Number"%string = Some (Some label) ->
                   Forall (numeric_cell py_float r) rotation_columns) rows ->
  Exists (fun r => r !! "Point_Number"%string = Some (Some label)) rows ->
  exists qw qx qy qz,
    find_femur_rotation py_float rows label = Ok (Some [qw; qx; qy; qz]).
Proof.
  intros Hcol. induction Hcol as [| r rows [c Hc] _ IH]; intros Hrot Hex;
    [inversion Hex |].
  apply Forall_cons in Hrot. destruct Hrot as [Hr Hrot].
  cbn [find_femur_rotation]. unfold row_get at 1. rewrite Hc. cbn [bind].
  destruct (cell_eqb c label) eqn:Heq.
  - destruct c as [l |]; [| discriminate]. cbn in Heq.
    apply String.eqb_eq in Heq. subst l.
    specialize (Hr Hc). unfold rotation_columns in Hr.
    repeat match goal with
           | Hf : Forall _ (_ :: _) |- _ =>
               let Hcell := fresh "Hcell" in
               apply Forall_cons in Hf; destruct Hf as [Hcell Hf];
               apply row_float_numeric in Hcell; destruct Hcell as [? Hcell];
               rewrite Hcell; cbn [bind]
           end.
    eexists _, _, _, _. reflexivity.
  - apply IH; [exact Hrot |].
    inversion Hex as [? ? Hhere | ? ? Hlater]; subst; [| assumption].
    assert (Hcell : c = Some label) by congruence. subst c. cbn in Heq.
    rewrite String.eqb_refl in Heq. discriminate.
Qed.

Lemma display3_shown (v : list T) :
  3 <= length v -> rigid_body_tracker.display3 v = Ok tt.
Proof.
  intros Hv. destruct v as [| v0 [| v1 [| v2 ?]]]; cbn in Hv; try lia. reflexivity.
Qed.

Lemma display3_index_error (v : list T) :
  length v < 3 -> rigid_body_tracker.display3 v = Raise IndexError.
Proof.
  intros Hv. destruct v as [| v0 [| v1 [| v2 ?]]]; cbn in Hv; try lia; reflexivity.
Qed.

(** C9. Catalog miss, as amended.  On a file that loads and in which every
    row carries a label, a label that is not in the catalog makes
    [calculate_point_position] and [calculate_mapped_point] return [None]
    and raise nothing.  The lookups read the file and keep nothing: with a
    label that is in the catalog, whose rows have numeric rotation cells,
    and a pose of three position and four rotation components, both return
    a point for that label with the positions of its entry. *)
Theorem catalog_miss (rows : list row) (points : gmap cell point_entry) (label : string) :
  load_csv_data py_float (Csv rows) = Ok points ->
  points !! None = None ->
  points !! Some label = None ->
  (forall current_femur_pos_meters current_femur_rot_quat,
     calculate_point_position py_float label
       current_femur_pos_meters current_femur_rot_quat (Csv rows) = Ok None)
  /\ (forall self,
        rigid_body_tracker.calculate_mapped_point py_float self label (Csv rows) = Ok None)
  /\ (forall label' entry current_femur_pos_meters current_femur_rot_quat,
        points !! Some label' = Some entry ->
        Forall (fun r => r !! "Point_Number"%string = Some (Some label') ->
                         Forall (numeric_cell py_float r) rotation_columns) rows ->
        length current_femur_pos_meters = 3 ->
        length current_femur_rot_quat = 4 ->
        (exists p,
           calculate_point_position py_float label'
             current_femur_pos_meters current_femur_rot_quat (Csv rows) = Ok (Some p) /\
           point_label p = label' /\
           reference_femur_pos_mm p = femur entry /\
           reference_stylus_pos_mm p = stylus entry)
        /\ (forall self,
              rigid_body_tracker.femur_data_received self = true ->
              rigid_body_tracker.femur_position self = Some current_femur_pos_meters ->
              rigid_body_tracker.femur_rotation self = Some current_femur_rot_quat ->
              exists mapped,
                rigid_body_tracker.calculate_mapped_point py_float self label' (Csv rows)
                = Ok (Some mapped) /\
                rigid_body_tracker.point_label mapped = label' /\
                rigid_body_tracker.reference_femur_pos_mm mapped = femur entry /\
                rigid_body_tracker.reference_stylus_pos_mm mapped = stylus entry)).
Proof.
  intros Hload Hlabelled Hmiss. split; [| split].
  - intros pos rot. unfold calculate_point_position. rewrite Hload. cbn [bind].
    rewrite Hmiss. unfold join_sorted_keys. rewrite Hlabelled. reflexivity.
  - intros self. unfold rigid_body_tracker.calculate_mapped_point.
    destruct (rigid_body_tracker.femur_data_received self); [| reflexivity].
    destruct (rigid_body_tracker.femur_position self); [| reflexivity].
    rewrite Hload, Hmiss. unfold join_sorted_keys. rewrite Hlabelled. reflexivity.
  - intros label' entry pos rot Hin Hcells Hpos Hrot.
    destruct (load_csv_data_shapes _ _ _ _ Hload Hin) as [Hfemur Hstylus].
    assert (Hex : Exists (fun r => r !! "Point_Number"%string = Some (Some label')) rows).
    { cbn in Hload.
      destruct (for_rows_load_labels _ _ _ _ Hload (ex_intro _ entry Hin))
        as [Hempty | Hrow]; [| exact Hrow].
      rewrite lookup_empty in Hempty. destruct Hempty as [? ?]. discriminate. }
    destruct (find_femur_rotation_present rows label'
                (for_rows_load_columns rows ∅ points Hload) Hcells Hex)
      as (qw & qx & qy & qz & Hfind).
    assert (Hmm : length (convert_to_millimeters pos) = 3)
      by (unfold convert_to_millimeters; now rewrite length_map).
    destruct (reprojection_returns (femur entry) [qw; qx; qy; qz] (stylus entry)
                (convert_to_millimeters pos) rot Hfemur eq_refl Hstylus Hmm Hrot)
      as (t1 & t2 & t3 & Htarget).
    split.
    + unfold calculate_point_position. rewrite Hload. cbn [bind]. rewrite Hin.
      cbn [open_csv bind]. rewrite Hfind. cbn [bind]. rewrite Htarget. cbn [bind].
      eexists. split; [reflexivity |]. repeat split.
    + intros self Hreceived Hposition Hrotation.
      unfold rigid_body_tracker.calculate_mapped_point. cbn zeta.
      rewrite Hreceived, Hposition, Hrotation, Hload, Hin.
      cbn [open_csv bind]. rewrite Hfind.
      cbn [bind rigid_body_tracker.array_of]. rewrite Htarget. cbn [bind].
      destruct (reprojection_rotations _ _ _ _ _ _ Htarget) as (R_ref & R_new & _ & ->).
      cbn [bind]. rewrite !display3_shown by (rewrite ?Hmm, ?Hfemur, ?Hstylus; cbn; lia).
      cbn [bind].
      eexists. split; [reflexivity |]. repeat split.
Qed.

(** The quaternion found for a label is the four rotation cells of a row
    with that label, in the order of the file: W first. *)
Lemma find_femur_rotation_file_order (rows : list row) (label : string) (rotation : list T) :
  find_femur_rotation py_float rows label = Ok (Some rotation) ->
  exists r qw qx qy qz,
    In r rows /\ r !! "Point_Number"%string = Some (Some label) /\
    row_float py_float r "Femur_Rot_W" = Ok qw /\
    row_float py_float r "Femur_Rot_X" = Ok qx /\
    row_float py_float r "Femur_Rot_Y" = Ok qy /\
    row_float py_float r "Femur_Rot_Z" = Ok qz /\
    rotation = [qw; qx; qy; qz].
Proof.
  induction rows as [| r rows IH]; intros Hf; [discriminate |].
  cbn in Hf. unfold bind at 1 in Hf. unfold row_get at 1 in Hf.
  destruct (r !! "Point_Number"%string) as [c |] eqn:Hlabel; [| discriminate].
  destruct (cell_eqb c label) eqn:Heq.
  - destruct c as [l |]; [| discriminate]. cbn in Heq.
    apply String.eqb_eq in Heq. subst l.
    destruct (row_float py_float r "Femur_Rot_W") as [qw |] eqn:HW; [| discriminate].
    destruct (row_float py_float r "Femur_Rot_X") as [qx |] eqn:HX; [| discriminate].
    destruct (row_float py_float r "Femur_Rot_Y") as [qy |] eqn:HY; [| discriminate].
    destruct (row_float py_float r "Femur_Rot_Z") as [qz |] eqn:HZ; [| discriminate].
    cbn in Hf. injection Hf as <-.
    exists r, qw, qx, qy, qz.
    split; [left; reflexivity |]. repeat (split; [assumption |]). reflexivity.
  - destruct (IH Hf) as (r' & qw & qx & qy & qz & Hin & Hrest).
    exists r', qw, qx, qy, qz. split; [right; assumption | assumption].
Qed.

(** The reprojection receives that quaternion as it is. *)
Lemma calculate_point_position_rotation (csv_filename : source) (label : string)
    (current_femur_pos_meters current_femur_rot_quat : list T) (p : point_position) :
  calculate_point_position py_float label
    current_femur_pos_meters current_femur_rot_quat csv_filename = Ok (Some p) ->
  exists rows,
    csv_filename = Csv rows /\
    find_femur_rotation py_float rows label = Ok (Some (reference_femur_rotation p)) /\
    calculate_updated_stylus_position
      (reference_femur_pos_mm p) (reference_femur_rotation p) (reference_stylus_pos_mm p)
      (convert_to_millimeters current_femur_pos_meters) current_femur_rot_quat
    = Ok (calculated_position_mm p).
Proof.
  unfold calculate_point_position. intros Hc.
  destruct (load_csv_data py_float csv_filename) as [points |] eqn:Hload; [| discriminate].
  cbn [bind] in Hc.
  destruct (points !! Some label) as [entry |];
    [| destruct (join_sorted_keys points); discriminate].
  destruct csv_filename as [| | rows]; try discriminate. exists rows.
  cbn [open_csv bind] in Hc.
  destruct (find_femur_rotation py_float rows label) as [[rotation |] |]; try discriminate.
  cbn [bind] in Hc.
  destruct (calculate_updated_stylus_position _ _ _ _ _) as [position |] eqn:Hp;
    [| discriminate].
  cbn [bind] in Hc. injection Hc as <-. cbn.
  split; [reflexivity |]. split; [reflexivity | exact Hp].
Qed.

End CatalogTheory.

Section CatalogOnTables.
Import visualize_points.

Lemma catalog_miss_witness :
  (forall current_femur_pos_meters current_femur_rot_quat,
     calculate_point_position (T:=float) float_of_numeral "M1"
       current_femur_pos_meters current_femur_rot_quat identity_catalog = Ok None)
  /\ (forall self,
        rigid_body_tracker.calculate_mapped_point (T:=float) float_of_numeral self "M1"
          identity_catalog = Ok None)
  /\ (exists p,
        calculate_point_position float_of_numeral "L1"
          [0; 0; 1]%float [0; 0; 0; 1]%float identity_catalog = Ok (Some p) /\
        point_label p = "L1"%string /\
        reference_femur_pos_mm p = [0; 0; 0]%float /\
        reference_stylus_pos_mm p = [0; 10; 0]%float).
Proof.
  assert (Hload : load_csv_data float_of_numeral identity_catalog
                  = Ok {[ Some "L1"%string := {| femur := [0; 0; 0]%float;
                                                 stylus := [0; 10; 0]%float |} ]})
    by (vm_compute; reflexivity).
  assert (Hlabelled : ({[ Some "L1"%string := {| femur := [0; 0; 0]%float;
                                                 stylus := [0; 10; 0]%float |} ]}
                         : gmap cell point_entry) !! None = None)
    by (vm_compute; reflexivity).
  assert (Hmiss : ({[ Some "L1"%string := {| femur := [0; 0; 0]%float;
                                             stylus := [0; 10; 0]%float |} ]}
                     : gmap cell point_entry) !! Some "M1"%string = None)
    by (vm_compute; reflexivity).
  assert (Hin : ({[ Some "L1"%string := {| femur := [0; 0; 0]%float;
                                           stylus := [0; 10; 0]%float |} ]}
                   : gmap cell point_entry) !! Some "L1"%string
                = Some {| femur := [0; 0; 0]%float; stylus := [0; 10; 0]%float |})
    by (vm_compute; reflexivity).
  assert (Hcells : Forall (fun r => r !! "Point_Number"%string = Some (Some "L1"%string) ->
                             Forall (numeric_cell (T:=float) float_of_numeral r)
                                    rotation_columns)
                     [catalog_row "L1" "0" "0" "0"  "1" "0" "0" "0"  "0" "10" "0"]).
  { constructor; [| constructor]. intros _. unfold rotation_columns.
    repeat (apply List.Forall_cons;
            [eexists _, _; split; [vm_compute; reflexivity | vm_compute; reflexivity] |]).
    apply List.Forall_nil. }
  pose proof (catalog_miss float_of_numeral _ _ "M1" Hload Hlabelled Hmiss)
    as (Hpoint & Hmapped & Hpresent).
  split; [exact Hpoint |]. split; [exact Hmapped |].
  exact (proj1 (Hpresent "L1"%string _ [0; 0; 1]%float [0; 0; 0; 1]%float
                  Hin Hcells eq_refl eq_refl)).
Defined.

(** C2. No reordering at the loading boundary: the catalog quaternion
    reaches the rotation code W first.  On binary64, a catalog row with
    the identity rotation (W = 1) and the stylus at [0,10,0], looked up
    from a tracker at the reference position with the identity rotation
    [0,0,0,1], gives [0,-10,0]; with the row reordered to [x,y,z,w] the
    reprojection gives [0,10,0]. *)
Theorem catalog_quaternion_not_reordered :
  (exists p,
     rigid_body_tracker.calculate_mapped_point float_of_numeral
       tracker_at_reference "L1" identity_catalog = Ok (Some p) /\
     rigid_body_tracker.reference_femur_rotation p = [1; 0; 0; 0]%float /\
     rigid_body_tracker.calculated_position_mm p = [0; -10; 0]%float)
  /\ (exists p,
        calculate_point_position float_of_numeral "L1"
          [0; 0; 0]%float [0; 0; 0; 1]%float identity_catalog = Ok (Some p) /\
        reference_femur_rotation p = [1; 0; 0; 0]%float /\
        calculated_position_mm p = [0; -10; 0]%float)
  /\ calculate_updated_stylus_position
       [0; 0; 0]%float [0; 0; 0; 1]%float [0; 10; 0]%float
       [0; 0; 0]%float [0; 0; 0; 1]%float
     = Ok [0; 10; 0]%float.
Proof.
  split; [| split].
  - eexists. split; [vm_compute; reflexivity |]. split; reflexivity.
  - eexists. split; [vm_compute; reflexivity |]. split; reflexivity.
  - vm_compute. reflexivity.
Qed.

End CatalogOnTables.

(** ** Further properties of the reprojection in exact arithmetic *)

Section ReprojectionAlgebra.
Local Open Scope R_scope.

(** X3. The reprojection keeps the distance between tracker and target:
    for any two poses, the deviation of the new target from the new tracker
    position has the magnitude of the deviation of the reference target
    from the reference tracker position. *)
Theorem reprojection_preserves_distance
    (p1 p2 p3 x y z w t1 t2 t3 n1 n2 n3 x' y' z' w' : R) :
  exists target e e',
    calculate_updated_stylus_position
      [p1; p2; p3] [x; y; z; w] [t1; t2; t3] [n1; n2; n3] [x'; y'; z'; w'] = Ok target /\
    calculate_position_error [n1; n2; n3] target = Ok e /\
    calculate_position_error [p1; p2; p3] [t1; t2; t3] = Ok e' /\
    magnitude e = magnitude e'.
Proof.
  unfold calculate_updated_stylus_position.
  destruct (quaternion_to_rotation_matrix_unit x y z w) as (a & b & c & d & Hu & ->).
  destruct (quaternion_to_rotation_matrix_unit x' y' z' w') as (a' & b' & c' & d' & Hu' & ->).
  cbn. eexists _, _, _.
  split; [reflexivity |]. split; [reflexivity |]. split; [reflexivity |].
  cbn. f_equal. nsatz.
Qed.

(** X4. Reprojections compose: reprojecting to a pose A and from there to
    a pose B gives what reprojecting to B directly gives. *)
Theorem reprojection_composes
    (p1 p2 p3 x y z w t1 t2 t3 a1 a2 a3 xa ya za wa b1 b2 b3 xb yb zb wb : R)
    (target_a : list R) :
  calculate_updated_stylus_position
    [p1; p2; p3] [x; y; z; w] [t1; t2; t3] [a1; a2; a3] [xa; ya; za; wa] = Ok target_a ->
  calculate_updated_stylus_position
    [a1; a2; a3] [xa; ya; za; wa] target_a [b1; b2; b3] [xb; yb; zb; wb]
  = calculate_updated_stylus_position
      [p1; p2; p3] [x; y; z; w] [t1; t2; t3] [b1; b2; b3] [xb; yb; zb; wb].
Proof.
  unfold calculate_updated_stylus_position.
  destruct (quaternion_to_rotation_matrix_unit x y z w) as (a & b & c & d & Hu & ->).
  destruct (quaternion_to_rotation_matrix_unit xa ya za wa) as (a' & b' & c' & d' & Hu' & ->).
  destruct (quaternion_to_rotation_matrix_unit xb yb zb wb) as (a'' & b'' & c'' & d'' & Hu'' & ->).
  cbn. intros Ht. injection Ht as <-. cbn. componentwise; nsatz.
Qed.

Lemma reprojection_composes_witness :
  calculate_updated_stylus_position
    [0; 0; 0] [0; 0; 0; 1] [10; 0; 0] [1; 2; 3] [0; 0; 0; 1]
  = Ok [1 + (10 - 0); 2 + (0 - 0); 3 + (0 - 0)]
  /\ calculate_updated_stylus_position
       [1; 2; 3] [0; 0; 0; 1] [1 + (10 - 0); 2 + (0 - 0); 3 + (0 - 0)]
       [5; 5; 5] [1; 2; 2; 4]
     = calculate_updated_stylus_position
         [0; 0; 0] [0; 0; 0; 1] [10; 0; 0] [5; 5; 5] [1; 2; 2; 4].
Proof.
  pose proof (reprojection_same_orientation 0 0 0 0 0 0 1 10 0 0 1 2 3) as Ha.
  split; [exact Ha |].
  exact (reprojection_composes 0 0 0 0 0 0 1 10 0 0 1 2 3 0 0 0 1 5 5 5 1 2 2 4 _ Ha).
Defined.

(** X5. Reprojecting back: from the new pose and the new target, the
    reprojection to the reference pose returns the reference target. *)
Theorem reprojection_round_trip
    (p1 p2 p3 x y z w t1 t2 t3 n1 n2 n3 x' y' z' w' : R) (target : list R) :
  calculate_updated_stylus_position
    [p1; p2; p3] [x; y; z; w] [t1; t2; t3] [n1; n2; n3] [x'; y'; z'; w'] = Ok target ->
  calculate_updated_stylus_position
    [n1; n2; n3] [x'; y'; z'; w'] target [p1; p2; p3] [x; y; z; w] = Ok [t1; t2; t3].
Proof.
  unfold calculate_updated_stylus_position.
  destruct (quaternion_to_rotation_matrix_unit x y z w) as (a & b & c & d & Hu & ->).
  destruct (quaternion_to_rotation_matrix_unit x' y' z' w') as (a' & b' & c' & d' & Hu' & ->).
  cbn. intros Ht. injection Ht as <-. cbn. componentwise; nsatz.
Qed.

Lemma reprojection_round_trip_witness :
  calculate_updated_stylus_position
    [0; 0; 0] [0; 0; 0; 1] [10; 0; 0] [1; 2; 3] [0; 0; 0; 1]
  = Ok [1 + (10 - 0); 2 + (0 - 0); 3 + (0 - 0)]
  /\ calculate_updated_stylus_position
       [1; 2; 3] [0; 0; 0; 1] [1 + (10 - 0); 2 + (0 - 0); 3 + (0 - 0)]
       [0; 0; 0] [0; 0; 0; 1]
     = Ok [10; 0; 0].
Proof.
  pose proof (reprojection_same_orientation 0 0 0 0 0 0 1 10 0 0 1 2 3) as Ha.
  split; [exact Ha |].
  exact (reprojection_round_trip 0 0 0 0 0 0 1 10 0 0 1 2 3 0 0 0 1 _ Ha).
Defined.

(** X6. The reprojection commutes with the change of unit: on positions
    converted to millimetres it returns the conversion of what it returns
    on the positions in metres. *)
Theorem reprojection_commutes_with_units
    (p1 p2 p3 x y z w t1 t2 t3 n1 n2 n3 x' y' z' w' : R) :
  exists target,
    calculate_updated_stylus_position
      [p1; p2; p3] [x; y; z; w] [t1; t2; t3] [n1; n2; n3] [x'; y'; z'; w'] = Ok target /\
    calculate_updated_stylus_position
      (convert_to_millimeters [p1; p2; p3]) [x; y; z; w]
      (convert_to_millimeters [t1; t2; t3])
      (convert_to_millimeters [n1; n2; n3]) [x'; y'; z'; w']
    = Ok (convert_to_millimeters target).
Proof.
  unfold calculate_updated_stylus_position.
  destruct (quaternion_to_rotation_matrix_unit x y z w) as (a & b & c & d & Hu & ->).
  destruct (quaternion_to_rotation_matrix_unit x' y' z' w') as (a' & b' & c' & d' & Hu' & ->).
  cbn. eexists. split; [reflexivity |]. cbn. componentwise; ring.
Qed.

(** X7. The other round trip of the units: converting to metres and back
    to millimetres gives the vector back, and both conversions keep the
    number of components. *)
Theorem unit_conversion_reverse_round_trip (v : list R) :
  convert_to_millimeters (convert_to_meters v) = v
  /\ length (convert_to_millimeters v) = length v
  /\ length (convert_to_meters v) = length v.
Proof.
  split; [| split].
  - unfold convert_to_meters, convert_to_millimeters.
    induction v as [| c v IH]; [reflexivity |].
    cbn [map]. rewrite IH. f_equal. cbn. field.
  - apply length_map.
  - apply length_map.
Qed.

End ReprojectionAlgebra.

(** ** The deviation as a distance *)

Section Deviation.
Local Open Scope R_scope.

Lemma sum_squares3_nonneg (u v w : R) : 0 <= 0 + u * u + v * v + w * w.
Proof.
  pose proof (Rle_0_sqr u). pose proof (Rle_0_sqr v). pose proof (Rle_0_sqr w).
  unfold Rsqr in *. lra.
Qed.

(** What [calculate_position_error] returns on two 3-vectors. *)
Lemma calculate_position_error_3 (a1 a2 a3 b1 b2 b3 : R) :
  calculate_position_error [a1; a2; a3] [b1; b2; b3]
  = Ok {| x_error := b1 - a1; y_error := b2 - a2; z_error := b3 - a3;
          magnitude := sqrt (0 + (b1 - a1) * (b1 - a1) + (b2 - a2) * (b2 - a2)
                             + (b3 - a3) * (b3 - a3)) |}.
Proof. reflexivity. Qed.

(** Cauchy-Schwarz in three dimensions. *)
Lemma cauchy_schwarz3 (u1 u2 u3 v1 v2 v3 : R) :
  u1 * v1 + u2 * v2 + u3 * v3
  <= sqrt (0 + u1 * u1 + u2 * u2 + u3 * u3) * sqrt (0 + v1 * v1 + v2 * v2 + v3 * v3).
Proof.
  rewrite <- sqrt_mult by apply sum_squares3_nonneg.
  destruct (Rle_lt_dec (u1 * v1 + u2 * v2 + u3 * v3) 0) as [Hneg | Hpos].
  - eapply Rle_trans; [exact Hneg | apply sqrt_pos].
  - rewrite <- (sqrt_square (u1 * v1 + u2 * v2 + u3 * v3)) by lra.
    apply sqrt_le_1_alt.
    pose proof (Rle_0_sqr (u1 * v2 - u2 * v1)).
    pose proof (Rle_0_sqr (u1 * v3 - u3 * v1)).
    pose proof (Rle_0_sqr (u2 * v3 - u3 * v2)).
    unfold Rsqr in *. nra.
Qed.

(** X8. The magnitude of the deviation is the Euclidean distance of the
    two positions: its components are measured minus computed, it is not
    negative, its square is the sum of the squares of the components, and
    it obeys the triangle inequality. *)
Theorem deviation_is_euclidean_distance (a1 a2 a3 b1 b2 b3 c1 c2 c3 : R) :
  exists ab bc ac,
    calculate_position_error [a1; a2; a3] [b1; b2; b3] = Ok ab /\
    calculate_position_error [b1; b2; b3] [c1; c2; c3] = Ok bc /\
    calculate_position_error [a1; a2; a3] [c1; c2; c3] = Ok ac /\
    x_error ab = b1 - a1 /\ y_error ab = b2 - a2 /\ z_error ab = b3 - a3 /\
    0 <= magnitude ab /\
    magnitude ab * magnitude ab
    = x_error ab * x_error ab + y_error ab * y_error ab + z_error ab * z_error ab /\
    magnitude ac <= magnitude ab + magnitude bc.
Proof.
  rewrite !calculate_position_error_3. eexists _, _, _.
  do 3 (split; [reflexivity |]). cbn [x_error y_error z_error magnitude].
  do 3 (split; [reflexivity |]).
  split; [apply sqrt_pos |].
  split; [rewrite sqrt_sqrt by apply sum_squares3_nonneg; ring |].
  set (u1 := b1 - a1). set (u2 := b2 - a2). set (u3 := b3 - a3).
  set (v1 := c1 - b1). set (v2 := c2 - b2). set (v3 := c3 - b3).
  replace (c1 - a1) with (u1 + v1) by (unfold u1, v1; ring).
  replace (c2 - a2) with (u2 + v2) by (unfold u2, v2; ring).
  replace (c3 - a3) with (u3 + v3) by (unfold u3, v3; ring).
  pose proof (cauchy_schwarz3 u1 u2 u3 v1 v2 v3) as Hcs.
  set (mu := sqrt (0 + u1 * u1 + u2 * u2 + u3 * u3)) in *.
  set (mv := sqrt (0 + v1 * v1 + v2 * v2 + v3 * v3)) in *.
  assert (Hmu : mu * mu = 0 + u1 * u1 + u2 * u2 + u3 * u3)
    by (apply sqrt_sqrt, sum_squares3_nonneg).
  assert (Hmv : mv * mv = 0 + v1 * v1 + v2 * v2 + v3 * v3)
    by (apply sqrt_sqrt, sum_squares3_nonneg).
  assert (Hmu0 : 0 <= mu) by apply sqrt_pos.
  assert (Hmv0 : 0 <= mv) by apply sqrt_pos.
  rewrite <- (sqrt_square (mu + mv)) by lra.
  apply sqrt_le_1_alt. nra.
Qed.

End Deviation.

Section DeviationShapes.
Context {T : Type} `{Scalar T}.

Lemma getitem_ok (a : list T) (i : nat) :
  i < length a -> exists v, getitem a i = Ok v.
Proof.
  intros Hi. unfold getitem.
  destruct (nth_error a i) as [v |] eqn:Hn; [exists v; reflexivity |].
  apply nth_error_None in Hn. lia.
Qed.

Lemma getitem_index_error (a : list T) (i : nat) :
  length a <= i -> getitem a i = Raise IndexError.
Proof.
  intros Hi. unfold getitem.
  now rewrite (proj2 (nth_error_None a i) Hi).
Qed.

(** X9. On two lists of the same length [calculate_position_error] returns
    a result when there are at least three components and raises
    [IndexError] when there are fewer; lists of different lengths, neither
    of length one, raise [ValueError]. *)
Theorem calculate_position_error_shapes (a b : list T) :
  (length a = length b -> 3 <= length a ->
   exists e, calculate_position_error a b = Ok e)
  /\ (length a = length b -> length a < 3 ->
      calculate_position_error a b = Raise IndexError)
  /\ (length a <> length b -> length a <> 1 -> length b <> 1 ->
      calculate_position_error a b = Raise ValueError).
Proof.
  unfold calculate_position_error, np_elementwise.
  split; [| split].
  - intros Hl H3. rewrite <- Hl, Nat.eqb_refl. cbn [bind].
    assert (Hz : length (zip_with sub b a) = length a).
    { rewrite length_zip_with. lia. }
    destruct (getitem_ok (zip_with sub b a) 0) as [e0 ->]; [lia |].
    destruct (getitem_ok (zip_with sub b a) 1) as [e1 ->]; [lia |].
    destruct (getitem_ok (zip_with sub b a) 2) as [e2 ->]; [lia |].
    cbn [bind]. eexists. reflexivity.
  - intros Hl H3. rewrite <- Hl, Nat.eqb_refl. cbn [bind].
    assert (Hz : length (zip_with sub b a) = length a).
    { rewrite length_zip_with. lia. }
    destruct (zip_with sub b a) as [| e0 [| e1 [| e2 l]]]; cbn in *; try reflexivity.
    lia.
  - intros Hl Ha Hb.
    destruct (Nat.eqb (length b) (length a)) eqn:He.
    + apply Nat.eqb_eq in He. congruence.
    + destruct b as [| y [| y' b]]; destruct a as [| x [| x' a]];
        cbn in *; try reflexivity; congruence.
Qed.

End DeviationShapes.

Lemma calculate_position_error_shapes_witness :
  (length [1; 2; 3]%float = length [4; 5; 6]%float /\ 3 <= length [1; 2; 3]%float /\
   exists e, calculate_position_error [1; 2; 3]%float [4; 5; 6]%float = Ok e)
  /\ (length [1; 2]%float = length [3; 4]%float /\ length [1; 2]%float < 3 /\
      calculate_position_error [1; 2]%float [3; 4]%float = Raise IndexError)
  /\ (length [1; 2; 3]%float <> length [4; 5]%float /\
      length [1; 2; 3]%float <> 1 /\ length [4; 5]%float <> 1 /\
      calculate_position_error [1; 2; 3]%float [4; 5]%float = Raise ValueError).
Proof.
  split; [| split].
  - assert (Hl : length [1; 2; 3]%float = length [4; 5; 6]%float) by reflexivity.
    assert (H3 : 3 <= length [1; 2; 3]%float) by (cbn; lia).
    split; [exact Hl |]. split; [exact H3 |].
    exact (proj1 (calculate_position_error_shapes [1; 2; 3]%float [4; 5; 6]%float) Hl H3).
  - assert (Hl : length [1; 2]%float = length [3; 4]%float) by reflexivity.
    assert (H3 : length [1; 2]%float < 3) by (cbn; lia).
    split; [exact Hl |]. split; [exact H3 |].
    exact (proj1 (proj2 (calculate_position_error_shapes [1; 2]%float [3; 4]%float)) Hl H3).
  - assert (Hl : length [1; 2; 3]%float <> length [4; 5]%float) by (cbn; lia).
    assert (Ha : length [1; 2; 3]%float <> 1) by (cbn; lia).
    assert (Hb : length [4; 5]%float <> 1) by (cbn; lia).
    split; [exact Hl |]. split; [exact Ha |]. split; [exact Hb |].
    exact (proj2 (proj2 (calculate_position_error_shapes [1; 2; 3]%float [4; 5]%float))
             Hl Ha Hb).
Defined.


(** ** The loaders: labels, duplicates, agreement *)

Section Loaders.
Context {T : Type} `{Scalar T} (py_float : string -> option T).

Import visualize_points.

(** What one turn of the loop of [load_csv_data] does. *)
Lemma load_csv_row_ok (points points' : gmap cell point_entry) (r : row) :
  load_csv_row py_float points r = Ok points' ->
  exists label fx fy fz sx sy sz,
    r !! "Point_Number"%string = Some label /\
    row_float py_float r "Femur_Pos_X_mm" = Ok fx /\
    row_float py_float r "Femur_Pos_Y_mm" = Ok fy /\
    row_float py_float r "Femur_Pos_Z_mm" = Ok fz /\
    row_float py_float r "Stylus_Pos_X_mm" = Ok sx /\
    row_float py_float r "Stylus_Pos_Y_mm" = Ok sy /\
    row_float py_float r "Stylus_Pos_Z_mm" = Ok sz /\
    points' = <[label := {| femur := [fx; fy; fz]; stylus := [sx; sy; sz] |}]> points.
Proof.
  intros Hl. unfold load_csv_row in Hl.
  unfold bind at 1 in Hl. unfold row_get at 1 in Hl.
  destruct (r !! "Point_Number"%string) as [l |] eqn:Hlabel; [| discriminate].
  destruct (row_float py_float r "Femur_Pos_X_mm") as [fx |]; [| discriminate].
  destruct (row_float py_float r "Femur_Pos_Y_mm") as [fy |]; [| discriminate].
  destruct (row_float py_float r "Femur_Pos_Z_mm") as [fz |]; [| discriminate].
  destruct (row_float py_float r "Stylus_Pos_X_mm") as [sx |]; [| discriminate].
  destruct (row_float py_float r "Stylus_Pos_Y_mm") as [sy |]; [| discriminate].
  destruct (row_float py_float r "Stylus_Pos_Z_mm") as [sz |]; [| discriminate].
  cbn in Hl. injection Hl as <-.
  exists l, fx, fy, fz, sx, sy, sz. repeat (split; [reflexivity |]). reflexivity.
Qed.

(** The outcome of a row does not depend on the dictionary built so far,
    and a row changes only the entry of its own label. *)
Lemma load_csv_row_any (points points' other : gmap cell point_entry) (r : row) :
  load_csv_row py_float points r = Ok points' ->
  exists label entry,
    r !! "Point_Number"%string = Some label /\
    points' = <[label := entry]> points /\
    load_csv_row py_float other r = Ok (<[label := entry]> other).
Proof.
  intros Hl. apply load_csv_row_ok in Hl.
  destruct Hl as (l & fx & fy & fz & sx & sy & sz & Hl & Hfx & Hfy & Hfz & Hsx & Hsy & Hsz & ->).
  eexists _, _. split; [exact Hl |]. split; [reflexivity |].
  unfold load_csv_row, row_get. rewrite Hl. cbn [bind].
  rewrite Hfx, Hfy, Hfz, Hsx, Hsy, Hsz. reflexivity.
Qed.

Lemma for_rows_app {S : Type} (body : S -> row -> result S) (l1 l2 : list row) (st : S) :
  for_rows body (l1 ++ l2) st = let! st' := for_rows body l1 st in for_rows body l2 st'.
Proof.
  revert st. induction l1 as [| r l1 IH]; intros st; [reflexivity |].
  cbn. destruct (body st r) as [st' |]; cbn; [apply IH | reflexivity].
Qed.

(** Rows with other labels leave the entry of a label alone. *)
Lemma for_rows_load_other_labels (rows : list row) (label : cell) :
  forall points0 points : gmap cell point_entry,
    for_rows (load_csv_row py_float) rows points0 = Ok points ->
    Forall (fun r => r !! "Point_Number"%string <> Some label) rows ->
    points !! label = points0 !! label.
Proof.
  induction rows as [| r rows IH]; intros points0 points Hload Hother; cbn in Hload.
  - injection Hload as <-. reflexivity.
  - destruct (load_csv_row py_float points0 r) as [points1 |] eqn:Hrow; [| discriminate].
    cbn [bind] in Hload. inversion Hother as [| ? ? Hr Hrest]; subst.
    rewrite (IH _ _ Hload Hrest).
    apply load_csv_row_inv in Hrow. destruct Hrow as (l & entry & Hl & -> & _).
    apply lookup_insert_ne. congruence.
Qed.

(** Every label of a row is in the dictionary. *)
Lemma for_rows_load_has_labels (rows : list row) (label : cell) :
  forall points0 points : gmap cell point_entry,
    for_rows (load_csv_row py_float) rows points0 = Ok points ->
    is_Some (points0 !! label) \/
    Exists (fun r => r !! "Point_Number"%string = Some label) rows ->
    is_Some (points !! label).
Proof.
  induction rows as [| r rows IH]; intros points0 points Hload Hin; cbn in Hload.
  - injection Hload as <-. destruct Hin as [Hin | Hin]; [assumption | inversion Hin].
  - destruct (load_csv_row py_float points0 r) as [points1 |] eqn:Hrow; [| discriminate].
    cbn [bind] in Hload. apply (IH _ _ Hload).
    apply load_csv_row_inv in Hrow. destruct Hrow as (l & entry & Hl & -> & _).
    destruct Hin as [Hin | Hin].
    + left. destruct (decide (l = label)) as [-> | Hne].
      * rewrite lookup_insert_eq. eexists. reflexivity.
      * rewrite lookup_insert_ne by assumption. assumption.
    + inversion Hin as [? ? Hhere | ? ? Hlater]; subst.
      * left. assert (l = label) by congruence. subst l.
        rewrite lookup_insert_eq. eexists. reflexivity.
      * right. assumption.
Qed.

(** X10. The catalog that [load_csv_data] returns has exactly the labels of
    the rows of the file, [None] for a row without its label cell
    included. *)
Theorem load_csv_data_labels (rows : list row) (points : gmap cell point_entry)
    (label : cell) :
  load_csv_data py_float (Csv rows) = Ok points ->
  (is_Some (points !! label) <->
   Exists (fun r => r !! "Point_Number"%string = Some label) rows).
Proof.
  intros Hload. cbn in Hload. split.
  - intros Hin. destruct (for_rows_load_labels py_float _ _ _ _ Hload Hin) as [Hempty | Hrow];
      [| assumption].
    rewrite lookup_empty in Hempty. destruct Hempty as [? ?]. discriminate.
  - intros Hrow. apply (for_rows_load_has_labels _ _ _ _ Hload). right. assumption.
Qed.

(** The entry of a label is the one of the last row with that label. *)
Lemma load_csv_data_last_row (pre post : list row) (r : row) (label : cell)
    (points : gmap cell point_entry) :
  load_csv_data py_float (Csv (pre ++ r :: post)) = Ok points ->
  r !! "Point_Number"%string = Some label ->
  Forall (fun r' => r' !! "Point_Number"%string <> Some label) post ->
  exists points_r,
    load_csv_data py_float (Csv [r]) = Ok points_r /\
    points !! label = points_r !! label.
Proof.
  intros Hload Hl Hpost. cbn in Hload. rewrite for_rows_app in Hload.
  destruct (for_rows (load_csv_row py_float) pre ∅) as [points_pre |]; [| discriminate].
  cbn [bind for_rows] in Hload.
  destruct (load_csv_row py_float points_pre r) as [points1 |] eqn:Hrow; [| discriminate].
  cbn [bind] in Hload.
  rewrite (for_rows_load_other_labels _ _ _ _ Hload Hpost).
  destruct (load_csv_row_any _ _ ∅ _ Hrow) as (l & entry & Hl' & -> & Hsingle).
  assert (l = label) by congruence. subst l.
  eexists. split.
  - cbn. rewrite Hsingle. reflexivity.
  - rewrite !lookup_insert_eq. reflexivity.
Qed.

(** The rotation of a label is the one of the first row with that label. *)
Lemma find_femur_rotation_first_row (pre post : list row) (r : row) (label : string) :
  Forall (fun r' => exists l', r' !! "Point_Number"%string = Some l' /\ l' <> Some label)
         pre ->
  r !! "Point_Number"%string = Some (Some label) ->
  find_femur_rotation py_float (pre ++ r :: post) label
  = find_femur_rotation py_float [r] label.
Proof.
  intros Hpre Hl. induction Hpre as [| r' pre (l' & Hl' & Hne) _ IH].
  - cbn. unfold row_get. rewrite Hl. cbn [bind cell_eqb]. rewrite String.eqb_refl.
    destruct (row_float py_float r "Femur_Rot_W"); [| reflexivity].
    destruct (row_float py_float r "Femur_Rot_X"); [| reflexivity].
    destruct (row_float py_float r "Femur_Rot_Y"); [| reflexivity].
    destruct (row_float py_float r "Femur_Rot_Z"); reflexivity.
  - cbn [app find_femur_rotation]. unfold row_get at 1. rewrite Hl'. cbn [bind].
    assert (Hcell : cell_eqb l' label = false).
    { destruct l' as [s |]; [| reflexivity]. cbn. apply String.eqb_neq. congruence. }
    rewrite Hcell. exact IH.
Qed.

(** X11. A label that occurs on several rows gets the positions of its last
    row and the rotation of its first row: [load_csv_data] overwrites, the
    search for the rotation stops at the first match. *)
Theorem duplicated_label_mixes_rows (pre mid post : list row) (r1 r2 : row)
    (label : string) (current_femur_pos_meters current_femur_rot_quat : list T)
    (p : point_position) :
  Forall (fun r' => exists l', r' !! "Point_Number"%string = Some l' /\ l' <> Some label)
         pre ->
  r1 !! "Point_Number"%string = Some (Some label) ->
  r2 !! "Point_Number"%string = Some (Some label) ->
  Forall (fun r' => r' !! "Point_Number"%string <> Some (Some label)) post ->
  calculate_point_position py_float label current_femur_pos_meters current_femur_rot_quat
    (Csv (pre ++ r1 :: mid ++ r2 :: post)) = Ok (Some p) ->
  find_femur_rotation py_float [r1] label = Ok (Some (reference_femur_rotation p))
  /\ exists points2,
       load_csv_data py_float (Csv [r2]) = Ok points2 /\
       points2 !! Some label = Some {| femur := reference_femur_pos_mm p;
                                  stylus := reference_stylus_pos_mm p |}.
Proof.
  intros Hpre Hl1 Hl2 Hpost Hc. split.
  - destruct (calculate_point_position_rotation py_float _ _ _ _ _ Hc)
      as (rows & Hrows & Hrot & _).
    injection Hrows as <-.
    rewrite find_femur_rotation_first_row in Hrot by assumption. exact Hrot.
  - unfold calculate_point_position in Hc.
    destruct (load_csv_data py_float _) as [points |] eqn:Hload; [| discriminate].
    cbn [bind] in Hc.
    replace (pre ++ r1 :: mid ++ r2 :: post) with ((pre ++ r1 :: mid) ++ r2 :: post) in Hload
      by (rewrite <- app_assoc; reflexivity).
    destruct (load_csv_data_last_row _ _ _ _ _ Hload Hl2 Hpost) as (points2 & Hload2 & Hsame).
    exists points2. split; [exact Hload2 |]. rewrite <- Hsame.
    destruct (points !! Some label) as [entry |];
      [| destruct (join_sorted_keys points); discriminate].
    cbn [open_csv bind] in Hc.
    destruct (find_femur_rotation py_float _ label) as [[rotation |] |]; try discriminate.
    cbn [bind] in Hc.
    destruct (calculate_updated_stylus_position _ _ _ _ _); [| discriminate].
    cbn [bind] in Hc. injection Hc as <-. cbn. destruct entry; reflexivity.
Qed.

(** The two loaders on the same rows: the dictionary of [load_csv_data] is
    the one of [load_reference_data] without the rotations. *)

Lemma load_reference_row_csv_row
    (d d' : gmap cell (realtime_visualization.reference_entry (T:=T))) (r : row) :
  realtime_visualization.load_reference_row py_float d r = Ok d' ->
  load_csv_row py_float (without_rotation <$> d) r = Ok (without_rotation <$> d').
Proof.
  intros Hl. unfold realtime_visualization.load_reference_row in Hl.
  unfold load_csv_row. destruct (row_get r "Point_Number") as [l |]; [| discriminate].
  cbn [bind] in *.
  destruct (row_float py_float r "Femur_Pos_X_mm") as [fx |]; [| discriminate].
  destruct (row_float py_float r "Femur_Pos_Y_mm") as [fy |]; [| discriminate].
  destruct (row_float py_float r "Femur_Pos_Z_mm") as [fz |]; [| discriminate].
  cbn [bind] in *.
  destruct (row_float py_float r "Femur_Rot_W") as [qw |]; [| discriminate].
  destruct (row_float py_float r "Femur_Rot_X") as [qx |]; [| discriminate].
  destruct (row_float py_float r "Femur_Rot_Y") as [qy |]; [| discriminate].
  destruct (row_float py_float r "Femur_Rot_Z") as [qz |]; [| discriminate].
  cbn [bind] in *.
  destruct (row_float py_float r "Stylus_Pos_X_mm") as [sx |]; [| discriminate].
  destruct (row_float py_float r "Stylus_Pos_Y_mm") as [sy |]; [| discriminate].
  destruct (row_float py_float r "Stylus_Pos_Z_mm") as [sz |]; [| discriminate].
  cbn [bind] in *. injection Hl as <-. rewrite fmap_insert. reflexivity.
Qed.

Lemma for_rows_reference_csv (rows : list row) :
  forall d d' : gmap cell (realtime_visualization.reference_entry (T:=T)),
    for_rows (realtime_visualization.load_reference_row py_float) rows d = Ok d' ->
    for_rows (load_csv_row py_float) rows (without_rotation <$> d)
    = Ok (without_rotation <$> d').
Proof.
  induction rows as [| r rows IH]; intros d d' Hl; cbn in *.
  - injection Hl as <-. reflexivity.
  - destruct (realtime_visualization.load_reference_row py_float d r) as [d1 |] eqn:Hrow;
      [| discriminate].
    rewrite (load_reference_row_csv_row _ _ _ Hrow). cbn [bind] in *. apply IH. exact Hl.
Qed.

(** X12. The two loaders agree: on any file, [load_reference_data] returns
    either the empty dictionary or a dictionary whose positions are exactly
    the dictionary that [load_csv_data] returns on that file. *)
Theorem loaders_agree (csv_filename : source) :
  exists d,
    realtime_visualization.load_reference_data py_float csv_filename = Ok d /\
    (d = ∅ \/ load_csv_data py_float csv_filename = Ok (without_rotation <$> d)).
Proof.
  unfold realtime_visualization.load_reference_data, try_except.
  destruct csv_filename as [| | rows]; cbn [open_csv bind].
  - exists ∅. split; [reflexivity | left; reflexivity].
  - exists ∅. split; [reflexivity | left; reflexivity].
  - destruct (for_rows (realtime_visualization.load_reference_row py_float) rows ∅)
      as [d | e] eqn:Hl.
    + exists d. split; [reflexivity |]. right.
      apply for_rows_reference_csv in Hl. rewrite fmap_empty in Hl. exact Hl.
    + exists ∅. split; [destruct e; reflexivity | left; reflexivity].
Qed.

Lemma load_reference_row_well_formed
    (d : gmap cell (realtime_visualization.reference_entry (T:=T))) (r : row) :
  well_formed_row py_float r ->
  exists d', realtime_visualization.load_reference_row py_float d r = Ok d'.
Proof.
  intros [[l Hl] Hcells]. unfold position_columns, rotation_columns in Hcells.
  cbn [app] in Hcells.
  repeat match goal with
         | Hf : Forall _ (_ :: _) |- _ =>
             let Hc := fresh "Hc" in
             apply Forall_cons in Hf; destruct Hf as [Hc Hf];
             apply row_float_numeric in Hc; destruct Hc as [? Hc]
         end.
  unfold realtime_visualization.load_reference_row, row_get. rewrite Hl. cbn [bind].
  repeat match goal with
         | Hc : row_float py_float r ?k = Ok _ |- context [row_float py_float r ?k] =>
             rewrite Hc; cbn [bind]
         end.
  eexists. reflexivity.
Qed.

Lemma for_rows_reference_all_or_raise (rows : list row) :
  forall d : gmap cell (realtime_visualization.reference_entry (T:=T)),
    (Forall (well_formed_row py_float) rows /\
     exists d', for_rows (realtime_visualization.load_reference_row py_float) rows d = Ok d')
    \/ (Exists (fun r => ~ well_formed_row py_float r) rows /\
        raises (for_rows (realtime_visualization.load_reference_row py_float) rows d)).
Proof.
  induction rows as [| r rows IH]; intros d; cbn.
  - left. split; [constructor | eexists; reflexivity].
  - destruct (realtime_visualization.load_reference_row py_float d r) as [d1 | e] eqn:Hrow.
    + cbn [bind]. pose proof (load_reference_row_ok py_float _ _ _ Hrow) as Hwf.
      destruct (IH d1) as [[Hall Hok] | [Hbad Hraise]].
      * left. split; [constructor; assumption | exact Hok].
      * right. split; [right; assumption | exact Hraise].
    + right. split; [| exists e; reflexivity].
      left. intros Hwf.
      destruct (load_reference_row_well_formed d r Hwf) as [d' Hd']. congruence.
Qed.

(** X13. [load_reference_data] is all or nothing: either every row is well
    formed and the dictionary has exactly the labels of the rows, or some
    row is not well formed and the dictionary is empty, also of the rows
    read before it. *)
Theorem load_reference_data_all_or_nothing (rows : list row) :
  exists d,
    realtime_visualization.load_reference_data py_float (Csv rows) = Ok d /\
    ((Forall (well_formed_row py_float) rows /\
      forall label, is_Some (d !! label) <->
                    Exists (fun r => r !! "Point_Number"%string = Some label) rows)
     \/ (Exists (fun r => ~ well_formed_row py_float r) rows /\ d = ∅)).
Proof.
  unfold realtime_visualization.load_reference_data, try_except. cbn [open_csv bind].
  destruct (for_rows_reference_all_or_raise rows ∅) as [[Hall [d Hd]] | [Hbad [e He]]].
  - rewrite Hd. exists d. split; [reflexivity |]. left. split; [exact Hall |].
    intros label. apply for_rows_reference_csv in Hd. rewrite fmap_empty in Hd.
    rewrite <- (fmap_is_Some without_rotation), <- lookup_fmap. split.
    + intros Hin. destruct (for_rows_load_labels py_float _ _ _ _ Hd Hin) as [Hempty | Hrow];
        [| assumption].
      rewrite lookup_empty in Hempty. destruct Hempty as [? ?]. discriminate.
    + intros Hrow. apply (for_rows_load_has_labels _ _ _ _ Hd). right. assumption.
  - rewrite He. exists ∅. split; [destruct e; reflexivity |]. right. split; [exact Hbad | reflexivity].
Qed.

End Loaders.

(** ** The loops over the landmark pairs *)

Section PairLoops.
Context {T : Type} `{Scalar T} (py_float : string -> option T).

Lemma load_reference_row_shapes
    (d d' : gmap cell (realtime_visualization.reference_entry (T:=T))) (r : row) :
  realtime_visualization.load_reference_row py_float d r = Ok d' ->
  map_Forall (fun _ e => entry_shape e) d ->
  map_Forall (fun _ e => entry_shape e) d'.
Proof.
  intros Hl Hd. unfold realtime_visualization.load_reference_row in Hl.
  destruct (row_get r "Point_Number") as [l |]; [| discriminate]. cbn [bind] in Hl.
  repeat match type of Hl with
         | bind (row_float py_float r ?k) _ = Ok _ =>
             destruct (row_float py_float r k); [| discriminate Hl]; cbn [bind] in Hl
         end.
  injection Hl as <-. apply map_Forall_insert_2; [| exact Hd].
  repeat split.
Qed.

Lemma for_rows_reference_shapes (rows : list row) :
  forall d d' : gmap cell (realtime_visualization.reference_entry (T:=T)),
    for_rows (realtime_visualization.load_reference_row py_float) rows d = Ok d' ->
    map_Forall (fun _ e => entry_shape e) d ->
    map_Forall (fun _ e => entry_shape e) d'.
Proof.
  induction rows as [| r rows IH]; intros d d' Hl Hd; cbn in Hl.
  - injection Hl as <-. exact Hd.
  - destruct (realtime_visualization.load_reference_row py_float d r) as [d1 |] eqn:Hrow;
      [| discriminate].
    cbn [bind] in Hl. apply (IH _ _ Hl). eapply load_reference_row_shapes; eassumption.
Qed.

(** Every entry that [load_reference_data] returns has three position, four
    rotation and three stylus components. *)
Lemma load_reference_data_shapes (csv_filename : source)
    (d : gmap cell (realtime_visualization.reference_entry (T:=T))) :
  realtime_visualization.load_reference_data py_float csv_filename = Ok d ->
  map_Forall (fun _ e => entry_shape e) d.
Proof.
  unfold realtime_visualization.load_reference_data, try_except.
  destruct csv_filename as [| | rows]; cbn [open_csv bind].
  - intros Hd. injection Hd as <-. apply map_Forall_empty.
  - intros Hd. injection Hd as <-. apply map_Forall_empty.
  - destruct (for_rows _ rows ∅) as [d1 | e] eqn:Hl.
    + intros Hd. injection Hd as <-.
      apply (for_rows_reference_shapes _ _ _ Hl). apply map_Forall_empty.
    + destruct e; intros Hd; injection Hd as <-; apply map_Forall_empty.
Qed.

Lemma has_label_lookup {V : Type} (m : gmap cell V) (l : string) :
  has_label m l = match m !! Some l with Some _ => true | None => false end.
Proof.
  unfold has_label. destruct (m !! Some l) as [v |] eqn:Hm.
  - apply bool_decide_eq_true. eexists. reflexivity.
  - apply bool_decide_eq_false. intros [v Hv]. discriminate.
Qed.

Section OnShapedCatalog.
Variable reference_data : gmap cell (realtime_visualization.reference_entry (T:=T)).
Variables current_femur_pos_mm current_femur_rot : list T.
Hypothesis shaped : map_Forall (fun _ e => entry_shape e) reference_data.
Hypothesis position_shape : length current_femur_pos_mm = 3.
Hypothesis rotation_shape : length current_femur_rot = 4.

Lemma entry_reprojection_returns (l : cell)
    (e : realtime_visualization.reference_entry (T:=T)) :
  reference_data !! l = Some e ->
  exists r1 r2 r3,
    calculate_updated_stylus_position
      (realtime_visualization.femur_pos e) (realtime_visualization.femur_rot e)
      (realtime_visualization.stylus_pos e) current_femur_pos_mm current_femur_rot
    = Ok [r1; r2; r3].
Proof using shaped position_shape rotation_shape.
  intros He. destruct (shaped l e He) as (Hp & Hq & Hs).
  apply reprojection_returns; assumption.
Qed.

Lemma calculate_updated_positions_loop (indices : list nat) :
  forall l_positions m_positions,
  exists l_new m_new,
    for_each
      (simple_realtime_viz.calculate_updated_positions_step
         reference_data current_femur_pos_mm current_femur_rot)
      indices (l_positions, m_positions)
    = Ok (l_positions ++ l_new, m_positions ++ m_new) /\
    length l_new
    = length (List.filter (fun i => has_label reference_data (l_label_of i)
                                    && has_label reference_data (m_label_of i)) indices) /\
    length m_new = length l_new /\
    Forall (fun p => length p = 3) (l_new ++ m_new).
Proof using shaped position_shape rotation_shape.
  induction indices as [| i indices IH]; intros l_positions m_positions.
  - exists [], []. cbn. rewrite !app_nil_r. repeat split; constructor.
  - cbn [for_each List.filter].
    unfold simple_realtime_viz.calculate_updated_positions_step at 1.
    rewrite !has_label_lookup.
    destruct (reference_data !! Some (l_label_of i)) as [l_ref |] eqn:Hl;
      [destruct (reference_data !! Some (m_label_of i)) as [m_ref |] eqn:Hm |]; cbn [andb].
    + destruct (entry_reprojection_returns _ _ Hl) as (a1 & a2 & a3 & ->).
      destruct (entry_reprojection_returns _ _ Hm) as (b1 & b2 & b3 & ->).
      cbn [bind fst snd].
      destruct (IH (l_positions ++ [[a1; a2; a3]]) (m_positions ++ [[b1; b2; b3]]))
        as (l_new & m_new & -> & Hlen & Hlen' & Hshape).
      exists ([a1; a2; a3] :: l_new), ([b1; b2; b3] :: m_new).
      rewrite <- !app_assoc. cbn [app length].
      repeat split; try congruence.
      constructor; [reflexivity |].
      apply Forall_app in Hshape. destruct Hshape as [Hl' Hm'].
      apply Forall_app. split; [assumption | constructor; [reflexivity | assumption]].
    + cbn [bind]. apply IH.
    + cbn [bind]. apply IH.
Qed.

Lemma calculate_planes_loop (indices : list nat) :
  forall planes,
  exists new_planes,
    for_each_keep
      (RealtimeVisualizer.calculate_planes_step
         reference_data current_femur_pos_mm current_femur_rot)
      indices planes
    = (planes ++ new_planes, None) /\
    map RealtimeVisualizer.label new_planes
    = map pair_label_of
        (List.filter (fun i => has_label reference_data (l_label_of i)
                               && has_label reference_data (m_label_of i)) indices).
Proof using shaped position_shape rotation_shape.
  induction indices as [| i indices IH]; intros planes.
  - exists []. cbn. rewrite app_nil_r. split; reflexivity.
  - cbn [for_each_keep List.filter].
    unfold RealtimeVisualizer.calculate_planes_step at 1.
    rewrite !has_label_lookup.
    destruct (reference_data !! Some (l_label_of i)) as [l_ref |] eqn:Hl;
      [destruct (reference_data !! Some (m_label_of i)) as [m_ref |] eqn:Hm |]; cbn [andb].
    + destruct (entry_reprojection_returns _ _ Hl) as (a1 & a2 & a3 & ->).
      destruct (entry_reprojection_returns _ _ Hm) as (b1 & b2 & b3 & ->).
      cbn [bind].
      destruct (IH (planes ++ [{| RealtimeVisualizer.l_pos := [a1; a2; a3];
                                  RealtimeVisualizer.m_pos := [b1; b2; b3];
                                  RealtimeVisualizer.label := pair_label_of i |}]))
        as (new_planes & -> & Hlabels).
      eexists (_ :: new_planes). rewrite <- app_assoc. split; [reflexivity |].
      cbn [map RealtimeVisualizer.label]. rewrite Hlabels. reflexivity.
    + apply IH.
    + apply IH.
Qed.

End OnShapedCatalog.

(** X14. Whatever the file, the catalog that [load_reference_data] leaves
    and a pose of three position and four rotation components make
    [calculate_updated_positions] return two lists of points and raise
    nothing: one 3-vector in each list for every index of 1..10 that has
    both its L and its M label in the catalog, none for the other labels. *)
Theorem calculate_updated_positions_returns (csv_filename : source)
    (d : gmap cell (realtime_visualization.reference_entry (T:=T)))
    (current_femur_pos_meters current_femur_rot_quat : list T) :
  realtime_visualization.load_reference_data py_float csv_filename = Ok d ->
  length current_femur_pos_meters = 3 ->
  length current_femur_rot_quat = 4 ->
  exists l_positions m_positions,
    simple_realtime_viz.calculate_updated_positions d
      (Some current_femur_pos_meters) (Some current_femur_rot_quat)
    = Ok (Some (l_positions, m_positions)) /\
    length l_positions = length (complete_pairs d) /\
    length m_positions = length (complete_pairs d) /\
    Forall (fun p => length p = 3) (l_positions ++ m_positions).
Proof.
  intros Hload Hpos Hrot.
  apply load_reference_data_shapes in Hload.
  unfold simple_realtime_viz.calculate_updated_positions.
  destruct current_femur_pos_meters as [| p0 ps]; [discriminate |].
  destruct current_femur_rot_quat as [| q0 qs]; [discriminate |].
  cbn [py_truth negb orb].
  assert (Hmm : length (convert_to_millimeters (p0 :: ps)) = 3)
    by (unfold convert_to_millimeters; rewrite length_map; exact Hpos).
  destruct (calculate_updated_positions_loop d _ _ Hload Hmm Hrot pair_indices [] [])
    as (l_new & m_new & -> & Hl & Hm & Hshape).
  cbn [bind app]. exists l_new, m_new. split; [reflexivity |].
  unfold complete_pairs. repeat split; congruence.
Qed.

(** X15. [update_tracker_data] with a pose of three position and four
    rotation components replaces the planes by one plane for every complete
    pair of the catalog, labelled [Li-Mi] in increasing order, and raises
    nothing; with an empty or missing position or rotation it stores the
    pose and leaves the planes of the previous pose in place. *)
Theorem update_tracker_data_planes (csv_filename : source)
    (self : RealtimeVisualizer.visualizer)
    (femur_pos_meters femur_rot_quat : option (list T)) :
  realtime_visualization.load_reference_data py_float csv_filename
  = Ok (RealtimeVisualizer.reference_data self) ->
  (forall p q, femur_pos_meters = Some p -> femur_rot_quat = Some q ->
     length p = 3 -> length q = 4 ->
     exists planes,
       RealtimeVisualizer.update_tracker_data self femur_pos_meters femur_rot_quat
       = ({| RealtimeVisualizer.current_femur_pos := femur_pos_meters;
             RealtimeVisualizer.current_femur_rot := femur_rot_quat;
             RealtimeVisualizer.calculated_planes := Some planes;
             RealtimeVisualizer.reference_data := RealtimeVisualizer.reference_data self |},
          None) /\
       map RealtimeVisualizer.label planes
       = map pair_label_of (complete_pairs (RealtimeVisualizer.reference_data self)))
  /\ (py_truth femur_pos_meters = false \/ py_truth femur_rot_quat = false ->
      RealtimeVisualizer.update_tracker_data self femur_pos_meters femur_rot_quat
      = ({| RealtimeVisualizer.current_femur_pos := femur_pos_meters;
            RealtimeVisualizer.current_femur_rot := femur_rot_quat;
            RealtimeVisualizer.calculated_planes := RealtimeVisualizer.calculated_planes self;
            RealtimeVisualizer.reference_data := RealtimeVisualizer.reference_data self |},
         None)).
Proof.
  intros Hload. apply load_reference_data_shapes in Hload. split.
  - intros p q -> -> Hp Hq.
    unfold RealtimeVisualizer.update_tracker_data, RealtimeVisualizer.calculate_planes.
    cbn [RealtimeVisualizer.current_femur_pos RealtimeVisualizer.current_femur_rot
         RealtimeVisualizer.reference_data RealtimeVisualizer.calculated_planes].
    destruct p as [| p0 ps]; [discriminate |]. destruct q as [| q0 qs]; [discriminate |].
    cbn [py_truth negb orb].
    assert (Hmm : length (convert_to_millimeters (p0 :: ps)) = 3)
      by (unfold convert_to_millimeters; rewrite length_map; exact Hp).
    destruct (calculate_planes_loop _ _ _ Hload Hmm Hq pair_indices [])
      as (planes & -> & Hlabels).
    cbn [app]. exists planes. split; [reflexivity | exact Hlabels].
  - intros Hfalsy.
    unfold RealtimeVisualizer.update_tracker_data, RealtimeVisualizer.calculate_planes.
    cbn [RealtimeVisualizer.current_femur_pos RealtimeVisualizer.current_femur_rot].
    destruct Hfalsy as [-> | ->]; cbn [negb orb]; [reflexivity |].
    rewrite orb_true_r. reflexivity.
Qed.

End PairLoops.

(** ** What [visualize_points] joins *)

Section ConnectingLines.
Context {T : Type} `{Scalar T}.

Import visualize_points_plot.

Lemma collect_points_loop (points : gmap cell (visualize_points.point_entry (T:=T)))
    (indices : list nat) :
  forall l_points m_points,
    fold_left (collect_step points) indices (l_points, m_points)
    = (l_points ++ map (fun i => femur_of_label points (l_label_of i))
                       (List.filter (fun i => has_label points (l_label_of i)) indices),
       m_points ++ map (fun i => femur_of_label points (m_label_of i))
                       (List.filter (fun i => has_label points (m_label_of i)) indices)).
Proof.
  induction indices as [| i indices IH]; intros l_points m_points.
  - cbn. rewrite !app_nil_r. reflexivity.
  - cbn [fold_left List.filter]. unfold collect_step at 2. cbn [fst snd].
    rewrite IH, !has_label_lookup.
    destruct (points !! Some (l_label_of i)) as [entry_l |] eqn:Hl;
      destruct (points !! Some (m_label_of i)) as [entry_m |] eqn:Hm;
      cbn [map]; rewrite <- ?app_assoc; cbn [app];
      unfold femur_of_label; rewrite ?Hl, ?Hm; reflexivity.
Qed.

Lemma collect_points_present (points : gmap cell (visualize_points.point_entry (T:=T))) :
  collect_points points
  = (map (fun i => femur_of_label points (l_label_of i)) (present_l points),
     map (fun i => femur_of_label points (m_label_of i)) (present_m points)).
Proof. unfold collect_points. rewrite collect_points_loop. reflexivity. Qed.

Lemma point_at_nth (points : list (list T)) (i : nat) :
  i < length points -> point_at points i = Ok (nth i points []).
Proof.
  intros Hi. unfold point_at.
  destruct (nth_error points i) as [p |] eqn:Hn.
  - now rewrite (nth_error_nth _ _ _ Hn).
  - apply nth_error_None in Hn. lia.
Qed.

Lemma point_at_beyond (points : list (list T)) (i : nat) :
  length points <= i -> point_at points i = Raise IndexError.
Proof.
  intros Hi. unfold point_at. now rewrite (proj2 (nth_error_None points i) Hi).
Qed.

(** The loop draws the lines in order until [m_points] runs out. *)
Lemma connecting_lines_loop (l_points m_points : list (list T)) (n : nat) :
  forall k drawn,
    k + n <= length l_points ->
    for_each_keep (connect_step l_points m_points) (seq k n) drawn
    = (drawn ++ map (line_at l_points m_points) (seq k (Nat.min n (length m_points - k))),
       if Nat.leb (k + n) (Nat.max k (length m_points)) then None else Some IndexError).
Proof.
  induction n as [| n IH]; intros k drawn Hk.
  - cbn [seq for_each_keep Nat.min map]. rewrite app_nil_r.
    rewrite (proj2 (Nat.leb_le _ _)) by lia. reflexivity.
  - cbn [seq for_each_keep]. unfold connect_step at 1.
    rewrite point_at_nth by lia. cbn [bind].
    destruct (Nat.le_gt_cases (length m_points) k) as [Hm | Hm].
    + rewrite point_at_beyond by assumption. cbn [bind].
      replace (length m_points - k) with 0 by lia. rewrite Nat.min_0_r. cbn [seq map].
      rewrite app_nil_r. rewrite (proj2 (Nat.leb_gt _ _)) by lia. reflexivity.
    + rewrite point_at_nth by assumption. cbn [bind].
      rewrite IH by lia.
      replace (length m_points - k) with (S (length m_points - S k)) by lia.
      rewrite <- Nat.succ_min_distr. cbn [seq map]. rewrite <- app_assoc.
      replace (S k + n) with (k + S n) by lia.
      replace (Nat.max (S k) (length m_points)) with (Nat.max k (length m_points)) by lia.
      reflexivity.
Qed.

Lemma connecting_lines_eq (l_points m_points : list (list T)) :
  connecting_lines l_points m_points
  = (map (line_at l_points m_points)
         (seq 0 (Nat.min (length l_points) (length m_points))),
     if Nat.leb (length l_points) (length m_points) then None else Some IndexError).
Proof.
  unfold connecting_lines. rewrite connecting_lines_loop by lia.
  rewrite Nat.sub_0_r, Nat.max_0_l. reflexivity.
Qed.

(** X16. On the catalog of a file that loads, [visualize_points] joins as
    many points as it found for L; when
    it found fewer M points than L points the loop raises [IndexError]
    after the lines that could be drawn; when it found no L or no M point
    it draws nothing. *)
Theorem visualize_points_lines_cases (py_float : string -> option T)
    (csv_filename : source)
    (points : gmap cell (visualize_points.point_entry (T:=T))) :
  visualize_points.load_csv_data py_float csv_filename = Ok points ->
  (length (present_l points) = 0 \/ length (present_m points) = 0 ->
   visualize_points_lines points = None)
  /\ (0 < length (present_l points) <= length (present_m points) ->
      exists lines,
        visualize_points_lines points = Some (lines, None) /\
        length lines = length (present_l points))
  /\ (0 < length (present_m points) < length (present_l points) ->
      exists lines,
        visualize_points_lines points = Some (lines, Some IndexError) /\
        length lines = length (present_m points)).
Proof.
  intros _. unfold visualize_points_lines. rewrite collect_points_present.
  rewrite !length_map, connecting_lines_eq, !length_map.
  set (nl := length (present_l points)). set (nm := length (present_m points)).
  split; [| split].
  - intros [H0 | H0]; rewrite H0; cbn; [reflexivity |].
    rewrite andb_false_r. reflexivity.
  - intros [Hl Hm].
    rewrite (proj2 (Nat.ltb_lt 0 nl) Hl), (proj2 (Nat.ltb_lt 0 nm)) by lia.
    rewrite (proj2 (Nat.leb_le nl nm) Hm). cbn [andb].
    eexists. split; [reflexivity |]. rewrite length_map, length_seq. lia.
  - intros [Hm Hl].
    rewrite (proj2 (Nat.ltb_lt 0 nl)), (proj2 (Nat.ltb_lt 0 nm) Hm) by lia.
    rewrite (proj2 (Nat.leb_gt nl nm) Hl). cbn [andb].
    eexists. split; [reflexivity |]. rewrite length_map, length_seq. lia.
Qed.

(** X17. On the catalog of a file that loads, the lines of
    [visualize_points] join by position, not by label: line number [k] joins
    the [k]-th L point found with the [k]-th M point found, whatever their
    indices in the catalog, and the texts at its ends are [L(k+1)] and
    [M(k+1)]. *)
Theorem lines_join_by_position (py_float : string -> option T)
    (csv_filename : source)
    (points : gmap cell (visualize_points.point_entry (T:=T)))
    (lines : list connecting_line) (raised : option exn) (k : nat) (line : connecting_line) :
  visualize_points.load_csv_data py_float csv_filename = Ok points ->
  visualize_points_lines points = Some (lines, raised) ->
  nth_error lines k = Some line ->
  exists i j entry_i entry_j,
    nth_error (present_l points) k = Some i /\
    nth_error (present_m points) k = Some j /\
    points !! Some (l_label_of i) = Some entry_i /\
    points !! Some (m_label_of j) = Some entry_j /\
    l_end line = visualize_points.femur entry_i /\
    m_end line = visualize_points.femur entry_j /\
    l_text line = l_label_of (k + 1) /\
    m_text line = m_label_of (k + 1).
Proof.
  intros _. unfold visualize_points_lines. rewrite collect_points_present.
  destruct (_ && _); [| discriminate]. rewrite connecting_lines_eq, !length_map.
  intros Hv Hk. injection Hv as <- _.
  rewrite nth_error_map in Hk.
  destruct (nth_error (seq 0 _) k) as [k' |] eqn:Hseq; [| discriminate].
  injection Hk as <-.
  pose proof (nth_error_Some (seq 0 (Nat.min (length (present_l points))
                                             (length (present_m points)))) k) as Hlt.
  rewrite Hseq, length_seq in Hlt. assert (Hk : k < Nat.min (length (present_l points))
                                                   (length (present_m points)))
    by (apply Hlt; discriminate).
  rewrite nth_error_seq in Hseq.
  destruct (Nat.ltb_spec k (Nat.min (length (present_l points)) (length (present_m points))));
    [| lia].
  cbn in Hseq. injection Hseq as <-.
  destruct (nth_error (present_l points) k) as [i |] eqn:Hi;
    [| apply nth_error_None in Hi; lia].
  destruct (nth_error (present_m points) k) as [j |] eqn:Hj;
    [| apply nth_error_None in Hj; lia].
  assert (Hil : has_label points (l_label_of i) = true).
  { apply nth_error_In in Hi. unfold present_l in Hi.
    apply filter_In in Hi. apply Hi. }
  assert (Hjm : has_label points (m_label_of j) = true).
  { apply nth_error_In in Hj. unfold present_m in Hj.
    apply filter_In in Hj. apply Hj. }
  rewrite has_label_lookup in Hil, Hjm.
  destruct (points !! Some (l_label_of i)) as [entry_i |] eqn:Hei; [| discriminate].
  destruct (points !! Some (m_label_of j)) as [entry_j |] eqn:Hej; [| discriminate].
  exists i, j, entry_i, entry_j. do 2 (split; [reflexivity |]).
  do 2 (split; [assumption |]).
  unfold line_at. cbn [l_end m_end l_text m_text].
  split; [| split; [| split; reflexivity]].
  - erewrite nth_indep by (rewrite length_map; lia).
    rewrite (map_nth (fun i => femur_of_label points (l_label_of i)) _ 0).
    rewrite (nth_error_nth _ _ _ Hi). unfold femur_of_label. now rewrite Hei.
  - erewrite nth_indep by (rewrite length_map; lia).
    rewrite (map_nth (fun i => femur_of_label points (m_label_of i)) _ 0).
    rewrite (nth_error_nth _ _ _ Hj). unfold femur_of_label. now rewrite Hej.
Qed.

End ConnectingLines.

(** ** The tracker over a session *)

Section TrackerSession.
Context {T : Type} `{Scalar T}.

Import RigidBodyTracker.

Lemma printable_shapes (position rotation : list T) :
  length position = 3 -> length rotation = 4 ->
  printable (convert_to_millimeters position) rotation = true.
Proof.
  intros Hp Hq. unfold printable, convert_to_millimeters.
  rewrite length_map, Hp, Hq. reflexivity.
Qed.

Lemma on_rigid_body_received_shaped (s : tracker) (now : T) (id : Z)
    (position rotation : list T) :
  shaped_tracker s -> length position = 3 -> length rotation = 4 ->
  shaped_tracker (on_rigid_body_received s now id position rotation).
Proof.
  intros (Hf & Hs & Hr) Hp Hq. unfold on_rigid_body_received.
  destruct (Z.eqb id (femur_id s)); [| destruct (Z.eqb id (stylus_id s))];
    repeat split; cbn; intros; try (apply Hf || apply Hs || apply Hr); try assumption;
    exists position, rotation; repeat split; assumption.
Qed.

Lemma store_positions_shaped (s : tracker) (timestamp : string) :
  shaped_tracker s ->
  shaped_tracker (fst (store_positions s timestamp)) /\
  snd (store_positions s timestamp) = None.
Proof.
  intros Hinv. pose proof Hinv as (Hf & Hs & Hr). unfold store_positions.
  destruct (femur_data_received s) eqn:Efr; [| split; [exact Hinv | reflexivity]].
  destruct (Hf eq_refl) as (p & q & Epos & Erot & Hp & Hq). rewrite Epos, Erot.
  destruct (stylus_data_received s) eqn:Esr; [| split; [exact Hinv | reflexivity]].
  destruct (Hs eq_refl) as (p' & q' & Epos' & Erot' & Hp' & Hq'). rewrite Epos', Erot'.
  cbn [fst snd]. rewrite !printable_shapes by assumption.
  split; [exact Hinv | reflexivity].
Qed.

Lemma capture_reference_shaped (s : tracker) :
  shaped_tracker s ->
  shaped_tracker (fst (capture_reference s)) /\ snd (capture_reference s) = None.
Proof.
  intros Hinv. pose proof Hinv as (Hf & Hs & Hr). unfold capture_reference.
  destruct (femur_data_received s) eqn:Efr; [| split; [exact Hinv | reflexivity]].
  destruct (Hf eq_refl) as (p & q & Epos & Erot & Hp & Hq). rewrite Epos, Erot.
  destruct (stylus_data_received s) eqn:Esr; [| split; [exact Hinv | reflexivity]].
  destruct (Hs eq_refl) as (p' & q' & Epos' & Erot' & Hp' & Hq'). rewrite Epos', Erot'.
  cbn [fst snd]. rewrite !printable_shapes by assumption. split; [| reflexivity].
  repeat split; cbn; intros.
  - exists p, q. repeat split; assumption.
  - exists p', q'. repeat split; assumption.
  - eexists _, q. repeat split; try reflexivity; try assumption.
    unfold convert_to_millimeters. now rewrite length_map.
  - eexists _, q'. repeat split; try reflexivity; try assumption.
    unfold convert_to_millimeters. now rewrite length_map.
Qed.

Lemma calculate_updated_position_shaped (s : tracker) :
  shaped_tracker s -> snd (calculate_updated_position s) = None.
Proof.
  intros (Hf & Hs & Hr). unfold calculate_updated_position.
  destruct (reference_captured s) eqn:Erc; [| reflexivity]. cbn [negb].
  destruct (Hr eq_refl) as ((rp & rq & -> & -> & Hrp & Hrq) & (sp & sq & -> & _ & Hsp & _)).
  destruct (femur_data_received s) eqn:Efr; [| reflexivity].
  destruct (Hf eq_refl) as (p & q & -> & -> & Hp & Hq).
  assert (Hmm : length (convert_to_millimeters p) = 3)
    by (unfold convert_to_millimeters; now rewrite length_map).
  destruct (reprojection_returns rp rq sp (convert_to_millimeters p) q
              Hrp Hrq Hsp Hmm Hq) as (u1 & u2 & u3 & Hu).
  unfold RigidBodyTracker.calculate_updated_stylus_position.
  cbn [rigid_body_tracker.array_of bind].
  destruct (reprojection_rotations _ _ _ _ _ _ Hu) as (R_ref & R_new & -> & ->).
  cbn [bind]. rewrite Hu. rewrite printable_shapes by assumption. cbn [negb].
  destruct (stylus_data_received s) eqn:Esr; [| reflexivity].
  destruct (Hs eq_refl) as (p' & q' & -> & _ & Hp' & _).
  destruct p' as [| a1 [| a2 [| a3 [| ? ?]]]]; try discriminate Hp'.
  reflexivity.
Qed.

Lemma handle_shaped (s : tracker) (ev : event) :
  shaped_tracker s -> well_shaped ev ->
  shaped_tracker (fst (handle s ev)) /\ snd (handle s ev) = None.
Proof.
  intros Hinv Hev. destruct ev as [now id position rotation | timestamp | |]; cbn [handle].
  - destruct Hev as [Hp Hq]. split; [| reflexivity].
    apply on_rigid_body_received_shaped; assumption.
  - apply store_positions_shaped; assumption.
  - apply capture_reference_shaped; assumption.
  - split; [exact Hinv | apply calculate_updated_position_shaped; assumption].
Qed.

Lemma init_shaped (femur_id stylus_id : Z) : shaped_tracker (init femur_id stylus_id).
Proof. repeat split; cbn; intros; discriminate. Qed.

Lemma session_snoc (s : tracker) (events : list event) (ev : event) :
  session s (events ++ [ev]) = fst (handle (session s events) ev).
Proof. unfold session. rewrite fold_left_app. reflexivity. Qed.

Lemma session_shaped (s : tracker) (events : list event) :
  shaped_tracker s -> Forall well_shaped events -> shaped_tracker (session s events).
Proof.
  intros Hinv Hevs. revert s Hinv.
  induction Hevs as [| ev events Hev _ IH]; intros s Hinv; [exact Hinv |].
  cbn. apply IH. apply handle_shaped; assumption.
Qed.

(** X18. With samples of three position and four rotation components, no
    key of a session raises: to store, to capture the reference and to
    calculate the updated position return normally, whatever the order of
    samples and keys before. *)
Theorem session_never_raises (femur stylus : Z) (events : list event) (ev : event) :
  Forall well_shaped events ->
  well_shaped ev ->
  snd (handle (session (init femur stylus) events) ev) = None.
Proof.
  intros Hevs Hev.
  apply handle_shaped; [| exact Hev].
  apply session_shaped; [apply init_shaped | exact Hevs].
Qed.

(** The captured points only grow, by points numbered on from the last. *)
Lemma handle_numbered (s : tracker) (ev : event) :
  exists new,
    captured_points (fst (handle s ev)) = captured_points s ++ new /\
    map data_point.point_number new = seq (length (captured_points s) + 1) (length new).
Proof.
  destruct ev as [now id position rotation | timestamp | |]; cbn [handle fst].
  - exists []. rewrite app_nil_r. split; [| reflexivity].
    unfold on_rigid_body_received.
    destruct (Z.eqb id (femur_id s)); [| destruct (Z.eqb id (stylus_id s))]; reflexivity.
  - unfold store_positions.
    destruct (femur_data_received s), (femur_position s), (stylus_data_received s),
      (stylus_position s), (femur_rotation s), (stylus_rotation s);
      cbn [fst captured_points with_captured_points];
      try (exists []; rewrite app_nil_r; split; reflexivity).
    eexists [_]. split; reflexivity.
  - exists []. rewrite app_nil_r. split; [| reflexivity].
    unfold capture_reference.
    destruct (femur_data_received s), (femur_position s), (stylus_data_received s),
      (stylus_position s), (femur_rotation s), (stylus_rotation s); reflexivity.
  - exists []. rewrite app_nil_r. split; reflexivity.
Qed.

Lemma session_numbered (events : list event) :
  forall s,
  exists new,
    captured_points (session s events) = captured_points s ++ new /\
    map data_point.point_number new = seq (length (captured_points s) + 1) (length new).
Proof.
  induction events as [| ev events IH]; intros s.
  - exists []. cbn. rewrite app_nil_r. split; reflexivity.
  - cbn [session fold_left]. fold (session (fst (handle s ev)) events).
    destruct (handle_numbered s ev) as (new1 & E1 & N1).
    destruct (IH (fst (handle s ev))) as (new2 & E2 & N2).
    exists (new1 ++ new2). rewrite E2, E1, <- app_assoc. split; [reflexivity |].
    rewrite map_app, N1, N2, E1, !length_app.
    replace (length (captured_points s) + length new1 + 1)
      with (length (captured_points s) + 1 + length new1) by lia.
    symmetry. apply seq_app.
Qed.

(** X19. The log of captured points is append-only and numbered: a session
    keeps the points that were there, in their order, and from a new
    tracker the numbers of the points are 1, 2, ..., whatever the events,
    exceptions included. *)
Theorem captured_points_append_only (s : tracker) (femur stylus : Z) (events : list event) :
  (exists new, captured_points (session s events) = captured_points s ++ new)
  /\ numbered (captured_points (session (init femur stylus) events)).
Proof.
  split.
  - destruct (session_numbered events s) as (new & E & _). exists new. exact E.
  - destruct (session_numbered events (init femur stylus)) as (new & E & N).
    unfold numbered. rewrite E. cbn [init captured_points app length Nat.add] in *.
    exact N.
Qed.

Lemma same_ids_invariant (id : Z) (events : list event) :
  forall s,
    femur_id s = id -> stylus_id s = id ->
    stylus_data_received s = false -> reference_captured s = false ->
    let s' := session s events in
    stylus_data_received s' = false /\ reference_captured s' = false /\
    captured_points s' = captured_points s.
Proof.
  induction events as [| ev events IH]; intros s Hf Hs Hsr Hrc; [repeat split; assumption |].
  cbn [session fold_left]. fold (session (fst (handle s ev)) events).
  assert (Hstep : femur_id (fst (handle s ev)) = id /\ stylus_id (fst (handle s ev)) = id /\
                  stylus_data_received (fst (handle s ev)) = false /\
                  reference_captured (fst (handle s ev)) = false /\
                  captured_points (fst (handle s ev)) = captured_points s).
  { destruct ev as [now rb position rotation | timestamp | |]; cbn [handle fst].
    - unfold on_rigid_body_received. rewrite Hf, Hs.
      destruct (Z.eqb rb id); cbn; repeat split; assumption.
    - unfold store_positions. rewrite Hsr.
      destruct (femur_data_received s), (femur_position s); repeat split; assumption.
    - unfold capture_reference. rewrite Hsr.
      destruct (femur_data_received s), (femur_position s); repeat split; assumption.
    - repeat split; assumption. }
  destruct Hstep as (Hf' & Hs' & Hsr' & Hrc' & Hcp).
  destruct (IH _ Hf' Hs' Hsr' Hrc') as (H1 & H2 & H3).
  repeat split; try assumption. cbn zeta in H3. congruence.
Qed.

(** X20. A tracker whose femur and stylus have the same id never receives
    the stylus: it stores no point and captures no reference, whatever the
    samples and keys. *)
Theorem same_ids_capture_nothing (id : Z) (events : list event) :
  stylus_data_received (session (init id id) events) = false /\
  reference_captured (session (init id id) events) = false /\
  captured_points (session (init id id) events) = [].
Proof. apply (same_ids_invariant id events (init id id)); reflexivity. Qed.

End TrackerSession.

Lemma session_never_raises_witness :
  Forall well_shaped
    [RigidBodyTracker.Sample 1%float 1%Z [0; 0; 0]%float [0; 0; 0; 1]%float;
     RigidBodyTracker.Sample 2%float 2%Z [0; 1; 0]%float [0; 0; 0; 1]%float;
     RigidBodyTracker.Key_r; RigidBodyTracker.Key_s "t"%string]
  /\ well_shaped (T:=float) RigidBodyTracker.Key_u
  /\ snd (RigidBodyTracker.handle
            (RigidBodyTracker.session (RigidBodyTracker.init 1 2)
               [RigidBodyTracker.Sample 1%float 1%Z [0; 0; 0]%float [0; 0; 0; 1]%float;
                RigidBodyTracker.Sample 2%float 2%Z [0; 1; 0]%float [0; 0; 0; 1]%float;
                RigidBodyTracker.Key_r; RigidBodyTracker.Key_s "t"%string])
            RigidBodyTracker.Key_u) = None.
Proof.
  assert (Hevs : Forall well_shaped
    [RigidBodyTracker.Sample 1%float 1%Z [0; 0; 0]%float [0; 0; 0; 1]%float;
     RigidBodyTracker.Sample 2%float 2%Z [0; 1; 0]%float [0; 0; 0; 1]%float;
     RigidBodyTracker.Key_r; RigidBodyTracker.Key_s "t"%string]).
  { repeat constructor. }
  assert (Hev : well_shaped (T:=float) RigidBodyTracker.Key_u) by exact I.
  split; [exact Hevs |]. split; [exact Hev |].
  exact (session_never_raises 1 2 _ _ Hevs Hev).
Defined.

(** ** Reference and update on the tracker, in exact arithmetic *)

Section TrackerReference.
Local Open Scope R_scope.

Import RigidBodyTracker.

Lemma reference_reprojection (p1 p2 p3 x y z w s1 s2 s3 d1 d2 d3 k : R) :
  k <> 0 ->
  RigidBodyTracker.calculate_updated_stylus_position
    (Some (convert_to_millimeters [p1; p2; p3])) (Some [x; y; z; w])
    (Some (convert_to_millimeters [s1; s2; s3]))
    (convert_to_millimeters [p1 + d1; p2 + d2; p3 + d3])
    (Some (quat_scale k [x; y; z; w]))
  = Ok (convert_to_millimeters [s1 + d1; s2 + d2; s3 + d3]).
Proof.
  intros Hk. unfold RigidBodyTracker.calculate_updated_stylus_position.
  cbn [rigid_body_tracker.array_of bind].
  destruct (quaternion_to_rotation_matrix_unit x y z w) as (a & b & c & d & _ & Eq).
  rewrite Eq. cbn [bind].
  cbn [quat_scale map]. rewrite quaternion_to_rotation_matrix_scale by assumption.
  rewrite Eq. cbn [bind].
  change [k * x; k * y; k * z; k * w] with (quat_scale k [x; y; z; w]).
  rewrite reprojection_scaled_orientation by assumption.
  cbn [convert_to_millimeters map]. rewrite reprojection_same_orientation.
  cbn. componentwise; ring.
Qed.

(** X21. Capture the reference, then let the tracker move by a
    displacement without turning (its quaternion may change by a nonzero
    factor): [calculate_updated_position] reports the reference stylus
    position moved by the same displacement, in millimetres, and, against a
    stylus that stayed where it was, an error of minus that displacement;
    nothing is raised. *)
Theorem reference_then_translation (self : tracker (T:=R))
    (p1 p2 p3 x y z w s1 s2 s3 d1 d2 d3 k now : R) (stylus_quaternion : list R) :
  femur_data_received self = true ->
  femur_position self = Some [p1; p2; p3] ->
  femur_rotation self = Some [x; y; z; w] ->
  stylus_data_received self = true ->
  stylus_position self = Some [s1; s2; s3] ->
  stylus_rotation self = Some stylus_quaternion ->
  k <> 0 ->
  let captured := fst (capture_reference self) in
  let moved :=
    on_rigid_body_received captured now (femur_id self)
      [p1 + d1; p2 + d2; p3 + d3] (quat_scale k [x; y; z; w]) in
  exists e,
    calculate_updated_position moved
    = (Some {| updated_stylus_pos := convert_to_millimeters [s1 + d1; s2 + d2; s3 + d3];
               error_data := Some e |}, None) /\
    x_error e = - (d1 * 1000) /\ y_error e = - (d2 * 1000) /\ z_error e = - (d3 * 1000).
Proof.
  intros Hfr Hfp Hfq Hsr Hsp Hsq Hk captured moved.
  subst moved captured. unfold capture_reference.
  rewrite Hfr, Hfp, Hsr, Hsp, Hfq, Hsq. cbn [fst].
  unfold on_rigid_body_received.
  cbn [femur_id with_reference stylus_id]. rewrite Z.eqb_refl.
  unfold calculate_updated_position.
  cbn [reference_captured negb femur_data_received femur_position femur_rotation
       reference_femur_position reference_femur_rotation reference_stylus_position
       stylus_data_received stylus_position with_reference].
  rewrite Hsr, Hsp.
  rewrite reference_reprojection by assumption.
  cbn. eexists. split; [reflexivity |]. cbn. repeat split; ring.
Qed.

End TrackerReference.

Lemma reference_then_translation_witness :
  let self : RigidBodyTracker.tracker (T:=R) :=
    RigidBodyTracker.session (RigidBodyTracker.init 1 2)
      [RigidBodyTracker.Sample 1%R 1%Z [0; 0; 0]%R [0; 0; 0; 1]%R;
       RigidBodyTracker.Sample 2%R 2%Z [0; 1; 0]%R [0; 0; 0; 1]%R] in
  (-1 <> 0)%R /\
  exists e,
    RigidBodyTracker.calculate_updated_position
      (RigidBodyTracker.on_rigid_body_received
         (fst (RigidBodyTracker.capture_reference self)) 3%R (RigidBodyTracker.femur_id self)
         [0 + 5; 0 + 6; 0 + 7]%R (quat_scale (-1) [0; 0; 0; 1]%R))
    = (Some {| RigidBodyTracker.updated_stylus_pos :=
                 convert_to_millimeters [0 + 5; 1 + 6; 0 + 7]%R;
               RigidBodyTracker.error_data := Some e |}, None) /\
    x_error e = (- (5 * 1000))%R /\ y_error e = (- (6 * 1000))%R /\
    z_error e = (- (7 * 1000))%R.
Proof.
  intros self. assert (Hk : (-1 <> 0)%R) by lra.
  split; [exact Hk |].
  exact (reference_then_translation self 0 0 0 0 0 0 1 0 1 0 5 6 7 (-1) 3 [0; 0; 0; 1]%R
           eq_refl eq_refl eq_refl eq_refl eq_refl eq_refl Hk).
Defined.

(** ** Lookup of a label that is there *)

Section LookupPresent.
Context {T : Type} `{Scalar T} (py_float : string -> option T).

Import visualize_points.

(** X22. On a file whose rows are all well formed, the lookup of a label
    that some row carries, from a pose of three position and four rotation
    components, returns a point and raises nothing: the label asked for,
    the current position in millimetres, three calculated components. *)
Theorem calculate_point_position_returns (rows : list row) (label : string)
    (current_femur_pos_meters current_femur_rot_quat : list T) :
  Forall (well_formed_row py_float) rows ->
  Exists (fun r => r !! "Point_Number"%string = Some (Some label)) rows ->
  length current_femur_pos_meters = 3 ->
  length current_femur_rot_quat = 4 ->
  exists p,
    calculate_point_position py_float label
      current_femur_pos_meters current_femur_rot_quat (Csv rows) = Ok (Some p) /\
    point_label p = label /\
    current_femur_pos_mm p = convert_to_millimeters current_femur_pos_meters /\
    length (calculated_position_mm p) = 3.
Proof.
  intros Hwf Hex Hpos Hrot.
  destruct (for_rows_reference_all_or_raise py_float rows ∅) as [[_ [d Hd]] | [Hbad _]].
  2: { exfalso. apply Exists_exists in Hbad. destruct Hbad as (r & Hr & Hnot).
       rewrite Forall_forall in Hwf. exact (Hnot (Hwf r Hr)). }
  pose proof (for_rows_reference_shapes py_float _ _ _ Hd (map_Forall_empty _)) as Hshape.
  apply for_rows_reference_csv in Hd. rewrite fmap_empty in Hd.
  unfold calculate_point_position, load_csv_data. cbn [open_csv bind]. rewrite Hd.
  cbn [bind].
  assert (Hin : is_Some ((without_rotation <$> d) !! Some label)).
  { apply (for_rows_load_has_labels py_float _ _ _ _ Hd). right. exact Hex. }
  destruct Hin as [entry Hentry]. rewrite Hentry.
  rewrite lookup_fmap in Hentry.
  destruct (d !! Some label) as [e |] eqn:He; [| discriminate].
  cbn in Hentry. injection Hentry as <-.
  destruct (Hshape (Some label) e He) as (Hp & _ & Hs).
  assert (Hcolumn : Forall (fun r => is_Some (r !! "Point_Number"%string)) rows)
    by (eapply Forall_impl; [exact Hwf | intros r Hr; exact (proj1 Hr)]).
  assert (Hcells : Forall (fun r => r !! "Point_Number"%string = Some (Some label) ->
                             Forall (numeric_cell py_float r) rotation_columns) rows).
  { eapply Forall_impl; [exact Hwf |]. intros r [_ Hr] _.
    apply Forall_app in Hr. exact (proj2 Hr). }
  destruct (find_femur_rotation_present py_float rows label Hcolumn Hcells Hex)
    as (qw & qx & qy & qz & ->).
  cbn [bind without_rotation femur stylus].
  assert (Hmm : length (convert_to_millimeters current_femur_pos_meters) = 3)
    by (unfold convert_to_millimeters; now rewrite length_map).
  destruct (reprojection_returns (realtime_visualization.femur_pos e) [qw; qx; qy; qz]
              (realtime_visualization.stylus_pos e)
              (convert_to_millimeters current_femur_pos_meters) current_femur_rot_quat
              Hp eq_refl Hs Hmm Hrot) as (r1 & r2 & r3 & ->).
  cbn [bind]. eexists. split; [reflexivity |]. repeat split.
Qed.


End LookupPresent.

(** ** The loaders and the loops on tables *)

Lemma load_csv_data_labels_witness :
  is_Some (({[ Some "L1"%string := {| visualize_points.femur := [0; 0; 0]%R;
                                      visualize_points.stylus := [0; 10; 0]%R |} ]}
             : gmap cell visualize_points.point_entry) !! Some "L1"%string)
  <-> Exists (fun r => r !! "Point_Number"%string = Some (Some "L1"%string))
        [catalog_row "L1" "0" "0" "0"  "1" "0" "0" "0"  "0" "10" "0"].
Proof.
  apply (load_csv_data_labels float_of_numeral _ _ (Some "L1"%string)).
  vm_compute. reflexivity.
Defined.

Lemma duplicated_label_mixes_rows_witness :
  exists p,
    visualize_points.calculate_point_position float_of_numeral "L1"
      [0; 0; 0]%float [0; 0; 0; 1]%float (Csv [first_l1_row; second_l1_row])
    = Ok (Some p) /\
    visualize_points.reference_femur_rotation p = [1; 0; 0; 0]%float /\
    visualize_points.reference_femur_pos_mm p = [1; 2; 3]%float /\
    visualize_points.find_femur_rotation float_of_numeral [first_l1_row] "L1"
    = Ok (Some (visualize_points.reference_femur_rotation p)) /\
    exists points2,
      visualize_points.load_csv_data float_of_numeral (Csv [second_l1_row]) = Ok points2 /\
      points2 !! Some "L1"%string
      = Some {| visualize_points.femur := visualize_points.reference_femur_pos_mm p;
                visualize_points.stylus := visualize_points.reference_stylus_pos_mm p |}.
Proof.
  destruct (visualize_points.calculate_point_position float_of_numeral "L1"
              [0; 0; 0]%float [0; 0; 0; 1]%float (Csv [first_l1_row; second_l1_row]))
    as [[p |] | e] eqn:Hp; [| vm_compute in Hp; discriminate ..].
  exists p. split; [reflexivity |].
  pose proof (duplicated_label_mixes_rows float_of_numeral [] [] []
                first_l1_row second_l1_row "L1" _ _ p
                (List.Forall_nil _) eq_refl eq_refl (List.Forall_nil _) Hp) as Hmix.
  vm_compute in Hp. injection Hp as <-.
  split; [reflexivity |]. split; [reflexivity |]. exact Hmix.
Defined.

Lemma calculate_updated_positions_returns_witness :
  exists l_positions m_positions,
    simple_realtime_viz.calculate_updated_positions pair_dictionary
      (Some [0; 0; 1]%float) (Some [0; 0; 0; 1]%float)
    = Ok (Some (l_positions, m_positions)) /\
    length l_positions = length (complete_pairs pair_dictionary) /\
    length m_positions = length (complete_pairs pair_dictionary) /\
    Forall (fun p => length p = 3) (l_positions ++ m_positions).
Proof.
  assert (Hd : realtime_visualization.load_reference_data float_of_numeral pair_catalog
               = Ok pair_dictionary) by (vm_compute; reflexivity).
  exact (calculate_updated_positions_returns float_of_numeral pair_catalog pair_dictionary
           [0; 0; 1]%float [0; 0; 0; 1]%float Hd eq_refl eq_refl).
Defined.

Lemma update_tracker_data_planes_witness :
  exists planes,
    RealtimeVisualizer.update_tracker_data
      {| RealtimeVisualizer.current_femur_pos := None;
         RealtimeVisualizer.current_femur_rot := None;
         RealtimeVisualizer.calculated_planes := None;
         RealtimeVisualizer.reference_data := pair_dictionary |}
      (Some [0; 0; 1]%float) (Some [0; 0; 0; 1]%float)
    = ({| RealtimeVisualizer.current_femur_pos := Some [0; 0; 1]%float;
          RealtimeVisualizer.current_femur_rot := Some [0; 0; 0; 1]%float;
          RealtimeVisualizer.calculated_planes := Some planes;
          RealtimeVisualizer.reference_data := pair_dictionary |}, None) /\
    map RealtimeVisualizer.label planes
    = map pair_label_of (complete_pairs pair_dictionary).
Proof.
  assert (Hd : realtime_visualization.load_reference_data float_of_numeral pair_catalog
               = Ok pair_dictionary) by (vm_compute; reflexivity).
  exact (proj1 (update_tracker_data_planes float_of_numeral pair_catalog
                  {| RealtimeVisualizer.current_femur_pos := None;
                     RealtimeVisualizer.current_femur_rot := None;
                     RealtimeVisualizer.calculated_planes := None;
                     RealtimeVisualizer.reference_data := pair_dictionary |}
                  (Some [0; 0; 1]%float) (Some [0; 0; 0; 1]%float) Hd)
           [0; 0; 1]%float [0; 0; 0; 1]%float eq_refl eq_refl eq_refl eq_refl).
Defined.

Lemma visualize_points_lines_cases_witness :
  exists lines,
    visualize_points_plot.visualize_points_lines pair_points = Some (lines, None) /\
    length lines = length (present_l pair_points).
Proof.
  assert (Hd : visualize_points.load_csv_data float_of_numeral pair_catalog
               = Ok pair_points) by (vm_compute; reflexivity).
  assert (Hfound : 0 < length (present_l pair_points) <= length (present_m pair_points))
    by (vm_compute; lia).
  exact (proj1 (proj2 (visualize_points_lines_cases float_of_numeral pair_catalog
                         pair_points Hd)) Hfound).
Defined.

Lemma lines_join_by_position_witness :
  exists i j entry_i entry_j,
    nth_error (present_l pair_points) 1 = Some i /\
    nth_error (present_m pair_points) 1 = Some j /\
    pair_points !! Some (l_label_of i) = Some entry_i /\
    pair_points !! Some (m_label_of j) = Some entry_j /\
    [1; 2; 3]%float = visualize_points.femur entry_i /\
    [7; 8; 9]%float = visualize_points.femur entry_j /\
    "L2"%string = l_label_of (1 + 1) /\
    "M2"%string = m_label_of (1 + 1).
Proof.
  assert (Hd : visualize_points.load_csv_data float_of_numeral pair_catalog
               = Ok pair_points) by (vm_compute; reflexivity).
  assert (Hv : visualize_points_plot.visualize_points_lines pair_points
               = Some ([ {| visualize_points_plot.l_end := [0; 0; 0]%float;
                            visualize_points_plot.m_end := [0; 0; 0]%float;
                            visualize_points_plot.l_text := "L1";
                            visualize_points_plot.m_text := "M1" |};
                         {| visualize_points_plot.l_end := [1; 2; 3]%float;
                            visualize_points_plot.m_end := [7; 8; 9]%float;
                            visualize_points_plot.l_text := "L2";
                            visualize_points_plot.m_text := "M2" |} ], None))
    by (vm_compute; reflexivity).
  exact (lines_join_by_position float_of_numeral pair_catalog pair_points _ _ 1 _
           Hd Hv eq_refl).
Defined.

Lemma calculate_point_position_returns_witness :
  exists p,
    visualize_points.calculate_point_position float_of_numeral "L1"
      [0; 0; 1]%float [0; 0; 0; 1]%float (Csv [first_l1_row]) = Ok (Some p) /\
    visualize_points.point_label p = "L1"%string /\
    visualize_points.current_femur_pos_mm p = convert_to_millimeters [0; 0; 1]%float /\
    length (visualize_points.calculated_position_mm p) = 3.
Proof.
  assert (Hrow : well_formed_row (T:=float) float_of_numeral first_l1_row).
  { split; [eexists; vm_compute; reflexivity |].
    unfold position_columns, rotation_columns. cbn [app].
    repeat (apply List.Forall_cons;
            [eexists _, _; split; [vm_compute; reflexivity | vm_compute; reflexivity] |]).
    apply List.Forall_nil. }
  assert (Hlabel : first_l1_row !! "Point_Number"%string = Some (Some "L1"%string))
    by (vm_compute; reflexivity).
  assert (Hrows : Forall (well_formed_row (T:=float) float_of_numeral) [first_l1_row])
    by (constructor; [exact Hrow | constructor]).
  assert (Hex : Exists (fun r => r !! "Point_Number"%string = Some (Some "L1"%string))
                  [first_l1_row])
    by (constructor; exact Hlabel).
  exact (calculate_point_position_returns float_of_numeral [first_l1_row] "L1"
           [0; 0; 1]%float [0; 0; 0; 1]%float Hrows Hex eq_refl eq_refl).
Defined.

(** ** The polygon of a plane *)

Section PlanePolygon.
Local Open Scope R_scope.
Import RealtimeVisualizerPolygon.

Lemma norm3_square (v1 v2 v3 : R) :
  np_linalg_norm [v1; v2; v3] * np_linalg_norm [v1; v2; v3] = v1 * v1 + v2 * v2 + v3 * v3.
Proof.
  unfold np_linalg_norm, dot, np_sum. cbn.
  rewrite sqrt_sqrt; [ring |].
  pose proof (Rle_0_sqr v1). pose proof (Rle_0_sqr v2). pose proof (Rle_0_sqr v3).
  unfold Rsqr in *. lra.
Qed.

Lemma norm3_zero (v1 v2 v3 : R) :
  np_linalg_norm [v1; v2; v3] = 0 <-> v1 = 0 /\ v2 = 0 /\ v3 = 0.
Proof.
  split.
  - intros Hn. pose proof (norm3_square v1 v2 v3) as Hsq. rewrite Hn in Hsq.
    pose proof (Rle_0_sqr v1). pose proof (Rle_0_sqr v2). pose proof (Rle_0_sqr v3).
    unfold Rsqr in *. repeat split; nra.
  - intros (-> & -> & ->). unfold np_linalg_norm, dot, np_sum. cbn.
    replace (0 + 0 * 0 + 0 * 0 + 0 * 0) with 0 by ring. apply sqrt_0.
Qed.

Lemma norm3_pos (v1 v2 v3 : R) : 0 <= np_linalg_norm [v1; v2; v3].
Proof. unfold np_linalg_norm. apply sqrt_pos. Qed.

(** The vector across the line is not zero: a unit vector has its second
    component above 0.9 in absolute value, or one of the other two is not
    zero. *)
Lemma perp_vector_nonzero (u1 u2 u3 : R) :
  u1 * u1 + u2 * u2 + u3 * u3 = 1 ->
  exists c1 c2 c3,
    (let! along_up := np_dot [u1; u2; u3] [lit 0; lit 1; lit 0] in
     np_cross [u1; u2; u3]
       (if gt (np_abs along_up) (div (lit 9) (lit 10))
        then [lit 1; lit 0; lit 0] else [lit 0; lit 1; lit 0]))
    = Ok [c1; c2; c3] /\
    np_linalg_norm [c1; c2; c3] <> 0 /\
    c1 * u1 + c2 * u2 + c3 * u3 = 0.
Proof.
  intros Hu. cbn [np_dot length Nat.eqb bind].
  assert (Hd : dot [u1; u2; u3] [lit 0; lit 1; lit 0] = u2)
    by (unfold dot, np_sum; cbn; ring).
  rewrite Hd. unfold gt, np_abs, R_ordered.
  destruct (Rlt_dec _ _) as [Hgt | Hle]; cbn [np_cross]; eexists _, _, _;
    (split; [reflexivity |]); (split; [| cbn; ring]);
    intros Hz; apply norm3_zero in Hz; cbn in Hz; destruct Hz as (H1 & H2 & H3).
  - assert (u2 = 0) by lra. subst u2. rewrite Rabs_R0 in Hgt.
    cbn [div lit R_scalar] in Hgt. lra.
  - assert (u3 = 0) by lra. assert (u1 = 0) by lra. subst u1 u3.
    apply Hle. assert (Habs : Rabs u2 * Rabs u2 = 1).
    { rewrite <- Rabs_mult. replace (u2 * u2) with 1 by lra. apply Rabs_R1. }
    pose proof (Rabs_pos u2). cbn [div lit R_scalar]. nra.
Qed.

(** X24. The polygon of [create_plane_polygon] on two points of three
    components: there is none when L and M coincide; otherwise its four
    corners form a square of side [size] centred at the midpoint of L and M,
    whose side from the second to the first corner has the direction from L
    to M.  The diagonals meet at the midpoint, the next side is orthogonal
    to the line and as long.  [center_pos] does not enter. *)
Theorem create_plane_polygon_square (l1 l2 l3 m1 m2 m3 size : R) (center_pos : list R) :
  ([l1; l2; l3] = [m1; m2; m3] ->
   create_plane_polygon [l1; l2; l3] [m1; m2; m3] center_pos size = Ok None)
  /\ ([l1; l2; l3] <> [m1; m2; m3] ->
      exists a1 a2 a3 b1 b2 b3 c1 c2 c3 d1 d2 d3 len,
        create_plane_polygon [l1; l2; l3] [m1; m2; m3] center_pos size
        = Ok (Some [[a1; a2; a3]; [b1; b2; b3]; [c1; c2; c3]; [d1; d2; d3]]) /\
        a1 + c1 = l1 + m1 /\ a2 + c2 = l2 + m2 /\ a3 + c3 = l3 + m3 /\
        b1 + d1 = l1 + m1 /\ b2 + d2 = l2 + m2 /\ b3 + d3 = l3 + m3 /\
        0 < len /\
        len * len = (m1 - l1) * (m1 - l1) + (m2 - l2) * (m2 - l2) + (m3 - l3) * (m3 - l3) /\
        (a1 - b1) * len = size * (m1 - l1) /\
        (a2 - b2) * len = size * (m2 - l2) /\
        (a3 - b3) * len = size * (m3 - l3) /\
        (b1 - c1) * (m1 - l1) + (b2 - c2) * (m2 - l2) + (b3 - c3) * (m3 - l3) = 0 /\
        (b1 - c1) * (b1 - c1) + (b2 - c2) * (b2 - c2) + (b3 - c3) * (b3 - c3)
        = size * size).
Proof.
  split.
  - intros Heq. injection Heq as -> -> ->.
    unfold create_plane_polygon. cbn [np_elementwise length Nat.eqb zip_with bind].
    assert (Hz : np_linalg_norm [sub m1 m1; sub m2 m2; sub m3 m3] = 0)
      by (apply norm3_zero; cbn; lra).
    rewrite Hz. unfold is_zero, R_scalar.
    destruct (Req_dec_T 0 0) as [_ | Hno]; [reflexivity | contradiction].
  - intros Hne.
    assert (Hn : np_linalg_norm [m1 - l1; m2 - l2; m3 - l3] <> 0).
    { intros Hz. apply norm3_zero in Hz. destruct Hz as (H1 & H2 & H3).
      apply Hne. f_equal; [lra |]. f_equal; [lra |]. f_equal. lra. }
    pose proof (norm3_square (m1 - l1) (m2 - l2) (m3 - l3)) as Hsq.
    pose proof (norm3_pos (m1 - l1) (m2 - l2) (m3 - l3)) as Hpos.
    unfold create_plane_polygon. cbn [np_elementwise length Nat.eqb zip_with bind].
    change (sub m1 l1) with (m1 - l1). change (sub m2 l2) with (m2 - l2).
    change (sub m3 l3) with (m3 - l3).
    set (n := np_linalg_norm [m1 - l1; m2 - l2; m3 - l3]) in *.
    unfold is_zero at 1. cbn [R_scalar].
    destruct (Req_dec_T n 0) as [Hz | _]; [contradiction |].
    cbn [np_div_scalar map].
    change (div (m1 - l1) n) with ((m1 - l1) / n).
    change (div (m2 - l2) n) with ((m2 - l2) / n).
    change (div (m3 - l3) n) with ((m3 - l3) / n).
    set (u1 := (m1 - l1) / n). set (u2 := (m2 - l2) / n). set (u3 := (m3 - l3) / n).
    assert (Hu : u1 * u1 + u2 * u2 + u3 * u3 = 1).
    { unfold u1, u2, u3.
      replace ((m1 - l1) / n * ((m1 - l1) / n) + (m2 - l2) / n * ((m2 - l2) / n)
               + (m3 - l3) / n * ((m3 - l3) / n))
        with (((m1 - l1) * (m1 - l1) + (m2 - l2) * (m2 - l2) + (m3 - l3) * (m3 - l3))
              / (n * n)) by (field; exact Hn).
      rewrite <- Hsq. field. exact Hn. }
    destruct (perp_vector_nonzero u1 u2 u3 Hu) as (c1 & c2 & c3 & Hperp & Hpn & Horth).
    cbn [np_dot length Nat.eqb bind] in Hperp.
    cbn [np_dot length Nat.eqb bind]. rewrite Hperp. cbn [bind].
    pose proof (norm3_square c1 c2 c3) as Hpsq.
    set (pn := np_linalg_norm [c1; c2; c3]) in *.
    cbn [np_div_scalar np_mul_scalar map np_cross bind np_elementwise length Nat.eqb
         zip_with].
    cbn [add sub mul div lit R_scalar].
    assert (Hp : c1 / pn * (c1 / pn) + c2 / pn * (c2 / pn) + c3 / pn * (c3 / pn) = 1).
    { replace (c1 / pn * (c1 / pn) + c2 / pn * (c2 / pn) + c3 / pn * (c3 / pn))
        with ((c1 * c1 + c2 * c2 + c3 * c3) / (pn * pn)) by (field; exact Hpn).
      rewrite <- Hpsq. field. exact Hpn. }
    assert (Hpu : c1 / pn * u1 + c2 / pn * u2 + c3 / pn * u3 = 0).
    { replace (c1 / pn * u1 + c2 / pn * u2 + c3 / pn * u3)
        with ((c1 * u1 + c2 * u2 + c3 * u3) / pn) by (field; exact Hpn).
      rewrite Horth. field. exact Hpn. }
    set (p1 := c1 / pn) in *. set (p2 := c2 / pn) in *. set (p3 := c3 / pn) in *.
    assert (Hv1 : m1 - l1 = u1 * n) by (unfold u1; field; exact Hn).
    assert (Hv2 : m2 - l2 = u2 * n) by (unfold u2; field; exact Hn).
    assert (Hv3 : m3 - l3 = u3 * n) by (unfold u3; field; exact Hn).
    clearbody u1 u2 u3 p1 p2 p3.
    do 12 eexists. exists n.
    split; [reflexivity |].
    do 6 (split; [field |]).
    split; [lra |]. split; [exact Hsq |].
    rewrite Hv1, Hv2, Hv3.
    do 3 (split; [field |]).
    split.
    + replace ((l1 + m1) / 2 + p1 * (size / 2) - u1 * (size / 2)
               - ((l1 + m1) / 2 - p1 * (size / 2) - u1 * (size / 2))) with (size * p1)
        by field.
      replace ((l2 + m2) / 2 + p2 * (size / 2) - u2 * (size / 2)
               - ((l2 + m2) / 2 - p2 * (size / 2) - u2 * (size / 2))) with (size * p2)
        by field.
      replace ((l3 + m3) / 2 + p3 * (size / 2) - u3 * (size / 2)
               - ((l3 + m3) / 2 - p3 * (size / 2) - u3 * (size / 2))) with (size * p3)
        by field.
      replace (size * p1 * (u1 * n) + size * p2 * (u2 * n) + size * p3 * (u3 * n))
        with (size * n * (p1 * u1 + p2 * u2 + p3 * u3)) by ring.
      rewrite Hpu. ring.
    + replace ((l1 + m1) / 2 + p1 * (size / 2) - u1 * (size / 2)
               - ((l1 + m1) / 2 - p1 * (size / 2) - u1 * (size / 2))) with (size * p1)
        by field.
      replace ((l2 + m2) / 2 + p2 * (size / 2) - u2 * (size / 2)
               - ((l2 + m2) / 2 - p2 * (size / 2) - u2 * (size / 2))) with (size * p2)
        by field.
      replace ((l3 + m3) / 2 + p3 * (size / 2) - u3 * (size / 2)
               - ((l3 + m3) / 2 - p3 * (size / 2) - u3 * (size / 2))) with (size * p3)
        by field.
      replace (size * p1 * (size * p1) + size * p2 * (size * p2) + size * p3 * (size * p3))
        with (size * size * (p1 * p1 + p2 * p2 + p3 * p3)) by ring.
      rewrite Hp. ring.
Qed.
End PlanePolygon.

Lemma create_plane_polygon_square_witness :
  exists a1 a2 a3 b1 b2 b3 c1 c2 c3 d1 d2 d3 len,
    RealtimeVisualizerPolygon.create_plane_polygon
      [0; 0; 0]%R [10; 0; 0]%R [1; 2; 3]%R 50%R
    = Ok (Some [[a1; a2; a3]; [b1; b2; b3]; [c1; c2; c3]; [d1; d2; d3]]) /\
    (a1 + c1 = 0 + 10 /\ a2 + c2 = 0 + 0 /\ a3 + c3 = 0 + 0 /\
     b1 + d1 = 0 + 10 /\ b2 + d2 = 0 + 0 /\ b3 + d3 = 0 + 0 /\
     0 < len /\
     len * len = (10 - 0) * (10 - 0) + (0 - 0) * (0 - 0) + (0 - 0) * (0 - 0) /\
     (a1 - b1) * len = 50 * (10 - 0) /\
     (a2 - b2) * len = 50 * (0 - 0) /\
     (a3 - b3) * len = 50 * (0 - 0) /\
     (b1 - c1) * (10 - 0) + (b2 - c2) * (0 - 0) + (b3 - c3) * (0 - 0) = 0 /\
     (b1 - c1) * (b1 - c1) + (b2 - c2) * (b2 - c2) + (b3 - c3) * (b3 - c3) = 50 * 50)%R.
Proof.
  assert (Hne : [0; 0; 0]%R <> [10; 0; 0]%R) by (intros Heq; injection Heq; lra).
  exact (proj2 (create_plane_polygon_square 0 0 0 10 0 0 50 [1; 2; 3]%R) Hne).
Defined.

(** The same polygon on binary64, and a line along the second axis, where
    the other auxiliary vector is taken. *)
Example f64_plane_polygon :
  RealtimeVisualizerPolygon.create_plane_polygon
    [0; 0; 0]%float [10; 0; 0]%float [1; 2; 3]%float 50%float
  = Ok (Some [[30; 0; 25]; [-20; 0; 25]; [-20; 0; -25]; [30; 0; -25]]%float)
  /\ RealtimeVisualizerPolygon.create_plane_polygon
       [0; 0; 0]%float [0; 10; 0]%float [1; 2; 3]%float 50%float
     = Ok (Some [[0; 30; -25]; [0; -20; -25]; [0; -20; 25]; [0; 30; 25]]%float).
Proof. split; vm_compute; reflexivity. Qed.

(** ** The two lookups *)

Section Lookups.
Context {T : Type} `{Scalar T} (py_float : string -> option T).

(** X25. The lookup of the tracker and the lookup of [visualize_points]
    agree, but for the lines of the tracker that print the position: for a
    tracker that has received the pose of the femur, where
    [calculate_point_position] returns a point, [calculate_mapped_point]
    returns a point with the same label, positions and rotation when the
    position of the tracker has at least three components, and raises
    [IndexError] when it has fewer; where [calculate_mapped_point] returns
    a point, [calculate_point_position] returns the same; and when
    [calculate_point_position] returns [None] or fails to load the file,
    [calculate_mapped_point] returns [None]. *)
Theorem lookups_agree (self : rigid_body_tracker.tracker (T:=T))
    (position rotation : list T) (label : string) (csv_filename : source) :
  rigid_body_tracker.femur_data_received self = true ->
  rigid_body_tracker.femur_position self = Some position ->
  rigid_body_tracker.femur_rotation self = Some rotation ->
  (forall p,
     visualize_points.calculate_point_position py_float label position rotation csv_filename
     = Ok (Some p) ->
     (3 <= length position ->
      exists mapped,
        rigid_body_tracker.calculate_mapped_point py_float self label csv_filename
        = Ok (Some mapped) /\ same_point p mapped)
     /\ (length position < 3 ->
         rigid_body_tracker.calculate_mapped_point py_float self label csv_filename
         = Raise IndexError))
  /\ (forall mapped,
        rigid_body_tracker.calculate_mapped_point py_float self label csv_filename
        = Ok (Some mapped) ->
        exists p,
          visualize_points.calculate_point_position py_float label position rotation
            csv_filename = Ok (Some p) /\ same_point p mapped)
  /\ (visualize_points.calculate_point_position py_float label position rotation csv_filename
      = Ok None ->
      rigid_body_tracker.calculate_mapped_point py_float self label csv_filename = Ok None)
  /\ (raises (visualize_points.load_csv_data py_float csv_filename) ->
      rigid_body_tracker.calculate_mapped_point py_float self label csv_filename = Ok None).
Proof.
  intros Hreceived Hposition Hrotation.
  unfold rigid_body_tracker.calculate_mapped_point,
    visualize_points.calculate_point_position.
  cbn zeta. rewrite Hreceived, Hposition, Hrotation.
  destruct (visualize_points.load_csv_data py_float csv_filename) as [points | e] eqn:Hload.
  2: { cbn [bind]. repeat split; intros; destruct e; try discriminate; reflexivity. }
  cbn [bind].
  destruct (points !! Some label) as [entry |] eqn:Hentry.
  2: { destruct (join_sorted_keys points) as [[] | e]; cbn [bind];
         repeat split; try discriminate; try reflexivity; intros (e' & He); discriminate. }
  destruct (load_csv_data_shapes py_float _ _ _ _ Hload Hentry) as [Hfemur Hstylus].
  destruct (open_csv csv_filename) as [rows | e].
  2: { cbn [bind]. repeat split; try discriminate; try reflexivity;
         intros (e' & He); discriminate. }
  cbn [bind].
  destruct (visualize_points.find_femur_rotation py_float rows label)
    as [[reference_rotation |] | e]; cbn [bind rigid_body_tracker.array_of].
  2: { repeat split; try discriminate; try reflexivity; intros (e' & He); discriminate. }
  2: { repeat split; try discriminate; try reflexivity; intros (e' & He); discriminate. }
  destruct (calculate_updated_stylus_position _ _ _ _ _) as [target | e] eqn:Htarget.
  2: { cbn [bind]. repeat split; try discriminate; try reflexivity;
         intros (e' & He); discriminate. }
  cbn [bind].
  destruct (reprojection_rotations _ _ _ _ _ _ Htarget) as (R_ref & R_new & _ & ->).
  cbn [bind].
  pose proof (reprojection_result_length _ _ _ _ _ _ Htarget) as Hlength.
  assert (Hmm : length (convert_to_millimeters position) = length position)
    by (unfold convert_to_millimeters; now rewrite length_map).
  destruct (Nat.le_gt_cases 3 (length position)) as [Hshown | Hshort].
  - rewrite !display3_shown by (rewrite ?Hmm, ?Hlength, ?Hfemur, ?Hstylus; lia).
    cbn [bind]. split; [| split; [| split]].
    + intros p Hp. injection Hp as <-. split; [| intros Hlt; lia].
      intros _. eexists. split; [reflexivity |]. repeat split.
    + intros mapped Hm. injection Hm as <-. eexists. split; [reflexivity |]. repeat split.
    + discriminate.
    + intros (e & He). discriminate.
  - rewrite (display3_index_error (convert_to_millimeters position)) by (rewrite Hmm; lia).
    cbn [bind]. split; [| split; [| split]].
    + intros p Hp. split; [intros Hge; lia | intros _; reflexivity].
    + discriminate.
    + discriminate.
    + intros (e & He). discriminate.
Qed.

End Lookups.

Lemma lookups_agree_witness :
  exists mapped,
    rigid_body_tracker.calculate_mapped_point float_of_numeral
      tracker_at_reference "L1" identity_catalog = Ok (Some mapped) /\
    same_point
      {| visualize_points.point_label := "L1";
         visualize_points.calculated_position_mm := [0; -10; 0]%float;
         visualize_points.current_femur_pos_mm := [0; 0; 0]%float;
         visualize_points.reference_femur_pos_mm := [0; 0; 0]%float;
         visualize_points.reference_stylus_pos_mm := [0; 10; 0]%float;
         visualize_points.reference_femur_rotation := [1; 0; 0; 0]%float |}
      mapped.
Proof.
  assert (Hp : visualize_points.calculate_point_position float_of_numeral "L1"
                 [0; 0; 0]%float [0; 0; 0; 1]%float identity_catalog
               = Ok (Some {| visualize_points.point_label := "L1";
                             visualize_points.calculated_position_mm := [0; -10; 0]%float;
                             visualize_points.current_femur_pos_mm := [0; 0; 0]%float;
                             visualize_points.reference_femur_pos_mm := [0; 0; 0]%float;
                             visualize_points.reference_stylus_pos_mm := [0; 10; 0]%float;
                             visualize_points.reference_femur_rotation :=
                               [1; 0; 0; 0]%float |}))
    by (vm_compute; reflexivity).
  exact (proj1 (proj1 (lookups_agree float_of_numeral tracker_at_reference
                         [0; 0; 0]%float [0; 0; 0; 1]%float "L1" identity_catalog
                         eq_refl eq_refl eq_refl) _ Hp) (le_n 3)).
Defined.

Section PlanePolygonShapes.
Context {T : Type} `{Scalar T} `{Ordered T}.
Import RealtimeVisualizerPolygon.

(** X26. On two points of three components [create_plane_polygon] raises
    nothing, whatever the numbers: it returns [None] or four corners of
    three components.  On two points with the same number of components,
    other than three, it returns [None] or raises [ValueError]. *)
Theorem create_plane_polygon_shapes (l_pos m_pos center_pos : list T) (size : T) :
  (length l_pos = 3 -> length m_pos = 3 ->
   create_plane_polygon l_pos m_pos center_pos size = Ok None \/
   exists corner0 corner1 corner2 corner3,
     create_plane_polygon l_pos m_pos center_pos size
     = Ok (Some [corner0; corner1; corner2; corner3]) /\
     length corner0 = 3 /\ length corner1 = 3 /\
     length corner2 = 3 /\ length corner3 = 3)
  /\ (length l_pos = length m_pos -> length l_pos <> 3 ->
      create_plane_polygon l_pos m_pos center_pos size = Ok None \/
      create_plane_polygon l_pos m_pos center_pos size = Raise ValueError).
Proof.
  split.
  - intros Hl Hm.
    destruct l_pos as [| l1 [| l2 [| l3 [| ? ?]]]]; try discriminate Hl.
    destruct m_pos as [| m1 [| m2 [| m3 [| ? ?]]]]; try discriminate Hm.
    unfold create_plane_polygon. cbn [np_elementwise length Nat.eqb zip_with bind].
    destruct (is_zero _); [left; reflexivity | right].
    cbn [np_div_scalar map np_dot length Nat.eqb bind].
    destruct (gt _ _);
      cbn [np_cross bind np_div_scalar np_mul_scalar map np_elementwise length Nat.eqb
           zip_with];
      eexists _, _, _, _; (split; [reflexivity |]); repeat split.
  - intros Hlen Hl. unfold create_plane_polygon, np_elementwise.
    rewrite (proj2 (Nat.eqb_eq _ _)) by (symmetry; exact Hlen). cbn [bind].
    destruct (is_zero _); [left; reflexivity | right].
    unfold np_dot, np_div_scalar. rewrite length_map, length_zip_with.
    replace (length m_pos `min` length l_pos) with (length l_pos) by lia.
    cbn [length]. rewrite (proj2 (Nat.eqb_neq _ _) Hl). reflexivity.
Qed.

End PlanePolygonShapes.

Lemma create_plane_polygon_shapes_witness :
  RealtimeVisualizerPolygon.create_plane_polygon
    [1; 2; 3]%float [1; 2; 4]%float [] 50%float = Ok None \/
  exists corner0 corner1 corner2 corner3,
    RealtimeVisualizerPolygon.create_plane_polygon
      [1; 2; 3]%float [1; 2; 4]%float [] 50%float
    = Ok (Some [corner0; corner1; corner2; corner3]) /\
    length corner0 = 3 /\ length corner1 = 3 /\
    length corner2 = 3 /\ length corner3 = 3.
Proof.
  exact (proj1 (create_plane_polygon_shapes [1; 2; 3]%float [1; 2; 4]%float [] 50%float)
           eq_refl eq_refl).
Defined.

(** ** The two loops over the pairs *)

Section TwoLoops.
Context {T : Type} `{Scalar T}.

Lemma pair_loops_agree
    (reference_data : gmap cell (realtime_visualization.reference_entry (T:=T)))
    (current_femur_pos_mm current_femur_rot : list T) (indices : list nat) :
  forall (planes : list RealtimeVisualizer.plane) positions',
    for_each
      (simple_realtime_viz.calculate_updated_positions_step
         reference_data current_femur_pos_mm current_femur_rot)
      indices
      (map RealtimeVisualizer.l_pos planes, map RealtimeVisualizer.m_pos planes)
    = Ok positions' ->
    exists planes',
      for_each_keep
        (RealtimeVisualizer.calculate_planes_step
           reference_data current_femur_pos_mm current_femur_rot)
        indices planes
      = (planes', None) /\
      positions' = (map RealtimeVisualizer.l_pos planes', map RealtimeVisualizer.m_pos planes').
Proof.
  induction indices as [| i indices IH]; intros planes positions' Hloop.
  - cbn in Hloop. injection Hloop as <-. exists planes. split; reflexivity.
  - cbn [for_each] in Hloop. cbn [for_each_keep].
    unfold simple_realtime_viz.calculate_updated_positions_step in Hloop at 1.
    unfold RealtimeVisualizer.calculate_planes_step at 1.
    destruct (reference_data !! Some (l_label_of i)) as [l_ref |];
      [destruct (reference_data !! Some (m_label_of i)) as [m_ref |] |].
    + destruct (calculate_updated_stylus_position
                  (realtime_visualization.femur_pos l_ref) _ _ _ _) as [l_pos |];
        [| discriminate Hloop].
      destruct (calculate_updated_stylus_position
                  (realtime_visualization.femur_pos m_ref) _ _ _ _) as [m_pos |];
        [| discriminate Hloop].
      cbn [bind fst snd] in Hloop. cbn [bind].
      apply IH. rewrite !map_app. exact Hloop.
    + cbn [bind] in Hloop. apply IH. exact Hloop.
    + cbn [bind] in Hloop. apply IH. exact Hloop.
Qed.

(** X27. The two visualizers agree: where [calculate_updated_positions] of
    the simple visualizer returns the L and the M positions for a pose,
    [update_tracker_data] of the real-time visualizer, on the same catalog
    and pose, raises nothing and leaves the planes with these L and M
    positions, in the same order. *)
Theorem visualizers_agree (self : RealtimeVisualizer.visualizer)
    (femur_pos_meters femur_rot_quat : option (list T))
    (l_positions m_positions : list (list T)) :
  simple_realtime_viz.calculate_updated_positions
    (RealtimeVisualizer.reference_data self) femur_pos_meters femur_rot_quat
  = Ok (Some (l_positions, m_positions)) ->
  exists planes,
    RealtimeVisualizer.update_tracker_data self femur_pos_meters femur_rot_quat
    = ({| RealtimeVisualizer.current_femur_pos := femur_pos_meters;
          RealtimeVisualizer.current_femur_rot := femur_rot_quat;
          RealtimeVisualizer.calculated_planes := Some planes;
          RealtimeVisualizer.reference_data := RealtimeVisualizer.reference_data self |},
       None) /\
    map RealtimeVisualizer.l_pos planes = l_positions /\
    map RealtimeVisualizer.m_pos planes = m_positions.
Proof.
  unfold simple_realtime_viz.calculate_updated_positions,
    RealtimeVisualizer.update_tracker_data, RealtimeVisualizer.calculate_planes.
  cbn [RealtimeVisualizer.current_femur_pos RealtimeVisualizer.current_femur_rot
       RealtimeVisualizer.reference_data RealtimeVisualizer.calculated_planes].
  destruct (negb (py_truth femur_pos_meters) || negb (py_truth femur_rot_quat));
    [discriminate |].
  destruct femur_pos_meters as [p |]; [| discriminate].
  destruct femur_rot_quat as [q |]; [| discriminate].
  destruct (for_each _ pair_indices ([], [])) as [positions |] eqn:Hloop; [| discriminate].
  cbn [bind]. intros Hpos. injection Hpos as ->.
  destruct (pair_loops_agree _ _ _ pair_indices [] _ Hloop) as (planes & -> & Hplanes).
  injection Hplanes as -> ->. exists planes. repeat split.
Qed.

End TwoLoops.

Lemma visualizers_agree_witness :
  exists planes,
    RealtimeVisualizer.update_tracker_data
      {| RealtimeVisualizer.current_femur_pos := None;
         RealtimeVisualizer.current_femur_rot := None;
         RealtimeVisualizer.calculated_planes := None;
         RealtimeVisualizer.reference_data := pair_dictionary |}
      (Some [0; 0; 1]%float) (Some [0; 0; 0; 1]%float)
    = ({| RealtimeVisualizer.current_femur_pos := Some [0; 0; 1]%float;
          RealtimeVisualizer.current_femur_rot := Some [0; 0; 0; 1]%float;
          RealtimeVisualizer.calculated_planes := Some planes;
          RealtimeVisualizer.reference_data := pair_dictionary |}, None) /\
    map RealtimeVisualizer.l_pos planes = [[10; 0; 1000]%float] /\
    map RealtimeVisualizer.m_pos planes = [[0; 10; 1000]%float].
Proof.
  assert (Hpos : simple_realtime_viz.calculate_updated_positions pair_dictionary
                   (Some [0; 0; 1]%float) (Some [0; 0; 0; 1]%float)
                 = Ok (Some ([[10; 0; 1000]%float], [[0; 10; 1000]%float])))
    by (vm_compute; reflexivity).
  exact (visualizers_agree
           {| RealtimeVisualizer.current_femur_pos := None;
              RealtimeVisualizer.current_femur_rot := None;
              RealtimeVisualizer.calculated_planes := None;
              RealtimeVisualizer.reference_data := pair_dictionary |}
           _ _ _ _ Hpos).
Defined.

(** ** On binary64: where the exact properties stop

    The squares of the components of a quaternion underflow below about
    [2^-511] and overflow above about [2^512]; the norm is then rounded
    coarsely, or is infinite, and the normalised quaternion is not of norm
    one.  [0x1.8p-537] is [1.5 * 2^-537]. *)







(** ** On tables: where the lookup does not answer

    A catalog that loads and has the label, with a rotation cell that is
    not a numeral: the cell is read only by the lookup, which raises.  And
    a catalog that loads with a row without its label: the message for a
    label that is not there cannot list the labels. *)

Lemma catalog_miss_counterexample :
  (exists points,
     visualize_points.load_csv_data (T:=float) float_of_numeral (Csv [bad_rotation_row])
     = Ok points /\
     is_Some (points !! Some "L1"%string) /\
     visualize_points.calculate_point_position float_of_numeral "L1"
       [0; 0; 0]%float [0; 0; 0; 1]%float (Csv [bad_rotation_row]) = Raise ValueError /\
     rigid_body_tracker.calculate_mapped_point float_of_numeral
       tracker_at_reference "L1" (Csv [bad_rotation_row]) = Raise ValueError)
  /\ (exists points,
        visualize_points.load_csv_data (T:=float) float_of_numeral (Csv [unlabelled_row])
        = Ok points /\
        points !! Some "M1"%string = None /\
        visualize_points.calculate_point_position float_of_numeral "M1"
          [0; 0; 0]%float [0; 0; 0; 1]%float (Csv [unlabelled_row]) = Raise TypeError /\
        rigid_body_tracker.calculate_mapped_point float_of_numeral
          tracker_at_reference "M1" (Csv [unlabelled_row]) = Raise TypeError).
Proof.
  split.
  - eexists. split; [vm_compute; reflexivity |].
    split; [eexists; vm_compute; reflexivity |].
    split; vm_compute; reflexivity.
  - eexists. split; [vm_compute; reflexivity |].
    split; [vm_compute; reflexivity |].
    split; vm_compute; reflexivity.
Qed.
